(** * leah_sign: the real-time control core of an ATtiny85 LED sign

    A shallow embedding of [leah_sign.c] (the revision with the EEPROM
    settings, the watchdog restart and the twelve lighting sequences):
    the two timer-1 interrupt handlers that emulate a fourth PWM channel,
    the timer-0 millisecond time base, the blocking ADC reader, the button
    monitor with its hold-to-restart ladder, the microphone ring buffer
    with its mean-absolute-deviation estimator, and the lighting
    sequences with their cooperative polling. *)

From Stdlib Require Import ZArith Lia Bool List.
From stdpp Require Import base list.
Import ListNotations.
Local Open Scope Z_scope.

(** ** Fixed-width integers of the AVR target

    [int] is 16 bits wide on AVR; [uint8_t], [uint16_t] and [uint64_t]
    values are kept as [Z] and reduced after every operation that can
    leave the range. *)

Definition u8 (x : Z) : Z := x mod 256.
Definition u16 (x : Z) : Z := x mod 65536.
Definition u64 (x : Z) : Z := x mod 2 ^ 64.

(** Conversion of a 16-bit pattern to [int] (two's complement). *)
Definition s16 (x : Z) : Z :=
  let y := x mod 65536 in if y <? 32768 then y else y - 65536.

(** [abs] of [stdlib.h] on a 16-bit [int]. *)
Definition abs16 (x : Z) : Z := s16 (Z.abs (s16 x)).

(** ** Hardware and environment

    Time is counted in timer-0 overflow periods since power-up.  The
    environment fixes what the converter reads on each channel at each
    instant, how many timer-0 overflows fall into one conversion and into a
    busy-wait of [n] milliseconds, and the values [rand] returns. *)

Record Hardware := mkHardware {
  analog : Z -> Z -> Z;
  adc_ovf : Z -> nat;
  ms_ovf : Z -> Z -> nat;
  rand_val : nat -> Z
}.

Inductive reg := R_OCR0A | R_OCR0B | R_OCR1B | R_OCR1A.

(** Hardware-visible events, most recent first in [trace]. *)
Inductive event :=
| EvPwm (r : reg) (v : Z)
| EvDelay (ms : Z)
| EvAdc (ch : Z) (v : Z)
| EvEeprom (v : Z)
| EvWdt (wdto : Z).

Record World := mkWorld {
  now : Z;
  OCR0A : Z;
  OCR0B : Z;
  OCR1B : Z;
  OCR1A : Z;
  PORTB : Z;
  ADMUX : Z;
  timer_interrupt_ticks : Z;
  millis : Z;
  mic_buffer : list Z;
  mic_buffer_current : Z;
  settings_start_seq : Z;
  settings_start_seq_ee : Z;
  wdt : option Z;
  rand_calls : nat;
  trace : list event
}.

Definition set_now (v : Z) (w : World) : World :=
  mkWorld v (OCR0A w) (OCR0B w) (OCR1B w) (OCR1A w) (PORTB w) (ADMUX w)
    (timer_interrupt_ticks w) (millis w) (mic_buffer w) (mic_buffer_current w)
    (settings_start_seq w) (settings_start_seq_ee w) (wdt w) (rand_calls w) (trace w).

Definition set_OCR0A (v : Z) (w : World) : World :=
  mkWorld (now w) v (OCR0B w) (OCR1B w) (OCR1A w) (PORTB w) (ADMUX w)
    (timer_interrupt_ticks w) (millis w) (mic_buffer w) (mic_buffer_current w)
    (settings_start_seq w) (settings_start_seq_ee w) (wdt w) (rand_calls w) (trace w).

Definition set_OCR0B (v : Z) (w : World) : World :=
  mkWorld (now w) (OCR0A w) v (OCR1B w) (OCR1A w) (PORTB w) (ADMUX w)
    (timer_interrupt_ticks w) (millis w) (mic_buffer w) (mic_buffer_current w)
    (settings_start_seq w) (settings_start_seq_ee w) (wdt w) (rand_calls w) (trace w).

Definition set_OCR1B (v : Z) (w : World) : World :=
  mkWorld (now w) (OCR0A w) (OCR0B w) v (OCR1A w) (PORTB w) (ADMUX w)
    (timer_interrupt_ticks w) (millis w) (mic_buffer w) (mic_buffer_current w)
    (settings_start_seq w) (settings_start_seq_ee w) (wdt w) (rand_calls w) (trace w).

Definition set_OCR1A (v : Z) (w : World) : World :=
  mkWorld (now w) (OCR0A w) (OCR0B w) (OCR1B w) v (PORTB w) (ADMUX w)
    (timer_interrupt_ticks w) (millis w) (mic_buffer w) (mic_buffer_current w)
    (settings_start_seq w) (settings_start_seq_ee w) (wdt w) (rand_calls w) (trace w).

Definition set_PORTB (v : Z) (w : World) : World :=
  mkWorld (now w) (OCR0A w) (OCR0B w) (OCR1B w) (OCR1A w) v (ADMUX w)
    (timer_interrupt_ticks w) (millis w) (mic_buffer w) (mic_buffer_current w)
    (settings_start_seq w) (settings_start_seq_ee w) (wdt w) (rand_calls w) (trace w).

Definition set_ADMUX (v : Z) (w : World) : World :=
  mkWorld (now w) (OCR0A w) (OCR0B w) (OCR1B w) (OCR1A w) (PORTB w) v
    (timer_interrupt_ticks w) (millis w) (mic_buffer w) (mic_buffer_current w)
    (settings_start_seq w) (settings_start_seq_ee w) (wdt w) (rand_calls w) (trace w).

Definition set_timebase (t m : Z) (w : World) : World :=
  mkWorld (now w) (OCR0A w) (OCR0B w) (OCR1B w) (OCR1A w) (PORTB w) (ADMUX w)
    t m (mic_buffer w) (mic_buffer_current w)
    (settings_start_seq w) (settings_start_seq_ee w) (wdt w) (rand_calls w) (trace w).

Definition set_mic (b : list Z) (c : Z) (w : World) : World :=
  mkWorld (now w) (OCR0A w) (OCR0B w) (OCR1B w) (OCR1A w) (PORTB w) (ADMUX w)
    (timer_interrupt_ticks w) (millis w) b c
    (settings_start_seq w) (settings_start_seq_ee w) (wdt w) (rand_calls w) (trace w).

Definition set_settings_start_seq (v : Z) (w : World) : World :=
  mkWorld (now w) (OCR0A w) (OCR0B w) (OCR1B w) (OCR1A w) (PORTB w) (ADMUX w)
    (timer_interrupt_ticks w) (millis w) (mic_buffer w) (mic_buffer_current w)
    v (settings_start_seq_ee w) (wdt w) (rand_calls w) (trace w).

Definition set_eeprom (v : Z) (w : World) : World :=
  mkWorld (now w) (OCR0A w) (OCR0B w) (OCR1B w) (OCR1A w) (PORTB w) (ADMUX w)
    (timer_interrupt_ticks w) (millis w) (mic_buffer w) (mic_buffer_current w)
    (settings_start_seq w) v (wdt w) (rand_calls w) (trace w).

Definition set_wdt (v : option Z) (w : World) : World :=
  mkWorld (now w) (OCR0A w) (OCR0B w) (OCR1B w) (OCR1A w) (PORTB w) (ADMUX w)
    (timer_interrupt_ticks w) (millis w) (mic_buffer w) (mic_buffer_current w)
    (settings_start_seq w) (settings_start_seq_ee w) v (rand_calls w) (trace w).

Definition set_rand_calls (v : nat) (w : World) : World :=
  mkWorld (now w) (OCR0A w) (OCR0B w) (OCR1B w) (OCR1A w) (PORTB w) (ADMUX w)
    (timer_interrupt_ticks w) (millis w) (mic_buffer w) (mic_buffer_current w)
    (settings_start_seq w) (settings_start_seq_ee w) (wdt w) v (trace w).

Definition log (e : event) (w : World) : World :=
  mkWorld (now w) (OCR0A w) (OCR0B w) (OCR1B w) (OCR1A w) (PORTB w) (ADMUX w)
    (timer_interrupt_ticks w) (millis w) (mic_buffer w) (mic_buffer_current w)
    (settings_start_seq w) (settings_start_seq_ee w) (wdt w) (rand_calls w)
    (e :: trace w).

(** Power-on state: zero-initialised globals, the pin low. *)
Definition power_on : World :=
  mkWorld 0 0 0 0 0 0 0 0 0 (replicate 16 0) 0 0 0 None 0%nat [].

(** ** Emulated PWM channel (timer-1 interrupts) *)

Definition PB3 : Z := 3.

(** [ISR(TIMER1_OVF_vect)]: set the pin on overflow, unless the duty is in
    the dead zone. *)
Definition ISR_TIMER1_OVF (w : World) : World :=
  if OCR1A w >? 4 then set_PORTB (Z.lor (PORTB w) (Z.shiftl 1 PB3)) w else w.

(** [ISR(TIMER1_COMPA_vect)]: clear the pin on match. *)
Definition ISR_TIMER1_COMPA (w : World) : World :=
  set_PORTB (Z.land (PORTB w) (u8 (Z.lnot (Z.shiftl 1 PB3)))) w.

Definition pin_high (w : World) : bool := Z.testbit (PORTB w) PB3.

(** One period of timer 1 in PWM mode with the top value 255: the counter
    runs through 0..255; the overflow interrupt is raised as the counter
    restarts at 0 and the compare-match interrupt when the counter equals
    the live [OCR1A].  [timer1_count] handles one counter value and
    reports whether the pin is high for that count; with [late] the level
    is taken before the compare-match handler has run (the handler's
    effect shows one count later), otherwise after it. *)
Definition timer1_count (late : bool) (c : Z) (w : World) : World * bool :=
  let w1 := if c =? 0 then ISR_TIMER1_OVF w else w in
  let w2 := if c =? OCR1A w1 then ISR_TIMER1_COMPA w1 else w1 in
  (w2, if late then pin_high w1 else pin_high w2).

Fixpoint timer1_run (late : bool) (n : nat) (c : Z) (w : World) : World * Z :=
  match n with
  | O => (w, 0)
  | S n' =>
      let '(w1, h) := timer1_count late c w in
      let '(w2, hs) := timer1_run late n' (c + 1) w1 in
      (w2, (if h then 1 else 0) + hs)
  end.

(** The world after one full period and the number of counts, out of 256,
    during which the pin was high. *)
Definition timer1_period (late : bool) (w : World) : World * Z :=
  timer1_run late 256 0 w.

(** ** Time base (timer-0 overflow interrupt) *)

(** [ISR(TIMER0_OVF_vect)] *)
Definition ISR_TIMER0_OVF (w : World) : World :=
  let t := u16 (timer_interrupt_ticks w + 1) in
  if t >? 4 then set_timebase 0 (u64 (millis w + 1)) w
  else set_timebase t (millis w) w.

(** One timer-0 period passes: the overflow interrupt is served. *)
Definition overflow (w : World) : World :=
  ISR_TIMER0_OVF (set_now (now w + 1) w).

Definition elapse (k : nat) (w : World) : World := Nat.iter k overflow w.

(** ** Foreground computations

    A foreground computation transforms the world and ends in one of four
    ways: it completes with a value, it executes [return v] of the
    enclosing sequence function, the watchdog restarts the device, or it
    is still looping when the fuel given to its unbounded loops is used
    up. *)

Inductive outcome (A : Type) : Type :=
| Done (a : A) (w : World)
| Returned (v : Z) (w : World)
| Restart (w : World)
| Spin (w : World).
Arguments Done {A} a w.
Arguments Returned {A} v w.
Arguments Restart {A} w.
Arguments Spin {A} w.

Definition M (A : Type) : Type := World -> outcome A.

Definition ret {A} (a : A) : M A := fun w => Done a w.

Definition bind {A B} (c : M A) (f : A -> M B) : M B :=
  fun w =>
    match c w with
    | Done a w' => f a w'
    | Returned v w' => Returned v w'
    | Restart w' => Restart w'
    | Spin w' => Spin w'
    end.

Declare Scope fg_scope.
Delimit Scope fg_scope with fg.
Notation "x <- c ;; k" := (bind c (fun x => k))
  (at level 100, c at next level, right associativity) : fg_scope.
Notation "c ;; k" := (bind c (fun _ => k))
  (at level 100, right associativity) : fg_scope.
Local Open Scope fg_scope.

Definition effect (f : World -> World) : M unit := fun w => Done tt (f w).
Definition read {A} (f : World -> A) : M A := fun w => Done (f w) w.
Definition return_ {A} (v : Z) : M A := fun w => Returned v w.

(** The body of a function of result type [int]: an early [return v]
    anywhere inside becomes its result. *)
Definition fn (c : M Z) : M Z :=
  fun w => match c w with Returned v w' => Done v w' | o => o end.

Definition world_of {A} (o : outcome A) : World :=
  match o with Done _ w | Returned _ w | Restart w | Spin w => w end.

(** [while (cond) body] over the loop-carried locals [s]. *)
Fixpoint while_ {S : Type} (fuel : nat) (cond : S -> World -> bool)
    (body : S -> M S) (s : S) : M S :=
  match fuel with
  | O => fun w => Spin w
  | Datatypes.S fuel' =>
      fun w => if cond s w then bind (body s) (while_ fuel' cond body) w
               else Done s w
  end.

(** A counted [for] loop over the loop-carried locals [s]: [n] rounds, the
    index starting at [i] and moving by [d] each round. *)
Fixpoint rounds {S : Type} (n : nat) (i d : Z) (body : Z -> S -> M S) (s : S)
    : M S :=
  match n with
  | O => ret s
  | Datatypes.S n' => s' <- body i s ;; rounds n' (i + d) d body s'
  end.

(** [for (i = a; i < b; i += s)], [for (i = a; i <= b; i += s)],
    [for (i = a; i > b; i -= s)] and [for (i = a; i >= b; i -= s)]. *)
Definition for_lt {S} (a b s : Z) (body : Z -> S -> M S) : S -> M S :=
  rounds (Z.to_nat ((b - a + s - 1) / s)) a s body.
Definition for_le {S} (a b s : Z) (body : Z -> S -> M S) : S -> M S :=
  rounds (Z.to_nat ((b - a) / s + 1)) a s body.
Definition for_gt {S} (a b s : Z) (body : Z -> S -> M S) : S -> M S :=
  rounds (Z.to_nat ((a - b + s - 1) / s)) a (- s) body.
Definition for_ge {S} (a b s : Z) (body : Z -> S -> M S) : S -> M S :=
  rounds (Z.to_nat ((a - b) / s + 1)) a (- s) body.

Section Firmware.

Context (hw : Hardware).

(** ** Primitives *)

(** [_delay_ms(n)]: a busy wait; the timer-0 interrupts falling into it
    are served. *)
Definition _delay_ms (n : Z) : M unit :=
  effect (fun w => log (EvDelay n) (elapse (ms_ovf hw (now w) n) w)).

Definition get_reg (r : reg) (w : World) : Z :=
  match r with
  | R_OCR0A => OCR0A w | R_OCR0B => OCR0B w
  | R_OCR1B => OCR1B w | R_OCR1A => OCR1A w
  end.

Definition set_reg (r : reg) (v : Z) (w : World) : World :=
  match r with
  | R_OCR0A => set_OCR0A v w | R_OCR0B => set_OCR0B v w
  | R_OCR1B => set_OCR1B v w | R_OCR1A => set_OCR1A v w
  end.

(** A store to one of the four 8-bit compare registers. *)
Definition write (r : reg) (v : Z) : M unit :=
  effect (fun w => log (EvPwm r (u8 v)) (set_reg r (u8 v) w)).

(** [OCRx += d] (also [OCRx++] and [OCRx--]). *)
Definition bump (r : reg) (d : Z) : M unit :=
  v <- read (get_reg r) ;; write r (v + d).

(** All four channels at once, in the source's order
    [OCR0A], [OCR0B], [OCR1B], [OCR1A]. *)
Definition write_all (v : Z) : M unit :=
  write R_OCR0A v ;; write R_OCR0B v ;; write R_OCR1B v ;; write R_OCR1A v.
Definition bump_all (d : Z) : M unit :=
  bump R_OCR0A d ;; bump R_OCR0B d ;; bump R_OCR1B d ;; bump R_OCR1A d.

(** [adc_read(ch)]: select the channel in the low three bits of [ADMUX],
    start a conversion, spin until it completes, return the result. *)
Definition adc_read (ch : Z) : M Z :=
  fun w =>
    let w1 := set_ADMUX (Z.lor (Z.land (ADMUX w) 248) ch) w in
    let v := analog hw (Z.land (ADMUX w1) 15) (now w1) in
    Done v (log (EvAdc (Z.land (ADMUX w1) 15) v) (elapse (adc_ovf hw (now w1)) w1)).

(** [rand()] *)
Definition rand : M Z :=
  fun w => Done (rand_val hw (rand_calls w)) (set_rand_calls (S (rand_calls w)) w).

(** ** Settings and restart *)

Definition WDTO_30MS : Z := 1.

(** [save_settings]: [eeprom_update_byte] of the start sequence. *)
Definition save_settings : M unit :=
  effect (fun w => log (EvEeprom (settings_start_seq w))
                       (set_eeprom (settings_start_seq w) w)).

Definition load_settings : M unit :=
  effect (fun w => set_settings_start_seq (settings_start_seq_ee w) w).

Definition wdt_enable (t : Z) : M unit :=
  effect (fun w => log (EvWdt t) (set_wdt (Some t) w)).

(** [while(1){}]: with the watchdog armed its expiry restarts the device;
    without it the loop spins for ever. *)
Definition spin_forever {A} : M A :=
  fun w => match wdt w with Some _ => Restart w | None => Spin w end.

(** [reset]: software reset using the watchdog timer. *)
Definition reset {A} : M A :=
  wdt_enable WDTO_30MS ;; spin_forever.

(** ** Button monitor *)

(** The confirmation blink of the long press. *)
Definition blink : M unit :=
  for_lt 0 10 1 (fun _ _ =>
    write_all 255 ;; _delay_ms 50 ;; write_all 0 ;; _delay_ms 50) tt.

(** [check_button_input] *)
Definition check_button_input : M Z :=
  s1 <- adc_read 0 ;;
  if s1 <? 1000 then
    _delay_ms 300 ;;
    s2 <- adc_read 0 ;;
    (if s2 <? 1000 then
       _delay_ms 3000 ;;
       s3 <- adc_read 0 ;;
       if s3 <? 1000 then
         blink ;; _delay_ms 2000 ;; save_settings ;; reset
       else ret tt
     else ret tt) ;;
    ret 1
  else ret 0.

(** ** Microphone ring buffer *)

Definition MIC_BUFFER_SIZE : Z := 16.

(** [init_mic_buffer] *)
Definition init_mic_buffer : M unit :=
  effect (fun w =>
    let buf := fold_left (fun b i => <[i := u16 512]> b)
                         (seq 0 (Z.to_nat MIC_BUFFER_SIZE)) (mic_buffer w) in
    set_mic buf 0 w).

(** [get_mic_buffer_mad] on the buffer contents: the 16-bit running total,
    the mean, and the 16-bit running sum of [abs(mic_buffer[i] - mean)]. *)
Definition mic_total (buf : list Z) : Z :=
  fold_left (fun total i => u16 (total + buf !!! i)) (seq 0 (Z.to_nat MIC_BUFFER_SIZE)) 0.

Definition mic_mean (buf : list Z) : Z := mic_total buf / MIC_BUFFER_SIZE.

Definition mic_mad (buf : list Z) : Z :=
  let mean := mic_mean buf in
  fold_left (fun mad i => u16 (mad + abs16 (u16 (buf !!! i - mean))))
            (seq 0 (Z.to_nat MIC_BUFFER_SIZE)) 0
  / MIC_BUFFER_SIZE.

Definition get_mic_buffer_mad : M Z := read (fun w => mic_mad (mic_buffer w)).

(** The noise-floor step and the scaling of [seq12]. *)
Definition noise_floor (mic : Z) : Z := if mic >? 40 then u16 (mic - 40) else 0.
Definition scale_up (mic : Z) : Z := u16 (Z.shiftl (if mic >? 63 then 63 else mic) 2).

(** ** Polled delay *)

(** [if(check_button_input()) return 1;] *)
Definition poll : M unit :=
  b <- check_button_input ;; if b =? 0 then ret tt else return_ 1.

(** [delay_millis_check_button] *)
Definition delay_millis_check_button (fuel : nat) (millisdelay : Z) : M Z :=
  start_time <- read millis ;;
  while_ fuel
    (fun _ w => millis w <? u64 (start_time + millisdelay))
    (fun button_pressed =>
       b <- check_button_input ;;
       ret (if b =? 0 then button_pressed else 1))
    0.

(** [if(delay_millis_check_button(d)) return 1;] *)
Definition wait_poll (fuel : nat) (d : Z) : M unit :=
  b <- delay_millis_check_button fuel d ;; if b =? 0 then ret tt else return_ 1.

(** The guard of every sequence's outer loop. *)
Definition running (timeout start_time : Z) (w : World) : bool :=
  (timeout <? 0) || (millis w <? u64 (start_time + timeout)).

(** ** Lighting sequences *)

(** [while(led < 255){ poll; led++; OCRx = led; _delay_ms(ms); }] and its
    mirror image. *)
Definition fade_in (fuel : nat) (r : reg) (ms : Z) : Z -> M Z :=
  while_ fuel (fun led _ => led <? 255)
    (fun led =>
       poll ;;
       let led := u8 (led + 1) in
       write r led ;; _delay_ms ms ;; ret led).

Definition fade_out (fuel : nat) (r : reg) (ms : Z) : Z -> M Z :=
  while_ fuel (fun led _ => led >? 0)
    (fun led =>
       poll ;;
       let led := u8 (led - 1) in
       write r led ;; _delay_ms ms ;; ret led).

(** The common frame of a sequence: the entry code, the start time and the
    initial values of the locals, the code before the outer loop, the
    outer loop on the guard, [return 0]. *)
Definition sequence {S} (fuel : nat) (timeout : Z) (entry : M unit)
    (locals : Z -> S) (prelude : M unit) (body : S -> M S) : M Z :=
  fn (entry ;;
      start_time <- read millis ;;
      prelude ;;
      while_ fuel (fun _ => running timeout start_time) body
             (locals start_time) ;;
      ret 0).

(** fade each in and then out sequentially *)
Definition seq1_body (fuel : nat) (leds : Z * Z * Z * Z) : M (Z * Z * Z * Z) :=
  let '(led1, led2, led3, led4) := leds in
  led1 <- fade_in fuel R_OCR0A 1 led1 ;;
  led2 <- fade_in fuel R_OCR0B 1 led2 ;;
  led3 <- fade_in fuel R_OCR1B 1 led3 ;;
  led4 <- fade_in fuel R_OCR1A 1 led4 ;;
  led1 <- fade_out fuel R_OCR0A 1 led1 ;;
  led2 <- fade_out fuel R_OCR0B 1 led2 ;;
  led3 <- fade_out fuel R_OCR1B 1 led3 ;;
  led4 <- fade_out fuel R_OCR1A 1 led4 ;;
  ret (led1, led2, led3, led4).

Definition seq1 (fuel : nat) (timeout : Z) : M Z :=
  sequence fuel timeout (write_all 0) (fun _ => (0, 0, 0, 0)) (ret tt) (seq1_body fuel).

(** fade each in sequentially and then fade all out *)
Definition seq2_body (fuel : nat) (leds : Z * Z * Z * Z) : M (Z * Z * Z * Z) :=
  let '(led1, led2, led3, led4) := leds in
  led1 <- fade_in fuel R_OCR0A 2 led1 ;;
  led2 <- fade_in fuel R_OCR0B 2 led2 ;;
  led3 <- fade_in fuel R_OCR1B 2 led3 ;;
  led4 <- fade_in fuel R_OCR1A 2 led4 ;;
  for_gt 255 0 1 (fun _ '(led1, led2, led3, led4) =>
      poll ;;
      let led1 := u8 (led1 - 1) in
      let led2 := u8 (led2 - 1) in
      let led3 := u8 (led3 - 1) in
      let led4 := u8 (led4 - 1) in
      write R_OCR0A led1 ;; write R_OCR0B led2 ;;
      write R_OCR1B led3 ;; write R_OCR1A led4 ;;
      _delay_ms 4 ;;
      ret (led1, led2, led3, led4))
    (led1, led2, led3, led4).

Definition seq2 (fuel : nat) (timeout : Z) : M Z :=
  sequence fuel timeout (write_all 0) (fun _ => (0, 0, 0, 0)) (ret tt) (seq2_body fuel).

(** flash each in sequentially and then fade all out *)
Definition flash (fuel : nat) (r : reg) : M unit :=
  poll ;;
  write r 255 ;; wait_poll fuel 50 ;;
  write r 0 ;; wait_poll fuel 50 ;;
  write r 255 ;; wait_poll fuel 50 ;;
  write r 0 ;; wait_poll fuel 50 ;;
  write r 255.

Definition seq3_body (fuel : nat) (_ : unit) : M unit :=
  flash fuel R_OCR0A ;; wait_poll fuel 100 ;;
  flash fuel R_OCR0B ;; wait_poll fuel 100 ;;
  flash fuel R_OCR1B ;; wait_poll fuel 100 ;;
  flash fuel R_OCR1A ;; wait_poll fuel 500 ;;
  for_gt 255 0 1 (fun i _ => poll ;; write_all i ;; _delay_ms 1) tt ;;
  write_all 0 ;;
  wait_poll fuel 500.

Definition seq3 (fuel : nat) (timeout : Z) : M Z :=
  sequence fuel timeout (write_all 0) (fun _ => tt) (ret tt) (seq3_body fuel).

(** fade all in and then all out *)
Definition seq4_body (fuel : nat) (_ : unit) : M unit :=
  for_lt 0 255 1 (fun j _ => poll ;; write_all j ;; _delay_ms 1) tt ;;
  for_ge 255 0 1 (fun j _ => poll ;; write_all j ;; _delay_ms 1) tt ;;
  wait_poll fuel 100.

Definition seq4 (fuel : nat) (timeout : Z) : M Z :=
  sequence fuel timeout (write_all 0) (fun _ => tt) (ret tt) (seq4_body fuel).

(** flash all quickly *)
Definition seq5_body (fuel : nat) (_ : unit) : M unit :=
  for_lt 0 255 4 (fun j _ => poll ;; write_all j ;; _delay_ms 1) tt ;;
  for_ge 255 0 4 (fun j _ => poll ;; write_all j ;; _delay_ms 1) tt ;;
  wait_poll fuel 30.

Definition seq5 (fuel : nat) (timeout : Z) : M Z :=
  sequence fuel timeout (write_all 0) (fun _ => tt) (ret tt) (seq5_body fuel).

(** chase first to last *)
Definition hand_off (r1 r2 : reg) : M unit :=
  for_le 0 200 2 (fun j _ => poll ;; write r1 (200 - j) ;; write r2 j) tt.

Definition chase (ra rb rc rd : reg) : M unit :=
  for_lt 0 200 2 (fun j _ => poll ;; write ra j) tt ;;
  hand_off ra rb ;;
  hand_off rb rc ;;
  hand_off rc rd ;;
  for_le 0 200 2 (fun j _ => poll ;; write rd (200 - j)) tt.

Definition seq6_body (fuel : nat) (_ : unit) : M unit :=
  chase R_OCR0A R_OCR0B R_OCR1B R_OCR1A ;;
  wait_poll fuel 100.

Definition seq6 (fuel : nat) (timeout : Z) : M Z :=
  sequence fuel timeout (write_all 0) (fun _ => tt) (ret tt) (seq6_body fuel).

(** chase first to last then last to first *)
Definition seq7_body (fuel : nat) (_ : unit) : M unit :=
  chase R_OCR0A R_OCR0B R_OCR1B R_OCR1A ;;
  wait_poll fuel 100 ;;
  chase R_OCR1A R_OCR1B R_OCR0B R_OCR0A ;;
  wait_poll fuel 100.

Definition seq7 (fuel : nat) (timeout : Z) : M Z :=
  sequence fuel timeout (write_all 0) (fun _ => tt) (ret tt) (seq7_body fuel).

(** emulate some type of analog brownouts, spikes, etc. *)
Definition hold (n ms : Z) : M unit :=
  for_lt 0 n 1 (fun _ _ => poll ;; _delay_ms ms) tt.

Definition drift (n d ms : Z) : M unit :=
  for_lt 0 n 1 (fun _ _ => poll ;; bump_all d ;; _delay_ms ms) tt.

Definition seq8_prelude : M unit :=
  for_lt 0 60 1 (fun i _ => poll ;; write_all i ;; _delay_ms 2) tt.

Definition seq8_body (fuel : nat) (_ : unit) : M unit :=
  hold 100 5 ;;
  drift 60 (-1) 3 ;;
  drift 60 1 4 ;;
  hold 100 10 ;;
  drift 40 1 2 ;;
  drift 40 (-1) 2 ;;
  drift 30 (-1) 5 ;;
  hold 100 20 ;;
  drift 30 1 5 ;;
  hold 100 30 ;;
  drift 40 1 2 ;;
  hold 100 20 ;;
  drift 40 (-1) 2.

Definition seq8 (fuel : nat) (timeout : Z) : M Z :=
  sequence fuel timeout (write_all 0) (fun _ => tt) seq8_prelude (seq8_body fuel).

(** flash all and fade out *)
Definition seq9_body (fuel : nat) (_ : unit) : M unit :=
  for_lt 0 100 1 (fun _ _ => poll ;; bump_all 2) tt ;;
  hold 8 1 ;;
  drift 200 (-1) 35 ;;
  hold 100 10.

Definition seq9 (fuel : nat) (timeout : Z) : M Z :=
  sequence fuel timeout (write_all 0) (fun _ => tt) (ret tt) (seq9_body fuel).

(** The per-channel state of the random sequences: [direction] (an
    [int8_t], -1, 0 or 1) and [brightness] (a [uint8_t]), four entries
    each. *)
Definition leds_state : Type := list Z * list Z.

(** One channel of the update loop of [seq10]. *)
Definition update10 (st : leds_state) (i : nat) : leds_state :=
  let '(direction, brightness) := st in
  if (direction !!! i >? 0) && (brightness !!! i <? 255) then
    let brightness := <[i := u8 (brightness !!! i + 1)]> brightness in
    if brightness !!! i >=? 255
    then (<[i := -1]> direction, <[i := 255]> brightness)
    else (direction, brightness)
  else if direction !!! i <? 0 then
    let brightness :=
      if brightness !!! i >? 0
      then <[i := u8 (brightness !!! i - 1)]> brightness else brightness in
    if brightness !!! i <=? 0
    then (<[i := 0]> direction, <[i := 0]> brightness)
    else (direction, brightness)
  else (direction, brightness).

(** One channel of the update loop of [seq11]. *)
Definition update11 (st : leds_state) (i : nat) : leds_state :=
  let '(direction, brightness) := st in
  if (direction !!! i <? 0) && (brightness !!! i >? 0) then
    let brightness := <[i := u8 (brightness !!! i - 1)]> brightness in
    if brightness !!! i <=? 0
    then (<[i := 1]> direction, <[i := 0]> brightness)
    else (direction, brightness)
  else if direction !!! i >? 0 then
    let brightness :=
      if brightness !!! i <? 255
      then <[i := u8 (brightness !!! i + 1)]> brightness else brightness in
    if brightness !!! i >=? 255
    then (<[i := 0]> direction, <[i := 255]> brightness)
    else (direction, brightness)
  else (direction, brightness).

(** The body shared by [seq10] and [seq11]: poll, update the four
    channels, drive them, and with chance 1 in [odds] start an idle
    channel in direction [dir]. *)
Definition random_body (update : leds_state -> nat -> leds_state)
    (odds dir : Z) (st : leds_state) : M leds_state :=
  poll ;;
  let '(direction, brightness) := fold_left update (seq 0 4) st in
  write R_OCR0A (brightness !!! 0%nat) ;;
  write R_OCR0B (brightness !!! 1%nat) ;;
  write R_OCR1A (brightness !!! 2%nat) ;;
  write R_OCR1B (brightness !!! 3%nat) ;;
  r <- rand ;;
  if Z.rem r odds =? 0 then
    r' <- rand ;;
    let led := Z.to_nat (u8 (Z.rem r' 4)) in
    if direction !!! led =? 0
    then ret (<[led := dir]> direction, brightness)
    else ret (direction, brightness)
  else ret (direction, brightness).

(** fade letters in and out randomly *)
Definition seq10 (fuel : nat) (timeout : Z) : M Z :=
  sequence fuel timeout (write_all 0)
    (fun _ => ([0; 0; 0; 0], [0; 0; 0; 0])) (ret tt)
    (random_body update10 50 1).

(** fade letters out and in randomly *)
Definition seq11 (fuel : nat) (timeout : Z) : M Z :=
  sequence fuel timeout (write_all 255)
    (fun _ => ([0; 0; 0; 0], [255; 255; 255; 255])) (ret tt)
    (random_body update11 100 (-1)).

(** flash lights when we hear sounds *)
Definition push_sample (v : Z) : M unit :=
  effect (fun w =>
    let cur := mic_buffer_current w in
    set_mic (<[Z.to_nat cur := u16 v]> (mic_buffer w))
            (Z.rem (s16 (cur + 1)) MIC_BUFFER_SIZE) w).

(** The loop-carried locals of [seq12] are [leds] and [led_time]. *)
Definition seq12_body (st : Z * Z) : M (Z * Z) :=
  let '(_, led_time) := st in
  v <- adc_read 1 ;;
  push_sample v ;;
  mic <- get_mic_buffer_mad ;;
  let mic := scale_up (noise_floor mic) in
  let leds := u8 mic in
  write_all leds ;;
  m <- read millis ;;
  let '(leds, led_time) :=
    if m >? u16 (led_time + 1)
    then (if leds >? 0 then u8 (leds - 1) else leds, u16 m)
    else (leds, led_time) in
  poll ;;
  ret (leds, led_time).

Definition seq12 (fuel : nat) (timeout : Z) : M Z :=
  sequence fuel timeout (write_all 0 ;; init_mic_buffer)
    (fun start_time => (0, u16 start_time)) (ret tt) seq12_body.

(** The twelve lighting sequences. *)
Definition led_sequences : list (nat -> Z -> M Z) :=
  [seq1; seq2; seq3; seq4; seq5; seq6; seq7; seq8; seq9; seq10; seq11; seq12].


End Firmware.

(** * Predicates and auxiliary definitions used in the statements *)

Section Shape.

Context (hw : Hardware).

(** The machine-level steps. *)
Inductive step0 : forall A, M A -> Prop :=
| step0_read A (f : World -> A) : step0 A (read f)
| step0_write r v : step0 unit (write r v)
| step0_delay n : step0 unit (_delay_ms hw n)
| step0_adc ch : 0 <= ch < 8 -> step0 Z (adc_read hw ch)
| step0_rand : step0 Z (rand hw)
| step0_push v : step0 unit (push_sample v)
| step0_init_mic : step0 unit init_mic_buffer
| step0_save : step0 unit save_settings
| step0_wdt t : step0 unit (wdt_enable t)
| step0_spin A : step0 A spin_forever
| step0_return A v : step0 A (return_ v).

(** The steps of a sequence body, with the two polling forms taken whole. *)
Inductive step1 : forall A, M A -> Prop :=
| step1_read A (f : World -> A) : step1 A (read f)
| step1_write r v : step1 unit (write r v)
| step1_delay n : step1 unit (_delay_ms hw n)
| step1_mic : step1 Z (adc_read hw 1)
| step1_rand : step1 Z (rand hw)
| step1_push v : step1 unit (push_sample v)
| step1_init_mic : step1 unit init_mic_buffer
| step1_poll : step1 unit (poll hw)
| step1_wait fuel d : step1 unit (wait_poll hw fuel d).

(** The code of a sequence function inside its [fn] frame. *)
Definition sequence_code {S} (fuel : nat) (timeout : Z) (entry : M unit)
    (locals : Z -> S) (prelude : M unit) (body : S -> M S) : M Z :=
  entry ;;
  start_time <- read millis ;;
  prelude ;;
  while_ fuel (fun _ => running timeout start_time) body (locals start_time) ;;
  ret 0.

(** For a check begun at instant [t]: the instant of the re-sample after
    the debounce delay and the instant of the re-sample after the hold
    delay. *)
Definition t_resample (t : Z) : Z :=
  let t1 := t + Z.of_nat (adc_ovf hw t) in
  t1 + Z.of_nat (ms_ovf hw t1 300).

Definition t_hold (t : Z) : Z :=
  let t2 := t_resample t in
  let t3 := t2 + Z.of_nat (adc_ovf hw t2) in
  t3 + Z.of_nat (ms_ovf hw t3 3000).

(** The body of the loop of [delay_millis_check_button]. *)
Definition wait_body (button_pressed : Z) : M Z :=
  b <- check_button_input hw ;;
  ret (if b =? 0 then button_pressed else 1).

(** Bounds on the environment's timing: a conversion spans between 1 and
    [K] timer-0 periods, a busy wait of [n] ms at most [K * n]. *)
Definition timing (K : Z) : Prop :=
  (forall t, 1 <= Z.of_nat (adc_ovf hw t) <= K) /\
  (forall t n, 0 <= n -> Z.of_nat (ms_ovf hw t n) <= K * n).

(** No button activity: the divider never reads below the threshold. *)
Definition quiet : Prop := forall t, 1000 <= analog hw 0 t.

End Shape.

Inductive built (step : forall A, M A -> Prop) : forall A, M A -> Prop :=
| built_step A (c : M A) : step A c -> built step A c
| built_ret A (a : A) : built step A (ret a)
| built_bind A B (c : M A) (f : A -> M B) :
    built step A c -> (forall a, built step B (f a)) -> built step B (bind c f)
| built_while S fuel cond (body : S -> M S) s :
    (forall s, built step S (body s)) -> built step S (while_ fuel cond body s)
| built_rounds S n i d (body : Z -> S -> M S) s :
    (forall i s, built step S (body i s)) -> built step S (rounds n i d body s).

(** The time base is in step with the count of overflow interrupts: the
    tick counter is the count modulo 5 and the millisecond counter the
    number of completed groups of five, wrapped to 64 bits. *)
Definition synced (w : World) : Prop :=
  0 <= now w /\
  timer_interrupt_ticks w = now w mod 5 /\
  millis w = u64 (now w / 5).

(** The number of ticks that make up one counted millisecond: the handler
    resets the tick counter when it exceeds 4. *)
Definition TICKS_PER_MILLI : Z := 5.

Definition timebase (w : World) : Z * Z := (timer_interrupt_ticks w, millis w).

(** Well-formed worlds: the time base is in step and bit 3 of [ADMUX]
    (the multiplexer bit [adc_read] leaves alone) is clear, as [main]
    sets it. *)
Definition wf (w : World) : Prop := synced w /\ Z.land (ADMUX w) 8 = 0.

Definition keeps (I : World -> Prop) {A} (c : M A) : Prop :=
  forall w, I w -> I (world_of (c w)).

(** A bench environment: button released (the divider reads full scale),
    microphone at mid-scale, one timer-0 overflow per conversion, four per
    millisecond of busy wait, [rand] counting up. *)
Definition bench : Hardware :=
  mkHardware (fun ch _ => if ch =? 0 then 1023 else 512)
             (fun _ => 1%nat)
             (fun _ n => Z.to_nat (4 * n))
             (fun k => Z.of_nat k).

(** The bench with the button held down for good. *)
Definition held : Hardware :=
  mkHardware (fun ch _ => if ch =? 0 then 500 else 512)
             (fun _ => 1%nat)
             (fun _ n => Z.to_nat (4 * n))
             (fun k => Z.of_nat k).

(** The bench with the button line low from instant [from] up to, not
    including, instant [upto]. *)
Definition pressed_between (from upto : Z) : Hardware :=
  mkHardware (fun ch t => if ch =? 0
                          then (if (from <=? t) && (t <? upto) then 500 else 1023)
                          else 512)
             (fun _ => 1%nat)
             (fun _ n => Z.to_nat (4 * n))
             (fun k => Z.of_nat k).

(** The pin alone, through one counter value and through a run of them. *)
Definition pin_count (late : bool) (d c : Z) (pin : bool) : bool * bool :=
  let p1 := if c =? 0 then (d >? 4) || pin else pin in
  let p2 := if c =? d then false else p1 in
  (p2, if late then p1 else p2).

Fixpoint pin_run (late : bool) (d : Z) (n : nat) (c : Z) (pin : bool) : bool * Z :=
  match n with
  | O => (pin, 0)
  | S n' =>
      let '(p1, h) := pin_count late d c pin in
      let '(p2, hs) := pin_run late d n' (c + 1) p1 in
      (p2, (if h then 1 else 0) + hs)
  end.

(** What a full period from a low pin must give: the pin ends low, and it
    was high for [d] counts (or [d + 1] when the compare handler shows
    late), for no count at all in the dead zone. *)
Definition period_expected (late : bool) (d : Z) : bool * Z :=
  (false, if d <=? 4 then 0 else if late then d + 1 else d).

Definition result_eqb (r1 r2 : bool * Z) : bool :=
  Bool.eqb (fst r1) (fst r2) && (snd r1 =? snd r2).

(** The handlers touch no bit of the port but the pin's. *)
Definition other_bits (w w' : World) : Prop :=
  forall i, 0 <= i < 8 -> i <> PB3 ->
            Z.testbit (PORTB w') i = Z.testbit (PORTB w) i.

(** A buffer of sixteen 10-bit conversion results. *)
Definition adc_samples (buf : list Z) : Prop :=
  length buf = 16%nat /\ Forall (fun x => 0 <= x < 1024) buf.

Definition sumZ (l : list Z) : Z := fold_right Z.add 0 l.
Definition devs (m : Z) (l : list Z) : Z :=
  sumZ (map (fun x => Z.abs (x - m)) l).

(** The fields that neither time nor a register store nor a conversion
    changes, and the four compare registers. *)
Definition config (w : World) :=
  (settings_start_seq w, settings_start_seq_ee w, wdt w,
   mic_buffer w, mic_buffer_current w, rand_calls w, PORTB w).

Definition regs (w : World) : Z * Z * Z * Z :=
  (OCR0A w, OCR0B w, OCR1B w, OCR1A w).

(** The events of the confirmation blink, most recent first. *)
Definition blink_once : list event :=
  [EvDelay 50;
   EvPwm R_OCR1A 0; EvPwm R_OCR1B 0; EvPwm R_OCR0B 0; EvPwm R_OCR0A 0;
   EvDelay 50;
   EvPwm R_OCR1A 255; EvPwm R_OCR1B 255; EvPwm R_OCR0B 255; EvPwm R_OCR0A 255].

Definition blink_events : list event := concat (replicate 10 blink_once).

(** A button sample below the press threshold, and a store to a compare
    register, among the events. *)
Definition low_sample (e : event) : bool :=
  match e with
  | EvAdc ch v => (ch =? 0) && (v <? 1000)
  | _ => false
  end.

Definition pressed_in (l : list event) : bool := existsb low_sample l.

Definition is_pwm (e : event) : bool :=
  match e with EvPwm _ _ => true | _ => false end.

(** The events of a run that detected a press and then only finished its
    polling: up to the first button sample below the threshold no sample
    was low, and after it no compare register was written. *)
Definition prompt_return (new : list event) : Prop :=
  exists post v pre,
    new = post ++ EvAdc 0 v :: pre /\ v < 1000 /\
    pressed_in pre = false /\ existsb is_pwm post = false.

(** The interrupt count at which the millisecond counter wraps. *)
Definition WRAP : Z := 5 * 2 ^ 64.

(** The longest a call of the monitor that returns can take, in timer-0
    periods, when a conversion takes at most [K] of them and a busy wait
    of [n] ms at most [K * n]. *)
Definition CHECK_MAX (K : Z) : Z := 3303 * K.

(** In an environment without button activity: a computation that, from
    any well-formed world far enough from the wrap, completes with a
    value satisfying [Q], keeps the world well-formed and takes between
    [lo] and [hi] timer-0 periods. *)
Definition calm (lo hi : Z) {A} (c : M A) (Q : A -> Prop) : Prop :=
  forall w, wf w -> now w + hi < WRAP ->
  exists a w', c w = Done a w' /\ wf w' /\
               now w + lo <= now w' <= now w + hi /\ Q a.

(** [n] passes of a loop body, one after the other. *)
Fixpoint run_passes {S : Type} (n : nat) (body : S -> M S) (s : S) : M S :=
  match n with
  | O => ret s
  | Datatypes.S n' => s' <- body s ;; run_passes n' body s'
  end.

(** The parts of a sequence function: the type of the locals carried
    round its outer loop, the entry code, the initial locals as a function
    of the start time, the code before the outer loop and the body of the
    outer loop. *)
Record frame : Type := mkFrame {
  f_state : Type;
  f_entry : M unit;
  f_locals : Z -> f_state;
  f_prelude : M unit;
  f_body : f_state -> M f_state
}.

(** The parts of the twelve sequences, in the order of [led_sequences]. *)
Definition frames (hw : Hardware) (fuel : nat) : list frame :=
  [ mkFrame _ (write_all 0) (fun _ => (0, 0, 0, 0)) (ret tt) (seq1_body hw fuel);
    mkFrame _ (write_all 0) (fun _ => (0, 0, 0, 0)) (ret tt) (seq2_body hw fuel);
    mkFrame _ (write_all 0) (fun _ => tt) (ret tt) (seq3_body hw fuel);
    mkFrame _ (write_all 0) (fun _ => tt) (ret tt) (seq4_body hw fuel);
    mkFrame _ (write_all 0) (fun _ => tt) (ret tt) (seq5_body hw fuel);
    mkFrame _ (write_all 0) (fun _ => tt) (ret tt) (seq6_body hw fuel);
    mkFrame _ (write_all 0) (fun _ => tt) (ret tt) (seq7_body hw fuel);
    mkFrame _ (write_all 0) (fun _ => tt) (seq8_prelude hw) (seq8_body hw fuel);
    mkFrame _ (write_all 0) (fun _ => tt) (ret tt) (seq9_body hw fuel);
    mkFrame _ (write_all 0) (fun _ => ([0; 0; 0; 0], [0; 0; 0; 0])) (ret tt)
            (random_body hw update10 50 1);
    mkFrame _ (write_all 255) (fun _ => ([0; 0; 0; 0], [255; 255; 255; 255]))
            (ret tt) (random_body hw update11 100 (-1));
    mkFrame _ (write_all 0 ;; init_mic_buffer)
            (fun start_time => (0, u16 start_time)) (ret tt) (seq12_body hw) ].

(** A sequence function put together from its parts, and its code up to
    the first test of the outer loop's guard. *)
Definition run_frame (fuel : nat) (timeout : Z) (f : frame) : M Z :=
  sequence fuel timeout (f_entry f) (f_locals f) (f_prelude f) (f_body f).

Definition lead_in (f : frame) : M (f_state f) :=
  f_entry f ;;
  start_time <- read millis ;;
  f_prelude f ;;
  ret (f_locals f start_time).

(** Bounds, in timer-0 periods, on the code before the outer loop and on
    one pass of the outer loop of the sequence at position [i] of
    [led_sequences], when no button sample is low, a conversion takes at
    most [K] periods and a busy wait of [n] ms at most [K * n]: every
    poll and microphone sample counts [K], every [_delay_ms(n)] counts
    [K * n] and every [delay_millis_check_button(d)] counts [5 * d + K].
    Only [seq8] has code before its loop: 60 steps of a poll and 2 ms.
    One pass of [seq1], for instance, is 8 fades of 255 steps of a poll
    and 1 ms each, and one pass of [seq5] 128 such steps and a timed wait
    of 30 ms. *)
Definition LEAD_MAX (i : nat) (K : Z) : Z :=
  if (i =? 7)%nat then 180 * K else 0.

Definition PASS_MAX (i : nat) (K : Z) : Z :=
  nth i [ 4080 * K; 4335 * K; 535 * K + 10500; 1023 * K + 500;
          257 * K + 150; 505 * K + 500; 1010 * K + 1000; 10380 * K;
          8416 * K; K; K; 2 * K ] 0.

(** What a frame's run without button activity on a non-negative timeout
    comes to, with bounds [hiP] on its lead-in and [hiB] on a pass. *)
Definition times_out (fuel : nat) (f : frame) (hiP hiB timeout : Z) (w : World) : Prop :=
  exists (n : nat) (st0 : f_state f) (w0 : World) (st' : f_state f) (w' : World),
    lead_in f w = Done st0 w0 /\
    now w0 <= now w + hiP /\
    run_passes n (f_body f) st0 w0 = Done st' w' /\
    (forall k stk wk, (k < n)%nat ->
       run_passes k (f_body f) st0 w0 = Done stk wk ->
       millis wk < millis w + timeout) /\
    millis w + timeout <= millis w' /\
    ((0 < n)%nat -> now w' < 5 * (millis w + timeout) + hiB) /\
    run_frame fuel timeout f w = Done 0 w' /\
    wf w'.

(** The four brightness locals of [seq1] and [seq2] are bytes. *)
Definition leds_ok (leds : Z * Z * Z * Z) : Prop :=
  let '(led1, led2, led3, led4) := leds in
  0 <= led1 <= 255 /\ 0 <= led2 <= 255 /\ 0 <= led3 <= 255 /\ 0 <= led4 <= 255.

(** The longest animation step of any sequence, in timer-0 periods: the
    longest timed wait, [delay_millis_check_button(500)], with the poll
    that may end it, and the longest busy wait, [_delay_ms(35)]. *)
Definition STEP_MAX (K : Z) : Z := 5 * 500 + K + K * 35.

(** The longest a timed wait of a sequence can take, in timer-0 periods:
    the 500 ms of the longest [delay_millis_check_button] and one call of
    the monitor begun just before its end. *)
Definition WAIT_MAX (K : Z) : Z := 5 * 500 + CHECK_MAX K.

(** Time passes only in busy waits and conversions, so the instant a run
    has reached is a function of the instant [t0] at which it began and
    of the events it has logged since (most recent first). *)
Definition advance (hw : Hardware) (e : event) (t : Z) : Z :=
  match e with
  | EvDelay n => t + Z.of_nat (ms_ovf hw t n)
  | EvAdc _ _ => t + Z.of_nat (adc_ovf hw t)
  | _ => t
  end.

Definition clock (hw : Hardware) (t0 : Z) (new : list event) : Z :=
  fold_right (advance hw) t0 new.

(** Every logged conversion result is the level of its channel at the
    instant the conversion began. *)
Fixpoint faithful (hw : Hardware) (t0 : Z) (new : list event) : Prop :=
  match new with
  | [] => True
  | e :: old =>
      faithful hw t0 old /\
      match e with
      | EvAdc ch v => v = analog hw ch (clock hw t0 old)
      | _ => True
      end
  end.

(** Worlds reached from instant [t0] and trace [tr0] with the events
    accounting for the time passed. *)
Definition timed (hw : Hardware) (t0 : Z) (tr0 : list event) (w : World) : Prop :=
  wf w /\
  exists new, trace w = new ++ tr0 /\ now w = clock hw t0 new /\
              faithful hw t0 new.

(** A computation that reports button activity in an orderly way.  From a
    well-formed world it leaves a well-formed world, the events it logs
    account for the time it takes, and by its outcome: it completes only
    if no button sample it took was low; it leaves the enclosing function
    early only with the value 1, after a low sample, without writing a
    compare register since and, with the environment's timing bounded by
    [K], loops given at least 3000 passes and the millisecond counter
    away from its wrap, at most [WAIT_MAX K] timer-0 periods after the
    instant of the first low sample; it restarts the device only after a
    low sample; and, under the same conditions, it is still running only
    if no sample was low. *)
Definition tidy (hw : Hardware) (K : Z) (fuel : nat) {A} (c : M A) : Prop :=
  forall w, wf w ->
    wf (world_of (c w)) /\
    exists new, trace (world_of (c w)) = new ++ trace w /\
      now (world_of (c w)) = clock hw (now w) new /\
      match c w with
      | Done _ _ => pressed_in new = false
      | Returned v w' =>
          v = 1 /\
          exists post s pre,
            new = post ++ EvAdc 0 s :: pre /\ s < 1000 /\
            pressed_in pre = false /\ existsb is_pwm post = false /\
            (timing hw K -> (3000 <= fuel)%nat -> now w' + WAIT_MAX K < WRAP ->
             now w' <= clock hw (now w) pre + WAIT_MAX K)
      | Restart _ => pressed_in new = true
      | Spin w' =>
          timing hw K -> (3000 <= fuel)%nat -> now w' + WAIT_MAX K < WRAP ->
          pressed_in new = false
      end.

(** Worlds reached from a trace [t0] without a low button sample. *)
Definition hush (t0 : list event) (w : World) : Prop :=
  wf w /\ exists new, trace w = new ++ t0 /\ pressed_in new = false.

(** A computation that never completes normally. *)
Definition endless {A} (c : M A) : Prop :=
  forall w, match c w with Done _ _ => False | _ => True end.

(** The bench with a burst of sound: the microphone swings between the
    rails, a new level every two timer-0 periods, up to instant 32 and
    rests at mid-scale from then on. *)
Definition burst : Hardware :=
  mkHardware (fun ch t => if ch =? 0 then 1023
                          else if t <? 32
                               then (if Z.even (t / 2) then 0 else 1023)
                               else 512)
             (fun _ => 1%nat)
             (fun _ n => Z.to_nat (4 * n))
             (fun k => Z.of_nat k).

(** The brightness [seq12] derives from the ring buffer. *)
Definition flasher_level (buf : list Z) : Z :=
  u8 (scale_up (noise_floor (mic_mad buf))).

(** The ring buffer is in order: sixteen entries and a write index inside
    them, as [init_mic_buffer] leaves it. *)
Definition ring_ok (w : World) : Prop :=
  length (mic_buffer w) = 16%nat /\ 0 <= mic_buffer_current w < 16.

(** The world after the samples [vs] have been put into the ring buffer,
    first to last, the way the loop of [seq12] does it. *)
Definition pushes (vs : list Z) (w : World) : World :=
  fold_left (fun w v => world_of (push_sample v w)) vs w.

(** One channel of [seq10] and of [seq11] taken alone: what the update
    loop does to that channel's direction and brightness. *)
Definition step10 (d b : Z) : Z * Z :=
  if (d >? 0) && (b <? 255) then
    if u8 (b + 1) >=? 255 then (-1, 255) else (d, u8 (b + 1))
  else if d <? 0 then
    let b1 := if b >? 0 then u8 (b - 1) else b in
    if b1 <=? 0 then (0, 0) else (d, b1)
  else (d, b).

Definition step11 (d b : Z) : Z * Z :=
  if (d <? 0) && (b >? 0) then
    if u8 (b - 1) <=? 0 then (1, 0) else (d, u8 (b - 1))
  else if d >? 0 then
    let b1 := if b <? 255 then u8 (b + 1) else b in
    if b1 >=? 255 then (0, 255) else (d, b1)
  else (d, b).

(** The states a channel of [seq10] goes through: idle and dark, rising
    below full, or falling above dark; and those of [seq11]: idle and
    full, falling above dark, or rising below full. *)
Definition chan10_ok (d b : Z) : Prop :=
  (d = 0 /\ b = 0) \/ (d = 1 /\ 0 <= b < 255) \/ (d = -1 /\ 0 < b <= 255).

Definition chan11_ok (d b : Z) : Prop :=
  (d = 0 /\ b = 255) \/ (d = -1 /\ 0 < b <= 255) \/ (d = 1 /\ 0 <= b < 255).

Definition fade_ok (chan_ok : Z -> Z -> Prop) (st : leds_state) : Prop :=
  length (fst st) = 4%nat /\ length (snd st) = 4%nat /\
  forall i, (i < 4)%nat -> chan_ok (fst st !!! i) (snd st !!! i).

(** A channel's direction and brightness after [n] passes of its step,
    and the course of a pulse of [seq10]: up for 255 passes, down for
    255, then idle and dark.  The dip of [seq11] is its mirror image. *)
Definition passes (step : Z -> Z -> Z * Z) (n : nat) (p : Z * Z) : Z * Z :=
  Nat.iter n (fun p => step (fst p) (snd p)) p.

Definition pulse10 (n : Z) : Z * Z :=
  if n <? 255 then (1, n) else if n <? 510 then (-1, 510 - n) else (0, 0).

Definition dip11 (n : Z) : Z * Z :=
  if n <? 255 then (-1, 255 - n) else if n <? 510 then (1, n - 255) else (0, 255).

Definition pair_eqb (p q : Z * Z) : bool :=
  (fst p =? fst q) && (snd p =? snd q).

(** A computation that leaves the stored settings alone unless it ends in
    the restart of a long press: then the start sequence in RAM has been
    written to the EEPROM and the watchdog is armed; in every other case
    the start sequence in RAM, the EEPROM byte and the watchdog are as
    before. *)
Definition frugal {A} (c : M A) : Prop :=
  forall w, wf w ->
    match c w with
    | Restart w' =>
        settings_start_seq_ee w' = settings_start_seq w /\
        wdt w' = Some WDTO_30MS
    | o =>
        wf (world_of o) /\
        settings_start_seq (world_of o) = settings_start_seq w /\
        settings_start_seq_ee (world_of o) = settings_start_seq_ee w /\
        wdt (world_of o) = wdt w
    end.

(** ** The main program

    [main] sets up the converter, the port and the timers, loads the
    settings and then loops for ever: in demo mode it plays randomly
    chosen sequences for 8 s each until the button is tapped, then it
    plays the twelve sequences in order, each until the button is
    tapped.  The number of the sequence being played is kept in
    [settings_start_seq], so that a long press stores it; after a
    restart the stored number makes the first pass skip demo mode and
    the sequences before it.

    The stores of [main] to the configuration registers of the converter,
    the port and the timers ([ADCSRA], [DDRB], [TCCR0A], [TCCR0B],
    [TCCR1], [GTCCR], [TIMSK]) and [sei()] are not part of the world:
    they set up the hardware behaviour that the model of the interrupts
    and of [adc_read] assumes. *)

Section Main.

Context (hw : Hardware).

Definition NUM_SEQ : Z := 11.

(** The table [seq] of the demo mode: the first eleven sequences. *)
Definition seq_table : list (nat -> Z -> M Z) :=
  [seq1 hw; seq2 hw; seq3 hw; seq4 hw; seq5 hw; seq6 hw; seq7 hw; seq8 hw;
   seq9 hw; seq10 hw; seq11 hw].

(** [seq[randseq](8000)].  An index outside the table has no defined
    behaviour in C; here such a call never comes back. *)
Definition call_seq (fuel : nat) (randseq : Z) : M Z :=
  match seq_table !! Z.to_nat randseq with
  | Some s => s fuel 8000
  | None => fun w => Spin w
  end.

(** Demo mode: [while(!button_pressed){ ... }]. *)
Definition demo (fuel : nat) (button_pressed : Z) : M Z :=
  while_ fuel (fun button_pressed _ => button_pressed =? 0)
    (fun button_pressed =>
       effect (set_settings_start_seq 0) ;;
       r <- rand hw ;;
       let randseq := u8 (Z.rem r NUM_SEQ) in
       if button_pressed =? 0 then call_seq fuel randseq
       else ret button_pressed)
    button_pressed.

(** [if(settings_start_seq_applied || settings_start_seq < k + 1){
       settings_start_seq_applied = 1; settings_start_seq = k; seqk(-1); }];
    the value is [settings_start_seq_applied]. *)
Definition stay (fuel : nat) (k : Z) (s : nat -> Z -> M Z) (applied : Z)
    : M Z :=
  ss <- read settings_start_seq ;;
  if negb (applied =? 0) || (ss <? k + 1) then
    effect (set_settings_start_seq k) ;;
    s fuel (-1) ;;
    ret 1
  else ret applied.

(** One pass of the [while (1)] loop of [main]; the loop-carried local is
    [settings_start_seq_applied]. *)
Definition main_pass (fuel : nat) (applied : Z) : M Z :=
  ss <- read settings_start_seq ;;
  let '(button_pressed, applied) :=
    if applied =? 0
    then (if ss >? 0 then (1, applied) else (0, 1))
    else (0, applied) in
  demo fuel button_pressed ;;
  applied <- stay fuel 1 (seq1 hw) applied ;;
  applied <- stay fuel 2 (seq2 hw) applied ;;
  applied <- stay fuel 3 (seq3 hw) applied ;;
  applied <- stay fuel 4 (seq4 hw) applied ;;
  applied <- stay fuel 5 (seq5 hw) applied ;;
  applied <- stay fuel 6 (seq6 hw) applied ;;
  applied <- stay fuel 7 (seq7 hw) applied ;;
  applied <- stay fuel 8 (seq8 hw) applied ;;
  applied <- stay fuel 9 (seq9 hw) applied ;;
  applied <- stay fuel 10 (seq10 hw) applied ;;
  applied <- stay fuel 11 (seq11 hw) applied ;;
  applied <- stay fuel 12 (seq12 hw) applied ;;
  ret applied.

(** [main] *)
Definition main (fuel : nat) : M Z :=
  init_mic_buffer ;;
  effect (set_ADMUX 0) ;;
  load_settings ;;
  while_ fuel (fun _ _ => true) (main_pass fuel) 0 ;;
  ret 0.

(** The sequences from number [k] on, each announced in
    [settings_start_seq] and played until the button is tapped. *)
Definition play (fuel : nat) (k : Z) (s : nat -> Z -> M Z) (rest : M Z) : M Z :=
  effect (set_settings_start_seq k) ;; s fuel (-1) ;; rest.

(** The twelve sequences with their numbers. *)
Definition numbered : list (Z * (nat -> Z -> M Z)) :=
  combine [1; 2; 3; 4; 5; 6; 7; 8; 9; 10; 11; 12] (led_sequences hw).

(** A chain of [stay] blocks over numbered sequences, passing
    [settings_start_seq_applied] along; the chain in [main_pass] is the
    one over [numbered]. *)
Definition stays (fuel : nat) (l : list (Z * (nat -> Z -> M Z))) : Z -> M Z :=
  fold_right (fun ks rest applied =>
                applied <- stay fuel (fst ks) (snd ks) applied ;; rest applied)
             (fun applied => ret applied) l.

Definition plays (fuel : nat) (l : list (Z * (nat -> Z -> M Z))) : M Z :=
  fold_right (fun ks rest => play fuel (fst ks) (snd ks) rest) (ret 1) l.

Definition play_from (fuel : nat) (n : Z) : M Z :=
  plays fuel (List.filter (fun ks => n <=? fst ks) numbered).

(** The world [main] has set up when it enters its loop, from the world
    [w] it was started in. *)
Definition set_up (w : World) : World :=
  set_settings_start_seq (settings_start_seq_ee w)
    (set_ADMUX 0 (set_mic (replicate 16 (u16 512)) 0 w)).

End Main.

(** The state [main] finds after a reset with the byte [e] in the
    EEPROM: zero-initialised globals, reset registers. *)
Definition boot (e : Z) : World := set_eeprom e power_on.

(** A computation whose only way to end is the restart of a long press,
    which finds the number of the sequence being played (0 in demo mode)
    both in RAM and in the EEPROM. *)
Definition resumable {A} (c : M A) : Prop :=
  forall w, wf w ->
    match c w with
    | Restart w' =>
        settings_start_seq_ee w' = settings_start_seq w' /\
        0 <= settings_start_seq w' <= 12 /\
        wdt w' = Some WDTO_30MS
    | Returned _ _ => False
    | o => wf (world_of o)
    end.

(** The values stored to [OCR0A] among the events, in the order of the
    stores. *)
Definition shown (new : list event) : list Z :=
  rev (flat_map (fun e => match e with
                          | EvPwm R_OCR0A v => [v]
                          | _ => []
                          end) new).

(** A computation that, started with the compare registers at [pre],
    completes with them at [post], having stored the values [lv] to
    [OCR0A] on the way. *)
Definition quietly {A} (pre : Z * Z * Z * Z) (c : M A) (post : Z * Z * Z * Z)
    (lv : list Z) : Prop :=
  forall w, wf w -> regs w = pre ->
  exists a w' new,
    c w = Done a w' /\ wf w' /\ regs w' = post /\
    trace w' = new ++ trace w /\ shown new = lv.

Definition all4 (v : Z) : Z * Z * Z * Z := (v, v, v, v).

(** The brightness steps of a ramp: [n] values from [a + d] on in steps
    of [d], as bytes. *)
Definition ramp (a d : Z) (n : nat) : list Z :=
  map (fun j => u8 (a + (Z.of_nat j + 1) * d)) (seq 0 n).

(** The values one pass of [seq8] stores to [OCR0A] when it starts from
    59: its eight ramps, from 59 down 60 steps (through 0 to 255), up 60,
    up 40, down 40, down 30, up 30, up 40 and down 40. *)
Definition seq8_levels : list Z :=
  ramp 59 (-1) 60 ++ ramp 255 1 60 ++ ramp 59 1 40 ++ ramp 99 (-1) 40 ++
  ramp 59 (-1) 30 ++ ramp 29 1 30 ++ ramp 59 1 40 ++ ramp 99 (-1) 40.

Local Open Scope fg_scope.

(** * Properties *)

(** ** Time base *)

Lemma ISR_TIMER0_OVF_step (w : World) :
  0 <= timer_interrupt_ticks w <= 4 ->
  timebase (ISR_TIMER0_OVF w) =
    if timer_interrupt_ticks w =? 4
    then (0, u64 (millis w + 1))
    else (timer_interrupt_ticks w + 1, millis w).
Proof.
  intros Ht. unfold ISR_TIMER0_OVF, timebase, u16.
  rewrite Z.mod_small by lia.
  destruct (Z.eqb_spec (timer_interrupt_ticks w) 4) as [E|E].
  - rewrite E. reflexivity.
  - destruct (Z.gtb_spec (timer_interrupt_ticks w + 1) 4); [lia|reflexivity].
Qed.

Lemma timebase_iter (n : nat) (w : World) :
  0 <= timer_interrupt_ticks w <= 4 ->
  0 <= millis w < 2 ^ 64 ->
  timebase (Nat.iter n ISR_TIMER0_OVF w) =
    ((timer_interrupt_ticks w + Z.of_nat n) mod 5,
     u64 (millis w + (timer_interrupt_ticks w + Z.of_nat n) / 5)).
Proof.
  intros Ht Hm. induction n as [|n IH].
  - simpl. unfold timebase, u64.
    rewrite Z.add_0_r, (Z.mod_small _ 5), Z.div_small, Z.add_0_r, Z.mod_small by lia.
    reflexivity.
  - change (Nat.iter (S n) ISR_TIMER0_OVF w)
      with (ISR_TIMER0_OVF (Nat.iter n ISR_TIMER0_OVF w)).
    set (w' := Nat.iter n ISR_TIMER0_OVF w) in *.
    unfold timebase in IH. injection IH as IHt IHm.
    assert (B : 0 <= timer_interrupt_ticks w' <= 4).
    { rewrite IHt. pose proof (Z.mod_pos_bound (timer_interrupt_ticks w + Z.of_nat n) 5). lia. }
    rewrite ISR_TIMER0_OVF_step by exact B.
    rewrite IHt, IHm.
    set (x := timer_interrupt_ticks w + Z.of_nat n) in *.
    replace (timer_interrupt_ticks w + Z.of_nat (S n)) with (x + 1) by lia.
    assert (Hx : 0 <= x) by lia.
    pose proof (Z.div_mod x 5 ltac:(lia)) as D.
    pose proof (Z.mod_pos_bound x 5 ltac:(lia)) as R.
    destruct (Z.eqb_spec (x mod 5) 4) as [E|E].
    + assert (Q : (x + 1) / 5 = x / 5 + 1).
      { symmetry. apply (Z.div_unique (x + 1) 5 (x / 5 + 1) 0); lia. }
      assert (Q' : (x + 1) mod 5 = 0).
      { symmetry. apply (Z.mod_unique (x + 1) 5 (x / 5 + 1) 0); lia. }
      rewrite Q, Q'. f_equal. unfold u64.
      rewrite Z.add_mod_idemp_l by lia. f_equal. lia.
    + assert (Q : (x + 1) / 5 = x / 5).
      { symmetry. apply (Z.div_unique (x + 1) 5 (x / 5) (x mod 5 + 1)); lia. }
      assert (Q' : (x + 1) mod 5 = x mod 5 + 1).
      { symmetry. apply (Z.mod_unique (x + 1) 5 (x / 5) (x mod 5 + 1)); lia. }
      rewrite Q, Q'. reflexivity.
Qed.

Lemma overflow_shape (w : World) :
  exists t m, overflow w = set_timebase t m (set_now (now w + 1) w).
Proof.
  unfold overflow, ISR_TIMER0_OVF.
  destruct (_ >? 4); eexists; eexists; reflexivity.
Qed.

(** Time passing changes the clock and the time base and nothing else. *)
Lemma elapse_shape (k : nat) (w : World) :
  exists t m, elapse k w = set_timebase t m (set_now (now w + Z.of_nat k) w).
Proof.
  induction k as [|k IH].
  - exists (timer_interrupt_ticks w), (millis w). destruct w; cbn.
    unfold set_timebase, set_now; cbn. rewrite Z.add_0_r. reflexivity.
  - change (elapse (S k) w) with (overflow (elapse k w)).
    destruct IH as (t & m & ->).
    destruct (overflow_shape (set_timebase t m (set_now (now w + Z.of_nat k) w)))
      as (t' & m' & ->).
    exists t', m'. unfold set_timebase, set_now; cbn. f_equal. lia.
Qed.

Lemma overflow_synced (w : World) : synced w -> synced (overflow w).
Proof.
  intros (Hn & Ht & Hm).
  pose proof (Z.mod_pos_bound (now w) 5 ltac:(lia)) as R.
  pose proof (Z.div_mod (now w) 5 ltac:(lia)) as D.
  assert (S1 : timebase (overflow w) =
               if now w mod 5 =? 4 then (0, u64 (millis w + 1))
               else (now w mod 5 + 1, millis w)).
  { unfold overflow. rewrite ISR_TIMER0_OVF_step; cbn; rewrite Ht; [reflexivity|lia]. }
  assert (N : now (overflow w) = now w + 1).
  { destruct (overflow_shape w) as (t & m & ->). reflexivity. }
  unfold timebase in S1. unfold synced. rewrite N.
  destruct (Z.eqb_spec (now w mod 5) 4) as [E|E]; injection S1 as -> ->.
  - repeat split; [lia| |].
    + apply (Z.mod_unique (now w + 1) 5 (now w / 5 + 1) 0); lia.
    + rewrite Hm. unfold u64. rewrite Z.add_mod_idemp_l by lia. f_equal.
      apply (Z.div_unique (now w + 1) 5 (now w / 5 + 1) 0); lia.
  - repeat split; [lia| |].
    + apply (Z.mod_unique (now w + 1) 5 (now w / 5) (now w mod 5 + 1)); lia.
    + rewrite Hm. f_equal.
      apply (Z.div_unique (now w + 1) 5 (now w / 5) (now w mod 5 + 1)); lia.
Qed.

Lemma elapse_synced (k : nat) (w : World) : synced w -> synced (elapse k w).
Proof.
  intros H. induction k as [|k IH]; [exact H|].
  change (elapse (S k) w) with (overflow (elapse k w)).
  apply overflow_synced, IH.
Qed.

(** In a synced world time passing has a closed form. *)
Lemma elapse_closed (k : nat) (w : World) :
  synced w ->
  elapse k w =
    set_timebase ((now w + Z.of_nat k) mod 5) (u64 ((now w + Z.of_nat k) / 5))
                 (set_now (now w + Z.of_nat k) w).
Proof.
  intros H. pose proof (elapse_synced k w H) as (_ & Ht & Hm).
  destruct (elapse_shape k w) as (t & m & E). rewrite E in Ht, Hm |- *.
  cbn in Ht, Hm. rewrite Ht, Hm. reflexivity.
Qed.

Lemma power_on_wf : wf power_on.
Proof. repeat split; vm_compute; congruence. Qed.

Lemma mux_select (a ch : Z) :
  Z.land a 8 = 0 -> 0 <= ch < 8 ->
  Z.land (Z.lor (Z.land a 248) ch) 15 = ch /\
  Z.land (Z.lor (Z.land a 248) ch) 8 = 0.
Proof.
  intros Ha Hc.
  assert (C : ch = 0 \/ ch = 1 \/ ch = 2 \/ ch = 3 \/ ch = 4 \/ ch = 5 \/ ch = 6 \/ ch = 7) by lia.
  assert (B3 : Z.testbit a 3 = false).
  { change false with (Z.testbit 0 3). rewrite <- Ha.
    rewrite Z.land_spec. change (Z.testbit 8 3) with true. now rewrite andb_true_r. }
  split; apply Z.bits_inj'; intros n Hn;
    rewrite !Z.land_spec, Z.lor_spec, Z.land_spec.
  - destruct (Z.ltb_spec n 3) as [L|L].
    + assert (N : n = 0 \/ n = 1 \/ n = 2) by lia.
      destruct N as [->|[->| ->]];
        change (Z.testbit 248 _) with false; change (Z.testbit 15 _) with true;
        rewrite andb_false_r, andb_true_r; reflexivity.
    + destruct (Z.eqb_spec n 3) as [->|N3].
      * rewrite B3. cbn [andb orb].
        decompose [or] C; subst ch; reflexivity.
      * assert (T15 : Z.testbit 15 n = false).
        { change 15 with (Z.ones 4). apply Z.ones_spec_high. lia. }
        rewrite T15, andb_false_r.
        symmetry. apply (Z.bits_above_log2 ch n); [lia|].
        decompose [or] C; subst ch; cbn; lia.
  - rewrite Z.bits_0.
    destruct (Z.eqb_spec n 3) as [->|N3].
    + rewrite B3. decompose [or] C; subst ch; reflexivity.
    + assert (T8 : Z.testbit 8 n = false).
      { change 8 with (2 ^ 3). apply Z.pow2_bits_false. lia. }
      rewrite T8. apply andb_false_r.
Qed.

(** ** The shape of the sequence code

    Every sequence is put together from a handful of primitive steps with
    sequencing, [while] loops and counted loops.  Properties that hold of
    the primitives and are kept by the three constructions hold of every
    sequence. *)

Section Shape.

Context (hw : Hardware).

Ltac build :=
  repeat match goal with
    | |- built _ _ (ret _) => apply built_ret
    | |- built _ _ (bind _ _) => apply built_bind; [|intros]
    | |- built _ _ (while_ _ _ _ _) => apply built_while; intros
    | |- built _ _ (rounds _ _ _ _ _) => apply built_rounds; intros
    | |- built _ _ (read _) => apply built_step; constructor
    | |- built _ _ (write _ _) => apply built_step; constructor
    | |- built _ _ (_delay_ms _ _) => apply built_step; constructor
    | |- built _ _ (rand _) => apply built_step; constructor
    | |- built _ _ (push_sample _) => apply built_step; constructor
    | |- built _ _ init_mic_buffer => apply built_step; constructor
    | |- built (step1 _) _ (adc_read _ 1) => apply built_step; apply step1_mic
    | |- built (step1 _) _ (poll _) => apply built_step; apply step1_poll
    | |- built (step1 _) _ (wait_poll _ _ _) => apply built_step; apply step1_wait
    | |- built (step0 _) _ (adc_read _ _) =>
        apply built_step; apply step0_adc; lia
    | |- built (step0 _) _ save_settings => apply built_step; apply step0_save
    | |- built (step0 _) _ (wdt_enable _) => apply built_step; apply step0_wdt
    | |- built (step0 _) _ spin_forever => apply built_step; apply step0_spin
    | |- built (step0 _) _ (return_ _) => apply built_step; apply step0_return
    | |- built _ _ (match ?x with _ => _ end) => destruct x
    | |- built _ _ _ =>
        progress unfold bump, write_all, bump_all, fade_in, fade_out, flash,
          hand_off, chase, hold, drift, for_lt, for_le, for_gt, for_ge,
          get_mic_buffer_mad, blink, reset, seq8_prelude
    end.

Lemma check_button_input_built : built (step0 hw) _ (check_button_input hw).
Proof. unfold check_button_input. build. Qed.

Lemma poll_built : built (step0 hw) _ (poll hw).
Proof. unfold poll. build. apply check_button_input_built. Qed.

Lemma delay_millis_check_button_built fuel d :
  built (step0 hw) _ (delay_millis_check_button hw fuel d).
Proof. unfold delay_millis_check_button. build. apply check_button_input_built. Qed.

Lemma wait_poll_built fuel d : built (step0 hw) _ (wait_poll hw fuel d).
Proof. unfold wait_poll. build. apply delay_millis_check_button_built. Qed.

(** What is built from sequence steps is built from machine steps. *)
Lemma built_lower A (c : M A) : built (step1 hw) A c -> built (step0 hw) A c.
Proof.
  induction 1 as [A c H| | | |]; try (constructor; assumption).
  destruct H; try (apply built_step; constructor; lia).
  - apply poll_built.
  - apply wait_poll_built.
Qed.

Lemma seq1_body_built fuel s : built (step1 hw) _ (seq1_body hw fuel s).
Proof. unfold seq1_body. build. Qed.

Lemma seq2_body_built fuel s : built (step1 hw) _ (seq2_body hw fuel s).
Proof. unfold seq2_body. build. Qed.

Lemma seq3_body_built fuel s : built (step1 hw) _ (seq3_body hw fuel s).
Proof. unfold seq3_body. build. Qed.

Lemma seq4_body_built fuel s : built (step1 hw) _ (seq4_body hw fuel s).
Proof. unfold seq4_body. build. Qed.

Lemma seq5_body_built fuel s : built (step1 hw) _ (seq5_body hw fuel s).
Proof. unfold seq5_body. build. Qed.

Lemma seq6_body_built fuel s : built (step1 hw) _ (seq6_body hw fuel s).
Proof. unfold seq6_body. build. Qed.

Lemma seq7_body_built fuel s : built (step1 hw) _ (seq7_body hw fuel s).
Proof. unfold seq7_body. build. Qed.

Lemma seq8_prelude_built : built (step1 hw) _ (seq8_prelude hw).
Proof. unfold seq8_prelude. build. Qed.

Lemma seq8_body_built fuel s : built (step1 hw) _ (seq8_body hw fuel s).
Proof. unfold seq8_body. build. Qed.

Lemma seq9_body_built fuel s : built (step1 hw) _ (seq9_body hw fuel s).
Proof. unfold seq9_body. build. Qed.

Lemma random_body_built update odds dir s :
  built (step1 hw) _ (random_body hw update odds dir s).
Proof. unfold random_body. build. Qed.

Lemma seq12_body_built s : built (step1 hw) _ (seq12_body hw s).
Proof. unfold seq12_body. build. Qed.

Lemma sequence_code_built {S} fuel timeout entry (locals : Z -> S) prelude body :
  built (step1 hw) _ entry -> built (step1 hw) _ prelude ->
  (forall s, built (step1 hw) _ (body s)) ->
  built (step1 hw) _ (sequence_code fuel timeout entry locals prelude body).
Proof.
  intros He Hp Hb. unfold sequence_code.
  apply built_bind; [exact He|intros _].
  apply built_bind; [apply built_step; constructor|intros start].
  apply built_bind; [exact Hp|intros _].
  apply built_bind; [apply built_while; exact Hb|intros _].
  apply built_ret.
Qed.

(** Every lighting sequence is the [fn] frame around code built from
    sequence steps. *)
Ltac seq_case lem :=
  eexists; split;
  [ unfold seq1, seq2, seq3, seq4, seq5, seq6, seq7, seq8, seq9, seq10,
      seq11, seq12, sequence; reflexivity
  | apply sequence_code_built; [build | build | intros; apply lem] ].

Lemma led_sequences_built s :
  In s (led_sequences hw) ->
  forall fuel timeout, exists c, s fuel timeout = fn c /\ built (step1 hw) _ c.
Proof.
  intros H fuel timeout. unfold led_sequences in H. cbn [In] in H.
  destruct H as [<-|[<-|[<-|[<-|[<-|[<-|[<-|[<-|[<-|[<-|[<-|[<-|[]]]]]]]]]]]]].
  - seq_case seq1_body_built.
  - seq_case seq2_body_built.
  - seq_case seq3_body_built.
  - seq_case seq4_body_built.
  - seq_case seq5_body_built.
  - seq_case seq6_body_built.
  - seq_case seq7_body_built.
  - seq_case seq8_body_built.
  - seq_case seq9_body_built.
  - seq_case random_body_built.
  - seq_case random_body_built.
  - seq_case seq12_body_built.
Qed.

End Shape.

(** ** Invariants of the foreground code *)

Lemma keeps_ret I A (a : A) : keeps I (ret a).
Proof. intros w H. exact H. Qed.

Lemma keeps_bind I A B (c : M A) (f : A -> M B) :
  keeps I c -> (forall a, keeps I (f a)) -> keeps I (bind c f).
Proof.
  intros Hc Hf w H. specialize (Hc w H). unfold bind.
  destruct (c w) as [a w'|v w'|w'|w']; cbn in *; try exact Hc.
  apply Hf, Hc.
Qed.

Lemma keeps_while I S fuel cond (body : S -> M S) s :
  (forall s, keeps I (body s)) -> keeps I (while_ fuel cond body s).
Proof.
  intros Hb. revert s. induction fuel as [|fuel IH]; intros s w H; cbn.
  - exact H.
  - destruct (cond s w); [|exact H].
    apply (keeps_bind I _ _ (body s) (while_ fuel cond body)); auto.
Qed.

Lemma keeps_rounds I S n i d (body : Z -> S -> M S) s :
  (forall i s, keeps I (body i s)) -> keeps I (rounds n i d body s).
Proof.
  intros Hb. revert i s. induction n as [|n IH]; intros i s; cbn [rounds].
  - apply keeps_ret.
  - apply keeps_bind; auto.
Qed.

Lemma keeps_built (step : forall A, M A -> Prop) I :
  (forall A c, step A c -> keeps I c) ->
  forall A c, built step A c -> keeps I c.
Proof.
  intros Hs A c H.
  induction H; auto using keeps_ret, keeps_bind, keeps_while, keeps_rounds.
Qed.

Lemma keeps_fn I (c : M Z) : keeps I c -> keeps I (fn c).
Proof.
  intros Hc w H. specialize (Hc w H). unfold fn.
  destruct (c w); exact Hc.
Qed.

Section Invariants.

Context (hw : Hardware).

Lemma wf_elapse k w : wf w -> wf (elapse k w).
Proof.
  intros [Hs Ha]. split; [apply elapse_synced, Hs|].
  destruct (elapse_shape k w) as (t & m & ->). exact Ha.
Qed.

Lemma step0_wf A (c : M A) : step0 hw A c -> keeps wf c.
Proof.
  intros H w Hw. destruct H; cbn; try exact Hw.
  - destruct r; exact Hw.
  - destruct (wf_elapse (ms_ovf hw (now w) n) w Hw) as [Hs Ha].
    split; [exact Hs | exact Ha].
  - destruct Hw as [Hs Ha].
    destruct (mux_select (ADMUX w) ch Ha H) as [_ H8].
    apply (wf_elapse _ (set_ADMUX (Z.lor (Z.land (ADMUX w) 248) ch) w)).
    split; [exact Hs | exact H8].
  - unfold spin_forever. destruct (wdt w); exact Hw.
Qed.

(** Every sequence keeps the time base in step with the interrupt count,
    whatever the environment does and however the run ends. *)
Lemma led_sequences_wf s fuel timeout w :
  In s (led_sequences hw) -> wf w -> wf (world_of (s fuel timeout w)).
Proof.
  intros Hin Hw.
  destruct (led_sequences_built hw s Hin fuel timeout) as (c & -> & Hc).
  apply keeps_fn; [|exact Hw].
  apply (keeps_built (step0 hw)); [apply step0_wf|].
  apply built_lower, Hc.
Qed.

End Invariants.

Lemma step0_synced hw A (c : M A) : step0 hw A c -> keeps synced c.
Proof.
  intros H w Hw. destruct H; cbn; try exact Hw.
  - destruct r; exact Hw.
  - apply (elapse_synced _ w Hw).
  - apply (elapse_synced _ (set_ADMUX _ w)). exact Hw.
  - unfold spin_forever. destruct (wdt w); exact Hw.
Qed.

(** C8 as stated fails: with the tick period of 0.25 ms that the claim
    names, the N for which N tick periods make one millisecond is 4, but
    four interrupts after a reset of the tick counter the millisecond
    counter has not moved and the tick counter reads 4: the handler
    resets it only when it exceeds 4, on the fifth interrupt. *)
Lemma time_base_contract_counterexample :
  ~ (forall (N : nat) (w : World),
       Z.of_nat N * 250 = 1000 ->
       synced w ->
       timer_interrupt_ticks w = 0 ->
       timebase (Nat.iter N ISR_TIMER0_OVF w) = (0, u64 (millis w + 1))).
Proof.
  intros H.
  assert (Hs : synced power_on) by (repeat split; vm_compute; congruence).
  specialize (H 4%nat power_on eq_refl Hs eq_refl).
  vm_compute in H. discriminate H.
Qed.

(** C8 (amended) — Each timer-0 overflow interrupt increments the tick
    counter; on every fifth tick, when the incremented counter exceeds 4,
    the millisecond counter goes up by exactly one, wrapping at 64 bits,
    and the tick counter returns to zero, so that a counted millisecond
    is five tick periods long and not four: four interrupts after a reset
    the millisecond counter is unchanged, the fifth moves it.  After [n]
    interrupts the counters are given in closed form; and no foreground
    code changes them: after any code built from the machine steps, in
    particular after any lighting sequence, however it ends, the counters
    are still the function of the interrupt count that the handler alone
    maintains. *)
Theorem time_base_contract (hw : Hardware) (s : nat -> Z -> M Z)
    (fuel : nat) (timeout : Z) (n : nat) (w : World) :
  synced w ->
  In s (led_sequences hw) ->
  timebase (ISR_TIMER0_OVF w) =
    (if timer_interrupt_ticks w =? TICKS_PER_MILLI - 1
     then (0, u64 (millis w + 1))
     else (timer_interrupt_ticks w + 1, millis w)) /\
  timebase (Nat.iter n ISR_TIMER0_OVF w) =
    ((timer_interrupt_ticks w + Z.of_nat n) mod TICKS_PER_MILLI,
     u64 (millis w + (timer_interrupt_ticks w + Z.of_nat n) / TICKS_PER_MILLI)) /\
  (timer_interrupt_ticks w = 0 ->
   timebase (Nat.iter 4 ISR_TIMER0_OVF w) = (4, millis w) /\
   timebase (Nat.iter 5 ISR_TIMER0_OVF w) = (0, u64 (millis w + 1))) /\
  (forall A (c : M A), built (step0 hw) A c -> synced (world_of (c w))) /\
  synced (world_of (s fuel timeout w)).
Proof.
  intros Hs Hin.
  assert (Ht : 0 <= timer_interrupt_ticks w <= 4).
  { destruct Hs as (Hn & -> & _). pose proof (Z.mod_pos_bound (now w) 5). lia. }
  assert (Hm : 0 <= millis w < 2 ^ 64).
  { destruct Hs as (_ & _ & ->). apply Z.mod_pos_bound. lia. }
  assert (G : forall A (c : M A), built (step0 hw) A c -> synced (world_of (c w))).
  { intros A c Hc. apply (keeps_built (step0 hw) synced (step0_synced hw) A c Hc w Hs). }
  split; [apply ISR_TIMER0_OVF_step, Ht|].
  split; [apply timebase_iter; assumption|].
  split.
  { intros H0.
    rewrite (timebase_iter 4 w Ht Hm), (timebase_iter 5 w Ht Hm), H0.
    change ((0 + Z.of_nat 4) mod TICKS_PER_MILLI) with 4.
    change ((0 + Z.of_nat 4) / TICKS_PER_MILLI) with 0.
    change ((0 + Z.of_nat 5) mod TICKS_PER_MILLI) with 0.
    change ((0 + Z.of_nat 5) / TICKS_PER_MILLI) with 1.
    rewrite Z.add_0_r.
    replace (u64 (millis w)) with (millis w)
      by (unfold u64; rewrite Z.mod_small by exact Hm; reflexivity).
    split; reflexivity. }
  split; [exact G|].
  destruct (led_sequences_built hw s Hin fuel timeout) as (c & -> & Hc).
  apply keeps_fn; [|exact Hs].
  intros w' Hw'.
  apply (keeps_built (step0 hw) synced (step0_synced hw) _ c (built_lower hw _ c Hc) w' Hw').
Qed.

Lemma time_base_contract_witness :
  synced power_on /\ In (seq1 bench) (led_sequences bench) /\
  timebase (Nat.iter 12 ISR_TIMER0_OVF power_on) = (2, 2) /\
  synced (world_of (seq1 bench 300 0 power_on)).
Proof.
  assert (Hs : synced power_on) by (repeat split; vm_compute; congruence).
  assert (Hin : In (seq1 bench) (led_sequences bench)) by (left; reflexivity).
  destruct (time_base_contract bench (seq1 bench) 300 0 12 power_on Hs Hin)
    as (_ & H2 & _ & _ & H5).
  repeat split; try assumption; apply Hs.
Defined.

(** ** Emulated PWM channel *)

Lemma pin_high_ovf w :
  pin_high (ISR_TIMER1_OVF w) = (OCR1A w >? 4) || pin_high w.
Proof.
  unfold ISR_TIMER1_OVF, pin_high. destruct (OCR1A w >? 4); [|reflexivity].
  cbn [PORTB set_PORTB orb].
  rewrite Z.lor_spec. change (Z.testbit (Z.shiftl 1 PB3) PB3) with true.
  apply orb_true_r.
Qed.

Lemma pin_high_compa w : pin_high (ISR_TIMER1_COMPA w) = false.
Proof.
  unfold ISR_TIMER1_COMPA, pin_high. cbn [PORTB set_PORTB].
  rewrite Z.land_spec.
  change (Z.testbit (u8 (Z.lnot (Z.shiftl 1 PB3))) PB3) with false.
  apply andb_false_r.
Qed.

Lemma other_bits_ovf w : other_bits w (ISR_TIMER1_OVF w).
Proof.
  intros i Hi Hn. unfold ISR_TIMER1_OVF. destruct (OCR1A w >? 4); [|reflexivity].
  cbn [PORTB set_PORTB]. rewrite Z.lor_spec.
  replace (Z.testbit (Z.shiftl 1 PB3) i) with false; [apply orb_false_r|].
  symmetry. change (Z.shiftl 1 PB3) with (2 ^ 3). apply Z.pow2_bits_false.
  unfold PB3 in Hn. lia.
Qed.

Lemma other_bits_compa w : other_bits w (ISR_TIMER1_COMPA w).
Proof.
  intros i Hi Hn. unfold ISR_TIMER1_COMPA. cbn [PORTB set_PORTB].
  rewrite Z.land_spec.
  replace (Z.testbit (u8 (Z.lnot (Z.shiftl 1 PB3))) i) with true;
    [apply andb_true_r|].
  unfold PB3 in Hn.
  assert (C : i = 0 \/ i = 1 \/ i = 2 \/ i = 4 \/ i = 5 \/ i = 6 \/ i = 7) by lia.
  decompose [or] C; subst i; reflexivity.
Qed.

Lemma other_bits_refl w : other_bits w w.
Proof. intros i _ _. reflexivity. Qed.

Lemma other_bits_trans w1 w2 w3 :
  other_bits w1 w2 -> other_bits w2 w3 -> other_bits w1 w3.
Proof. intros H1 H2 i Hi Hn. rewrite (H2 i Hi Hn). apply H1; assumption. Qed.

Lemma timer1_count_pin late c w :
  OCR1A (fst (timer1_count late c w)) = OCR1A w /\
  other_bits w (fst (timer1_count late c w)) /\
  (pin_high (fst (timer1_count late c w)), snd (timer1_count late c w))
    = pin_count late (OCR1A w) c (pin_high w).
Proof.
  unfold timer1_count, pin_count. cbn [fst snd].
  set (w1 := if c =? 0 then ISR_TIMER1_OVF w else w).
  assert (H1 : OCR1A w1 = OCR1A w /\ other_bits w w1 /\
               pin_high w1 = if c =? 0 then (OCR1A w >? 4) || pin_high w else pin_high w).
  { subst w1. destruct (c =? 0).
    - split; [|split; [apply other_bits_ovf|apply pin_high_ovf]].
      unfold ISR_TIMER1_OVF. destruct (_ >? 4); reflexivity.
    - split; [reflexivity|]. split; [apply other_bits_refl|reflexivity]. }
  destruct H1 as (E1 & O1 & P1). rewrite E1.
  destruct (c =? OCR1A w).
  - split; [exact E1|]. split.
    + apply (other_bits_trans _ w1); [exact O1|apply other_bits_compa].
    + rewrite pin_high_compa, <- P1. reflexivity.
  - split; [exact E1|]. split; [exact O1|]. rewrite <- P1. reflexivity.
Qed.

Lemma timer1_run_pin late n : forall c w,
  OCR1A (fst (timer1_run late n c w)) = OCR1A w /\
  other_bits w (fst (timer1_run late n c w)) /\
  (pin_high (fst (timer1_run late n c w)), snd (timer1_run late n c w))
    = pin_run late (OCR1A w) n c (pin_high w).
Proof.
  induction n as [|n IH]; intros c w; cbn [timer1_run pin_run].
  - cbn [fst snd]. split; [reflexivity|]. split; [apply other_bits_refl|reflexivity].
  - pose proof (timer1_count_pin late c w) as H1.
    destruct (timer1_count late c w) as [w1 h1]. cbn [fst snd] in H1.
    destruct H1 as (E1 & O1 & P1).
    specialize (IH (c + 1) w1).
    destruct (timer1_run late n (c + 1) w1) as [w2 hs]. cbn [fst snd] in IH |- *.
    destruct IH as (E2 & O2 & P2).
    rewrite <- P1. rewrite E1 in P2. rewrite <- P2.
    split; [congruence|]. split; [|reflexivity].
    apply (other_bits_trans _ w1); assumption.
Qed.

Lemma result_eqb_eq r1 r2 : result_eqb r1 r2 = true -> r1 = r2.
Proof.
  destruct r1 as [p1 h1], r2 as [p2 h2]. unfold result_eqb. cbn [fst snd].
  intros H. apply andb_true_iff in H. destruct H as [H1 H2].
  apply Bool.eqb_prop in H1. apply Z.eqb_eq in H2. congruence.
Qed.

(** All 256 duty values, run through a whole period. *)
Lemma period_run late d :
  0 <= d <= 255 ->
  pin_run late d 256 0 false = period_expected late d.
Proof.
  intros Hd.
  assert (A : forallb (fun k => result_eqb (pin_run late (Z.of_nat k) 256 0 false)
                                           (period_expected late (Z.of_nat k)))
                      (seq 0 256) = true).
  { destruct late; vm_compute; reflexivity. }
  rewrite forallb_forall in A.
  assert (I : In (Z.to_nat d) (seq 0 256)) by (apply in_seq; lia).
  apply A in I. rewrite Z2Nat.id in I by lia.
  apply result_eqb_eq, I.
Qed.

(** C3 — For every duty value [d] in 0..255 held in the duty register over
    one full period of timer 1 that begins with the pin low: the overflow
    handler drives the pin high and the compare-match handler drives it
    low, so the pin is high for [d] of the 256 counts, within one count
    (and the fraction [high/256] is within one count of [d/255]); for
    [d <= 4] the pin is never driven high and stays low for the whole
    period.  The period leaves the pin low again and the other port bits
    and the duty register as they were. *)
Theorem emulated_pwm_duty (late : bool) (d : Z) (w : World) :
  0 <= d <= 255 ->
  OCR1A w = d ->
  pin_high w = false ->
  let '(w', high) := timer1_period late w in
  (d <= 4 -> high = 0) /\
  (4 < d -> d - 1 <= high <= d + 1 /\
            Z.abs (255 * high - 256 * d) < 256) /\
  pin_high (ISR_TIMER1_OVF w) = (d >? 4) /\
  pin_high (ISR_TIMER1_COMPA w) = false /\
  pin_high w' = false /\ OCR1A w' = d /\ other_bits w w'.
Proof.
  intros Hd Ho Hp. unfold timer1_period.
  pose proof (timer1_run_pin late 256 0 w) as H.
  destruct (timer1_run late 256 0 w) as [w' high]. cbn [fst snd] in H.
  destruct H as (E & O & P). rewrite Ho, Hp in P.
  rewrite (period_run late d Hd) in P. unfold period_expected in P.
  injection P as K1 Hh.
  assert (Hov : pin_high (ISR_TIMER1_OVF w) = (d >? 4)).
  { rewrite pin_high_ovf, Ho, Hp. apply orb_false_r. }
  split; [intros L; rewrite Hh; destruct (Z.leb_spec d 4); [reflexivity|lia]|].
  split.
  { intros L. rewrite Hh. destruct (Z.leb_spec d 4); [lia|]. destruct late; lia. }
  split; [exact Hov|]. split; [apply pin_high_compa|].
  split; [exact K1|]. split; [congruence|exact O].
Qed.

Lemma emulated_pwm_duty_witness :
  0 <= 128 <= 255 /\ OCR1A (set_OCR1A 128 power_on) = 128 /\
  pin_high (set_OCR1A 128 power_on) = false /\
  128 - 1 <= snd (timer1_period false (set_OCR1A 128 power_on)) <= 128 + 1.
Proof.
  assert (H1 : 0 <= 128 <= 255) by lia.
  assert (H2 : OCR1A (set_OCR1A 128 power_on) = 128) by reflexivity.
  assert (H3 : pin_high (set_OCR1A 128 power_on) = false) by reflexivity.
  pose proof (emulated_pwm_duty false 128 (set_OCR1A 128 power_on) H1 H2 H3) as H.
  destruct (timer1_period false (set_OCR1A 128 power_on)) as [w' high].
  destruct H as (_ & H & _).
  split; [exact H1|]. split; [exact H2|]. split; [exact H3|].
  apply H. lia.
Defined.

(** ** Sound envelope estimator *)

Lemma abs16_small z : -32768 < z < 32768 -> abs16 (u16 z) = Z.abs z.
Proof.
  intros Hz. unfold abs16, s16, u16. rewrite Z.mod_mod by lia.
  destruct (Z.ltb_spec z 0) as [N|N].
  - assert (E : z mod 65536 = z + 65536).
    { symmetry. apply (Z.mod_unique z 65536 (-1) (z + 65536)); lia. }
    rewrite E. destruct (Z.ltb_spec (z + 65536) 32768); [lia|].
    replace (z + 65536 - 65536) with z by lia.
    rewrite Z.abs_neq by lia. rewrite Z.mod_small by lia.
    destruct (Z.ltb_spec (- z) 32768); lia.
  - rewrite (Z.mod_small z) by lia.
    destruct (Z.ltb_spec z 32768); [|lia].
    rewrite Z.abs_eq by lia. rewrite Z.mod_small by lia.
    destruct (Z.ltb_spec z 32768); lia.
Qed.

Lemma sixteen (buf : list Z) :
  length buf = 16%nat ->
  exists x0 x1 x2 x3 x4 x5 x6 x7 x8 x9 xa xb xc xd xe xf,
    buf = [x0; x1; x2; x3; x4; x5; x6; x7; x8; x9; xa; xb; xc; xd; xe; xf].
Proof.
  intros H.
  do 16 (destruct buf as [|? buf]; [discriminate H|]).
  destruct buf; [|discriminate H].
  repeat eexists.
Qed.

(** A 16-bit running sum that stays in range is the plain sum. *)
Lemma fold_u16_sum (f : nat -> Z) (l : list nat) (a : Z) :
  0 <= a ->
  (forall i, In i l -> 0 <= f i) ->
  a + sumZ (map f l) < 65536 ->
  fold_left (fun t i => u16 (t + f i)) l a = a + sumZ (map f l).
Proof.
  revert a. induction l as [|i l IH]; intros a Ha Hf Hs; cbn [fold_left map sumZ fold_right].
  - lia.
  - assert (Hi : 0 <= f i) by (apply Hf; left; reflexivity).
    assert (Hl : 0 <= sumZ (map f l)).
    { clear -Hf. induction l as [|k l IH]; cbn; [lia|].
      assert (0 <= f k) by (apply Hf; right; left; reflexivity).
      assert (0 <= sumZ (map f l)).
      { apply IH. intros x [->|Hx]; apply Hf; [left; reflexivity|right; right; exact Hx]. }
      unfold sumZ in *. lia. }
    change (fold_right Z.add 0 (map f l)) with (sumZ (map f l)) in *.
    cbn [map sumZ fold_right] in Hs.
    change (fold_right Z.add 0 (map f l)) with (sumZ (map f l)) in *.
    assert (E : u16 (a + f i) = a + f i) by (unfold u16; apply Z.mod_small; lia).
    rewrite E. rewrite IH; [lia|lia| |lia].
    intros k Hk. apply Hf. right. exact Hk.
Qed.

Lemma devs_bound (m : Z) (l : list Z) :
  0 <= m <= 1023 ->
  Forall (fun x => 0 <= x < 1024) l ->
  0 <= devs m l <= 1023 * Z.of_nat (length l).
Proof.
  intros Hm Hf. induction Hf as [|x l Hx Hf IH].
  - cbn. lia.
  - unfold devs, sumZ in *. cbn [map fold_right length].
    rewrite Nat2Z.inj_succ. lia.
Qed.

(** On sixteen 10-bit samples the 16-bit arithmetic of the source never
    wraps: the total is the plain sum and the result the plain mean
    absolute deviation about the truncated mean. *)
Lemma mic_mad_plain (buf : list Z) :
  adc_samples buf ->
  mic_total buf = sumZ buf /\
  0 <= sumZ buf <= 16 * 1023 /\
  mic_mad buf = devs (sumZ buf / 16) buf / 16.
Proof.
  intros [Hl Hf]. pose proof Hf as Hf'.
  destruct (sixteen buf Hl) as
    (x0 & x1 & x2 & x3 & x4 & x5 & x6 & x7 & x8 & x9 & xa & xb & xc & xd & xe & xf & ->).
  do 16 (apply Forall_cons_iff in Hf; destruct Hf as [? Hf]).
  set (buf := [x0; x1; x2; x3; x4; x5; x6; x7; x8; x9; xa; xb; xc; xd; xe; xf]) in *.
  assert (M : forall g : Z -> Z, map (fun i : nat => g (buf !!! i)) (seq 0 16) = map g buf)
    by (intros g; reflexivity).
  assert (B : 0 <= sumZ buf <= 16 * 1023) by (subst buf; unfold sumZ; cbn; lia).
  assert (T : mic_total buf = sumZ buf).
  { unfold mic_total, MIC_BUFFER_SIZE. change (Z.to_nat 16) with 16%nat.
    rewrite (fold_u16_sum (fun i => buf !!! i)).
    - rewrite (M (fun x => x)), map_id. lia.
    - lia.
    - intros i Hi. apply in_seq in Hi.
      do 16 (destruct i as [|i]; [subst buf; cbn; lia|]). lia.
    - rewrite (M (fun x => x)), map_id. lia. }
  split; [exact T|]. split; [exact B|].
  unfold mic_mad, mic_mean. rewrite T.
  unfold MIC_BUFFER_SIZE. change (Z.to_nat 16) with 16%nat.
  set (m := sumZ buf / 16).
  assert (Hm : 0 <= m <= 1023).
  { subst m. split.
    - apply Z.div_pos; lia.
    - apply Z.div_le_upper_bound; lia. }
  assert (D : map (fun x => abs16 (u16 (x - m))) buf = map (fun x => Z.abs (x - m)) buf).
  { subst buf. cbn [map]. rewrite !abs16_small by lia. reflexivity. }
  assert (DB : 0 <= devs m buf <= 16 * 1023).
  { pose proof (devs_bound m buf Hm Hf') as DB. rewrite Hl in DB. lia. }
  rewrite (fold_u16_sum (fun i => abs16 (u16 (buf !!! i - m)))).
  - rewrite (M (fun x => abs16 (u16 (x - m)))), D. reflexivity.
  - lia.
  - intros i Hi. apply in_seq in Hi.
    do 16 (destruct i as [|i]; [subst buf; cbn; rewrite abs16_small by lia; lia|]). lia.
  - rewrite (M (fun x => abs16 (u16 (x - m)))), D. fold (devs m buf). lia.
Qed.

(** The deviations split into what lies above the centre and what lies
    below it; each part is bounded by the number of samples on its side. *)
Lemma devs_split (m : Z) (l : list Z) :
  0 <= m <= 1023 ->
  Forall (fun x => 0 <= x < 1024) l ->
  exists p q a b,
    0 <= p /\ 0 <= q /\ p + q = Z.of_nat (length l) /\
    0 <= a <= p * (1023 - m) /\ 0 <= b <= q * m /\
    sumZ l - Z.of_nat (length l) * m = a - b /\
    devs m l = a + b.
Proof.
  intros Hm Hf. induction Hf as [|x l Hx Hf IH].
  - exists 0, 0, 0, 0. cbn. lia.
  - destruct IH as (p & q & a & b & Hp & Hq & Hpq & Ha & Hb & Hs & Hd).
    unfold devs, sumZ in *. cbn [map fold_right length].
    rewrite Nat2Z.inj_succ.
    destruct (Z.le_gt_cases m x) as [G|G].
    + exists (p + 1), q, (a + (x - m)), b.
      rewrite Z.abs_eq by lia. rewrite Hd.
      rewrite Z.mul_add_distr_r, Z.mul_succ_l.
      repeat split; lia.
    + exists p, (q + 1), a, (b + (m - x)).
      rewrite Z.abs_neq by lia. rewrite Hd.
      rewrite Z.mul_add_distr_r, Z.mul_succ_l.
      repeat split; lia.
Qed.

Lemma mic_mad_range (buf : list Z) :
  adc_samples buf -> 0 <= mic_mad buf <= 512.
Proof.
  intros H. destruct (mic_mad_plain buf H) as (_ & HT & ->).
  destruct H as [Hl Hf].
  set (T := sumZ buf) in *. set (m := T / 16).
  assert (Hm : 0 <= m <= 1023).
  { subst m. split; [apply Z.div_pos; lia|apply Z.div_le_upper_bound; lia]. }
  pose proof (Z.div_mod T 16 ltac:(lia)) as D.
  pose proof (Z.mod_pos_bound T 16 ltac:(lia)) as R.
  fold m in D.
  destruct (devs_split m buf Hm Hf) as (p & q & a & b & Hp & Hq & Hpq & Ha & Hb & Hs & Hd).
  rewrite Hl in Hpq, Hs. fold T in Hs.
  assert (S : 0 <= devs m buf <= 8207).
  { rewrite Hd. change (Z.of_nat 16) with 16 in *.
    assert (Q : q = 0 \/ q = 1 \/ q = 2 \/ q = 3 \/ q = 4 \/ q = 5 \/ q = 6 \/ q = 7 \/
                q = 8 \/ q = 9 \/ q = 10 \/ q = 11 \/ q = 12 \/ q = 13 \/ q = 14 \/
                q = 15 \/ q = 16) by lia.
    assert (P : p = 16 - q) by lia. subst p.
    set (r := T mod 16) in *. clearbody r. clearbody m. clearbody T.
    clear Hl Hf Hd.
    decompose [or] Q; subst q; lia. }
  split.
  - apply Z.div_pos; lia.
  - assert (devs m buf / 16 < 513) by (apply Z.div_lt_upper_bound; lia). lia.
Qed.

Lemma noise_floor_max (m : Z) :
  0 <= m < 65536 -> noise_floor m = Z.max 0 (m - 40).
Proof.
  intros Hm. unfold noise_floor, u16.
  destruct (Z.gtb_spec m 40).
  - rewrite Z.mod_small by lia. lia.
  - lia.
Qed.

Lemma init_mic_buffer_samples (w : World) :
  length (mic_buffer w) = 16%nat ->
  init_mic_buffer w = Done tt (set_mic (replicate 16 512) 0 w).
Proof.
  intros Hl. destruct (sixteen _ Hl) as
    (x0 & x1 & x2 & x3 & x4 & x5 & x6 & x7 & x8 & x9 & xa & xb & xc & xd & xe & xf & E).
  unfold init_mic_buffer, effect. rewrite E. reflexivity.
Qed.

Lemma push_sample_samples (v : Z) (w : World) :
  adc_samples (mic_buffer w) -> 0 <= v < 1024 ->
  adc_samples (mic_buffer (world_of (push_sample v w))).
Proof.
  intros [Hl Hf] Hv. cbn. split.
  - rewrite length_insert. exact Hl.
  - unfold u16. rewrite Z.mod_small by lia.
    apply Forall_insert; assumption.
Qed.

(** C5 — When all sixteen entries of the ring buffer hold the same
    conversion result [v], the mean absolute deviation is exactly 0; and
    [init_mic_buffer] fills every entry with 512 and resets the write
    index to 0, so the estimate computed right after it is 0. *)
Theorem mad_of_identical_samples (v : Z) (w : World) :
  0 <= v < 1024 ->
  length (mic_buffer w) = 16%nat ->
  mic_mad (replicate 16 v) = 0 /\
  (forall w1, mic_buffer w1 = replicate 16 v ->
              get_mic_buffer_mad w1 = Done 0 w1) /\
  (init_mic_buffer ;; get_mic_buffer_mad) w =
    Done 0 (set_mic (replicate 16 512) 0 w).
Proof.
  intros Hv Hl.
  assert (Z0 : forall x, 0 <= x < 1024 -> mic_mad (replicate 16 x) = 0).
  { intros x Hx.
    assert (A : adc_samples (replicate 16 x)).
    { split; [reflexivity|]. apply Forall_replicate. exact Hx. }
    destruct (mic_mad_plain _ A) as (_ & _ & ->).
    assert (E : sumZ (replicate 16 x) / 16 = x).
    { unfold sumZ. cbn. symmetry. apply (Z.div_unique _ 16 x 0); lia. }
    rewrite E. unfold devs, sumZ. cbn.
    replace (x - x) with 0 by lia. reflexivity. }
  split; [apply Z0, Hv|]. split.
  - intros w1 E. unfold get_mic_buffer_mad, read. rewrite E, (Z0 v Hv). reflexivity.
  - unfold bind. rewrite (init_mic_buffer_samples w Hl).
    unfold get_mic_buffer_mad, read.
    change (mic_buffer (set_mic (replicate 16 512) 0 w)) with (replicate 16 512).
    rewrite (Z0 512) by lia. reflexivity.
Qed.

Lemma mad_of_identical_samples_witness :
  0 <= 700 < 1024 /\ length (mic_buffer power_on) = 16%nat /\
  mic_mad (replicate 16 700) = 0 /\
  (init_mic_buffer ;; get_mic_buffer_mad) power_on =
    Done 0 (set_mic (replicate 16 512) 0 power_on).
Proof.
  assert (H1 : 0 <= 700 < 1024) by lia.
  assert (H2 : length (mic_buffer power_on) = 16%nat) by reflexivity.
  destruct (mad_of_identical_samples 700 power_on H1 H2) as (A & _ & B).
  split; [exact H1|]. split; [exact H2|]. split; [exact A|exact B].
Defined.

(** C6 — For every content of the ring buffer (sixteen 10-bit conversion
    results, which is all [init_mic_buffer] and the sampling step ever
    store) the mean absolute deviation lies between 0 and 512, and the
    noise-floor step yields [mad - 40] when that is positive and exactly 0
    whenever [mad <= 40]: the subtraction is only carried out when its
    result is positive, so no intermediate value is negative and the
    unsigned arithmetic does not wrap. *)
Theorem mad_bounds (buf : list Z) :
  adc_samples buf ->
  0 <= mic_mad buf <= 512 /\
  noise_floor (mic_mad buf) = Z.max 0 (mic_mad buf - 40) /\
  0 <= noise_floor (mic_mad buf) <= 472 /\
  (mic_mad buf <= 40 -> noise_floor (mic_mad buf) = 0) /\
  (forall v w, mic_buffer w = buf -> 0 <= v < 1024 ->
      adc_samples (mic_buffer (world_of (push_sample v w)))) /\
  (forall w, mic_buffer w = buf ->
      adc_samples (mic_buffer (world_of (init_mic_buffer w)))).
Proof.
  intros H. pose proof (mic_mad_range buf H) as R.
  assert (N : noise_floor (mic_mad buf) = Z.max 0 (mic_mad buf - 40))
    by (apply noise_floor_max; lia).
  split; [exact R|]. split; [exact N|]. split; [lia|]. split; [lia|]. split.
  - intros v w E Hv. apply push_sample_samples; [rewrite E; exact H|exact Hv].
  - intros w E. rewrite init_mic_buffer_samples by (rewrite E; apply H).
    cbn [world_of mic_buffer set_mic]. split; [reflexivity|].
    apply Forall_replicate. lia.
Qed.

Lemma mad_bounds_witness :
  adc_samples [0; 1023; 0; 1023; 0; 1023; 0; 1023; 0; 1023; 0; 1023; 0; 1023; 0; 1023] /\
  0 <= mic_mad [0; 1023; 0; 1023; 0; 1023; 0; 1023; 0; 1023; 0; 1023; 0; 1023; 0; 1023] <= 512.
Proof.
  assert (H : adc_samples [0; 1023; 0; 1023; 0; 1023; 0; 1023; 0; 1023; 0; 1023; 0; 1023; 0; 1023]).
  { split; [reflexivity|]. repeat (constructor; [lia|]). constructor. }
  split; [exact H|]. apply (mad_bounds _ H).
Defined.

(** ** Button monitor *)

Section Button.

Context (hw : Hardware).

Ltac time_free :=
  repeat match goal with
         | |- context [elapse ?k ?w] =>
             let t := fresh "t" in let m := fresh "m" in
             destruct (elapse_shape k w) as (t & m & ->)
         end.

Lemma bind_done {A B} (c : M A) (f : A -> M B) w a w' :
  c w = Done a w' -> bind c f w = f a w'.
Proof. intros E. unfold bind. rewrite E. reflexivity. Qed.

Lemma bind_assoc {A B C} (c : M A) (f : A -> M B) (g : B -> M C) w :
  bind (bind c f) g w = bind c (fun a => bind (f a) g) w.
Proof. unfold bind. destruct (c w); reflexivity. Qed.

Lemma adc_read_eq ch w :
  Z.land (ADMUX w) 8 = 0 -> 0 <= ch < 8 ->
  exists w', adc_read hw ch w = Done (analog hw ch (now w)) w' /\
    now w' = now w + Z.of_nat (adc_ovf hw (now w)) /\
    trace w' = EvAdc ch (analog hw ch (now w)) :: trace w /\
    Z.land (ADMUX w') 8 = 0 /\ regs w' = regs w /\ config w' = config w.
Proof.
  intros Ha Hc. destruct (mux_select (ADMUX w) ch Ha Hc) as [M1 M2].
  unfold adc_read. cbn [ADMUX set_ADMUX now]. rewrite M1.
  eexists. split; [reflexivity|]. time_free.
  split; [reflexivity|]. split; [reflexivity|]. split; [exact M2|].
  split; reflexivity.
Qed.

Lemma delay_ms_eq n w :
  exists w', _delay_ms hw n w = Done tt w' /\
    now w' = now w + Z.of_nat (ms_ovf hw (now w) n) /\
    trace w' = EvDelay n :: trace w /\
    ADMUX w' = ADMUX w /\ regs w' = regs w /\ config w' = config w.
Proof.
  unfold _delay_ms, effect. eexists. split; [reflexivity|].
  time_free. repeat split; reflexivity.
Qed.

Lemma write_all_eq v w :
  exists w', write_all v w = Done tt w' /\
    now w' = now w /\
    trace w' = [EvPwm R_OCR1A (u8 v); EvPwm R_OCR1B (u8 v);
                EvPwm R_OCR0B (u8 v); EvPwm R_OCR0A (u8 v)] ++ trace w /\
    ADMUX w' = ADMUX w /\
    regs w' = (u8 v, u8 v, u8 v, u8 v) /\ config w' = config w.
Proof.
  eexists. split; [reflexivity|]. repeat split; reflexivity.
Qed.

Lemma blink_round_eq w :
  exists w',
    (write_all 255 ;; _delay_ms hw 50 ;; write_all 0 ;; _delay_ms hw 50) w
      = Done tt w' /\
    trace w' = blink_once ++ trace w /\
    regs w' = (0, 0, 0, 0) /\ config w' = config w /\ ADMUX w' = ADMUX w.
Proof.
  destruct (write_all_eq 255 w) as (w1 & E1 & N1 & T1 & A1 & R1 & C1).
  destruct (delay_ms_eq 50 w1) as (w2 & E2 & N2 & T2 & A2 & R2 & C2).
  destruct (write_all_eq 0 w2) as (w3 & E3 & N3 & T3 & A3 & R3 & C3).
  destruct (delay_ms_eq 50 w3) as (w4 & E4 & N4 & T4 & A4 & R4 & C4).
  exists w4.
  rewrite (bind_done _ _ _ _ _ E1), (bind_done _ _ _ _ _ E2), (bind_done _ _ _ _ _ E3).
  split; [exact E4|].
  rewrite T4, T3, T2, T1, R4, R3, C4, C3, C2, C1, A4, A3, A2, A1.
  repeat split; reflexivity.
Qed.

Lemma concat_replicate_snoc {A} (n : nat) (x : list A) :
  concat (replicate (S n) x) = concat (replicate n x) ++ x.
Proof.
  induction n as [|n IH].
  - cbn. rewrite app_nil_r. reflexivity.
  - change (concat (replicate (S (S n)) x)) with (x ++ concat (replicate (S n) x)).
    rewrite IH at 1. rewrite app_assoc. reflexivity.
Qed.

Lemma blink_rounds_eq n i w :
  exists w',
    rounds n i 1
      (fun _ _ => write_all 255 ;; _delay_ms hw 50 ;; write_all 0 ;; _delay_ms hw 50)
      tt w = Done tt w' /\
    trace w' = concat (replicate n blink_once) ++ trace w /\
    (n <> O -> regs w' = (0, 0, 0, 0)) /\ config w' = config w /\
    ADMUX w' = ADMUX w.
Proof.
  revert i w. induction n as [|n IH]; intros i w.
  - exists w. cbn. repeat split; congruence.
  - cbn [rounds].
    destruct (blink_round_eq w) as (w1 & E1 & T1 & R1 & C1 & A1).
    rewrite (bind_done _ _ _ _ _ E1).
    destruct (IH (i + 1) w1) as (w2 & E2 & T2 & R2 & C2 & A2).
    exists w2. split; [exact E2|]. split; [|split; [|split]].
    + rewrite T2, T1, concat_replicate_snoc, <- app_assoc. reflexivity.
    + intros _. destruct n; [|apply R2; discriminate].
      cbn in E2. injection E2 as <-. exact R1.
    + congruence.
    + congruence.
Qed.

Lemma blink_eq w :
  exists w', blink hw w = Done tt w' /\
    trace w' = blink_events ++ trace w /\
    regs w' = (0, 0, 0, 0) /\ config w' = config w /\ ADMUX w' = ADMUX w.
Proof.
  destruct (blink_rounds_eq 10 0 w) as (w' & E & T & R & C & A).
  exists w'. split; [exact E|]. split; [exact T|].
  split; [apply R; discriminate|]. split; [exact C|exact A].
Qed.

(** The long-press tail: settle, save, restart through the watchdog. *)
Lemma restart_eq w :
  exists w',
    (_delay_ms hw 2000 ;; save_settings ;; @reset unit) w = Restart w' /\
    trace w' = [EvWdt WDTO_30MS; EvEeprom (settings_start_seq w); EvDelay 2000]
               ++ trace w /\
    regs w' = regs w /\
    settings_start_seq_ee w' = settings_start_seq w /\
    wdt w' = Some WDTO_30MS /\ ADMUX w' = ADMUX w.
Proof.
  destruct (delay_ms_eq 2000 w) as (w1 & E1 & N1 & T1 & A1 & R1 & C1).
  rewrite (bind_done _ _ _ _ _ E1).
  unfold config in C1. injection C1 as C1 _ _ _ _ _ _.
  eexists. split; [reflexivity|]. cbn.
  rewrite T1, C1. repeat split; try reflexivity; assumption.
Qed.

(** What one call of the monitor does, by the three samples it may take. *)
Lemma check_button_input_cases w :
  Z.land (ADMUX w) 8 = 0 ->
  let s1 := analog hw 0 (now w) in
  let s2 := analog hw 0 (t_resample hw (now w)) in
  let s3 := analog hw 0 (t_hold hw (now w)) in
  exists w',
    Z.land (ADMUX w') 8 = 0 /\
    if s1 <? 1000 then
      if s2 <? 1000 then
        if s3 <? 1000 then
          check_button_input hw w = Restart w' /\
          trace w' =
            [EvWdt WDTO_30MS; EvEeprom (settings_start_seq w); EvDelay 2000]
            ++ blink_events
            ++ [EvAdc 0 s3; EvDelay 3000; EvAdc 0 s2; EvDelay 300; EvAdc 0 s1]
            ++ trace w /\
          regs w' = (0, 0, 0, 0) /\
          settings_start_seq_ee w' = settings_start_seq w /\
          wdt w' = Some WDTO_30MS
        else
          check_button_input hw w = Done 1 w' /\
          trace w' =
            [EvAdc 0 s3; EvDelay 3000; EvAdc 0 s2; EvDelay 300; EvAdc 0 s1]
            ++ trace w /\
          now w' = t_hold hw (now w) + Z.of_nat (adc_ovf hw (t_hold hw (now w))) /\
          regs w' = regs w /\ config w' = config w
      else
        check_button_input hw w = Done 1 w' /\
        trace w' = [EvAdc 0 s2; EvDelay 300; EvAdc 0 s1] ++ trace w /\
        now w' = t_resample hw (now w)
                 + Z.of_nat (adc_ovf hw (t_resample hw (now w))) /\
        regs w' = regs w /\ config w' = config w
    else
      check_button_input hw w = Done 0 w' /\
      trace w' = [EvAdc 0 s1] ++ trace w /\
      now w' = now w + Z.of_nat (adc_ovf hw (now w)) /\
      regs w' = regs w /\ config w' = config w.
Proof.
  intros Ha s1 s2 s3. unfold check_button_input.
  destruct (adc_read_eq 0 w Ha ltac:(lia)) as (w1 & E1 & N1 & T1 & A1 & R1 & C1).
  rewrite (bind_done _ _ _ _ _ E1). fold s1 in T1 |- *.
  destruct (s1 <? 1000).
  2:{ exists w1. split; [exact A1|]. split; [reflexivity|].
      repeat split; assumption. }
  destruct (delay_ms_eq 300 w1) as (w2 & E2 & N2 & T2 & A2 & R2 & C2).
  rewrite (bind_done _ _ _ _ _ E2).
  assert (A2' : Z.land (ADMUX w2) 8 = 0) by (rewrite A2; exact A1).
  assert (Q2 : now w2 = t_resample hw (now w)).
  { unfold t_resample. rewrite N2, N1. reflexivity. }
  destruct (adc_read_eq 0 w2 A2' ltac:(lia)) as (w3 & E3 & N3 & T3 & A3 & R3 & C3).
  rewrite Q2 in E3, N3, T3. fold s2 in E3, T3.
  rewrite (bind_done _ _ _ _ _ E3).
  destruct (s2 <? 1000).
  2:{ exists w3. split; [exact A3|]. split; [reflexivity|].
      rewrite T3, T2, T1, R3, R2, R1, C3, C2, C1.
      repeat split; try reflexivity. exact N3. }
  destruct (delay_ms_eq 3000 w3) as (w4 & E4 & N4 & T4 & A4 & R4 & C4).
  assert (A4' : Z.land (ADMUX w4) 8 = 0) by (rewrite A4; exact A3).
  assert (Q4 : now w4 = t_hold hw (now w)).
  { unfold t_hold. rewrite N4, N3. reflexivity. }
  destruct (adc_read_eq 0 w4 A4' ltac:(lia)) as (w5 & E5 & N5 & T5 & A5 & R5 & C5).
  rewrite Q4 in E5, N5, T5. fold s3 in E5, T5.
  rewrite bind_assoc, (bind_done _ _ _ _ _ E4).
  rewrite bind_assoc, (bind_done _ _ _ _ _ E5).
  destruct (s3 <? 1000).
  2:{ exists w5. split; [exact A5|]. split; [reflexivity|].
      rewrite T5, T4, T3, T2, T1, R5, R4, R3, R2, R1, C5, C4, C3, C2, C1.
      repeat split; try reflexivity. exact N5. }
  destruct (blink_eq w5) as (w6 & E6 & T6 & R6 & C6 & A6).
  rewrite bind_assoc, (bind_done _ _ _ _ _ E6).
  destruct (restart_eq w6) as (w7 & E7 & T7 & R7 & S7 & W7 & A7).
  unfold bind at 1. rewrite E7.
  assert (SS : settings_start_seq w6 = settings_start_seq w).
  { assert (CC : config w6 = config w) by congruence.
    unfold config in CC. injection CC as CC _ _ _ _ _ _. exact CC. }
  exists w7. split; [rewrite A7, A6; exact A5|].
  split; [reflexivity|].
  rewrite T7, T6, T5, T4, T3, T2, T1, R7, R6, S7, W7, SS.
  repeat split; reflexivity.
Qed.

End Button.

(** C4 — If the monitor's first sample, its re-sample after the debounce
    delay and its re-sample after the hold delay all read below 1000, the
    monitor blinks all four channels ten times (full on for 50 ms, off for
    50 ms), waits, stores the pending start sequence in the EEPROM cell,
    arms the watchdog and spins: the call does not return, the device
    restarts.  The restart is the watchdog's doing: the same spin without
    an armed watchdog restarts nothing. *)
Theorem long_press_restarts (hw : Hardware) (w : World) :
  Z.land (ADMUX w) 8 = 0 ->
  analog hw 0 (now w) < 1000 ->
  analog hw 0 (t_resample hw (now w)) < 1000 ->
  analog hw 0 (t_hold hw (now w)) < 1000 ->
  exists w',
    check_button_input hw w = Restart w' /\
    trace w' =
      [EvWdt WDTO_30MS; EvEeprom (settings_start_seq w); EvDelay 2000]
      ++ blink_events
      ++ [EvAdc 0 (analog hw 0 (t_hold hw (now w))); EvDelay 3000;
          EvAdc 0 (analog hw 0 (t_resample hw (now w))); EvDelay 300;
          EvAdc 0 (analog hw 0 (now w))]
      ++ trace w /\
    regs w' = (0, 0, 0, 0) /\
    settings_start_seq_ee w' = settings_start_seq w /\
    wdt w' = Some WDTO_30MS /\
    (forall w0, wdt w0 = None -> @spin_forever unit w0 = Spin w0).
Proof.
  intros Ha H1 H2 H3.
  destruct (check_button_input_cases hw w Ha) as (w' & _ & H).
  apply Z.ltb_lt in H1, H2, H3. rewrite H1, H2, H3 in H.
  destruct H as (E & T & R & S & W).
  exists w'. repeat (split; [assumption|]).
  intros w0 H0. unfold spin_forever. rewrite H0. reflexivity.
Qed.

Lemma long_press_restarts_witness :
  Z.land (ADMUX power_on) 8 = 0 /\
  analog held 0 (now power_on) < 1000 /\
  analog held 0 (t_resample held (now power_on)) < 1000 /\
  analog held 0 (t_hold held (now power_on)) < 1000 /\
  exists w', check_button_input held power_on = Restart w' /\
             settings_start_seq_ee w' = settings_start_seq power_on /\
             wdt w' = Some WDTO_30MS.
Proof.
  assert (Ha : Z.land (ADMUX power_on) 8 = 0) by reflexivity.
  assert (H1 : analog held 0 (now power_on) < 1000) by reflexivity.
  assert (H2 : analog held 0 (t_resample held (now power_on)) < 1000) by reflexivity.
  assert (H3 : analog held 0 (t_hold held (now power_on)) < 1000) by reflexivity.
  destruct (long_press_restarts held power_on Ha H1 H2 H3)
    as (w' & E & _ & _ & S & W & _).
  repeat (split; [assumption|]).
  exists w'. repeat split; assumption.
Defined.

(** C9 as stated fails: with the button held through both re-samples the
    first sample is below the threshold, yet the call does not return 1;
    the device restarts. *)
Lemma tap_reported_counterexample :
  ~ (forall (hw : Hardware) (w : World),
       Z.land (ADMUX w) 8 = 0 ->
       analog hw 0 (now w) < 1000 ->
       exists w', check_button_input hw w = Done 1 w').
Proof.
  intros H.
  destruct (H held power_on eq_refl eq_refl) as (w' & E).
  destruct (check_button_input_cases held power_on eq_refl) as (w1 & _ & C).
  change (analog held 0 (now power_on) <? 1000) with true in C.
  change (analog held 0 (t_resample held (now power_on)) <? 1000) with true in C.
  change (analog held 0 (t_hold held (now power_on)) <? 1000) with true in C.
  cbv iota in C. destruct C as (E1 & _).
  rewrite E1 in E. discriminate E.
Qed.

(** C9 (amended) — When the monitor's first sample reads below 1000 the
    call never returns 0; and unless both re-samples also read below 1000
    (the long press, which restarts the device) it returns 1.  In
    particular, when the re-sample after the debounce delay reads at or
    above the threshold, a one-sample blip, the call returns 1 right after
    that re-sample, having taken just the two samples and the 300 ms
    delay between them. *)
Theorem tap_reported (hw : Hardware) (w : World) :
  Z.land (ADMUX w) 8 = 0 ->
  analog hw 0 (now w) < 1000 ->
  (forall w', check_button_input hw w <> Done 0 w') /\
  (1000 <= analog hw 0 (t_resample hw (now w)) ->
   exists w',
     check_button_input hw w = Done 1 w' /\
     trace w' = [EvAdc 0 (analog hw 0 (t_resample hw (now w))); EvDelay 300;
                 EvAdc 0 (analog hw 0 (now w))] ++ trace w /\
     now w' = t_resample hw (now w)
              + Z.of_nat (adc_ovf hw (t_resample hw (now w))) /\
     regs w' = regs w /\ config w' = config w) /\
  (analog hw 0 (t_resample hw (now w)) < 1000 ->
   1000 <= analog hw 0 (t_hold hw (now w)) ->
   exists w',
     check_button_input hw w = Done 1 w' /\
     trace w' = [EvAdc 0 (analog hw 0 (t_hold hw (now w))); EvDelay 3000;
                 EvAdc 0 (analog hw 0 (t_resample hw (now w))); EvDelay 300;
                 EvAdc 0 (analog hw 0 (now w))] ++ trace w /\
     regs w' = regs w /\ config w' = config w).
Proof.
  intros Ha H1.
  destruct (check_button_input_cases hw w Ha) as (w1 & _ & H).
  apply Z.ltb_lt in H1. rewrite H1 in H.
  split; [|split].
  - intros w' E.
    destruct (analog hw 0 (t_resample hw (now w)) <? 1000);
      [destruct (analog hw 0 (t_hold hw (now w)) <? 1000)|];
      destruct H as (E1 & _); rewrite E1 in E; discriminate E.
  - intros H2. apply Z.ltb_ge in H2. rewrite H2 in H.
    exists w1. exact H.
  - intros H2 H3. apply Z.ltb_lt in H2. apply Z.ltb_ge in H3.
    rewrite H2, H3 in H. destruct H as (E & T & N & R & C).
    exists w1. repeat split; assumption.
Qed.

Lemma tap_reported_witness :
  Z.land (ADMUX power_on) 8 = 0 /\
  analog (pressed_between 0 1) 0 (now power_on) < 1000 /\
  1000 <= analog (pressed_between 0 1) 0
            (t_resample (pressed_between 0 1) (now power_on)) /\
  exists w', check_button_input (pressed_between 0 1) power_on = Done 1 w'.
Proof.
  assert (Ha : Z.land (ADMUX power_on) 8 = 0) by reflexivity.
  assert (H1 : analog (pressed_between 0 1) 0 (now power_on) < 1000) by reflexivity.
  assert (H2 : 1000 <= analog (pressed_between 0 1) 0
                  (t_resample (pressed_between 0 1) (now power_on)))
    by (vm_compute; discriminate).
  destruct (tap_reported (pressed_between 0 1) power_on Ha H1) as (_ & B & _).
  destruct (B H2) as (w' & E & _).
  repeat (split; [assumption|]).
  exists w'. exact E.
Defined.

(** ** Polled delay *)

Lemma prompt_return_intro (new : list event) :
  pressed_in new = true -> existsb is_pwm new = false -> prompt_return new.
Proof.
  induction new as [|e new IH]; intros Hp Hw; [discriminate Hp|].
  cbn [pressed_in existsb] in Hp, Hw.
  apply orb_false_iff in Hw. destruct Hw as [We Wn].
  destruct (pressed_in new) eqn:Pn.
  - destruct (IH eq_refl Wn) as (post & v & pre & -> & Hv & Hpre & Hpost).
    exists (e :: post), v, pre. split; [reflexivity|]. split; [exact Hv|].
    split; [exact Hpre|]. cbn [existsb]. rewrite We, Hpost. reflexivity.
  - unfold pressed_in in Pn. rewrite Pn, orb_false_r in Hp.
    destruct e as [| |ch v| |]; try discriminate Hp.
    cbn [low_sample] in Hp. apply andb_true_iff in Hp. destruct Hp as [Hc Hv].
    apply Z.eqb_eq in Hc. apply Z.ltb_lt in Hv. subst ch.
    exists [], v, new. repeat split; assumption.
Qed.

Section Polling.

Context (hw : Hardware).

(** What a call of the monitor leaves in the trace, by its outcome. *)
Lemma check_report w :
  Z.land (ADMUX w) 8 = 0 ->
  exists ev,
    trace (world_of (check_button_input hw w)) = ev ++ trace w /\
    Z.land (ADMUX (world_of (check_button_input hw w))) 8 = 0 /\
    match check_button_input hw w with
    | Done b w' =>
        existsb is_pwm ev = false /\ regs w' = regs w /\ config w' = config w /\
        ((b = 0 /\ pressed_in ev = false) \/ (b = 1 /\ pressed_in ev = true))
    | Restart _ => pressed_in ev = true
    | _ => False
    end.
Proof.
  intros Ha. destruct (check_button_input_cases hw w Ha) as (w' & Ha' & H).
  destruct (analog hw 0 (now w) <? 1000) eqn:S1.
  - destruct (analog hw 0 (t_resample hw (now w)) <? 1000) eqn:S2.
    + destruct (analog hw 0 (t_hold hw (now w)) <? 1000) eqn:S3.
      * destruct H as (E & T & _). rewrite E. cbn [world_of].
        eexists. split; [rewrite T, !app_assoc; reflexivity|].
        split; [exact Ha'|].
        unfold pressed_in. rewrite !existsb_app. cbn [existsb low_sample].
        rewrite S3. change (0 =? 0) with true. cbn.
        first [reflexivity | apply orb_true_r].
      * destruct H as (E & T & N & R & C). rewrite E. cbn [world_of].
        eexists. split; [exact T|]. split; [exact Ha'|].
        split; [reflexivity|]. split; [exact R|]. split; [exact C|].
        right. split; [reflexivity|]. cbn. rewrite S3, S2. reflexivity.
    + destruct H as (E & T & N & R & C). rewrite E. cbn [world_of].
      eexists. split; [exact T|]. split; [exact Ha'|].
      split; [reflexivity|]. split; [exact R|]. split; [exact C|].
      right. split; [reflexivity|]. cbn. rewrite S2, S1. reflexivity.
  - destruct H as (E & T & N & R & C). rewrite E. cbn [world_of].
    eexists. split; [exact T|]. split; [exact Ha'|].
    split; [reflexivity|]. split; [exact R|]. split; [exact C|].
    left. split; [reflexivity|]. cbn. rewrite S1. reflexivity.
Qed.

Lemma wait_loop_unfold deadline fuel bp w :
  while_ (S fuel) (fun _ w => millis w <? deadline) (wait_body hw) bp w =
  if millis w <? deadline then
    match check_button_input hw w with
    | Done b w1 =>
        while_ fuel (fun _ w => millis w <? deadline) (wait_body hw)
               (if b =? 0 then bp else 1) w1
    | Returned v w1 => Returned v w1
    | Restart w1 => Restart w1
    | Spin w1 => Spin w1
    end
  else Done bp w.
Proof.
  cbn [while_]. destruct (millis w <? deadline); [|reflexivity].
  unfold wait_body, bind, ret. destruct (check_button_input hw w); reflexivity.
Qed.

(** The loop of [delay_millis_check_button], from any latch value. *)
Lemma wait_loop_report (deadline : Z) (fuel : nat) : forall bp w,
  Z.land (ADMUX w) 8 = 0 -> bp = 0 \/ bp = 1 ->
  exists new,
    trace (world_of (while_ fuel (fun _ w => millis w <? deadline) (wait_body hw) bp w))
      = new ++ trace w /\
    Z.land (ADMUX (world_of
      (while_ fuel (fun _ w => millis w <? deadline) (wait_body hw) bp w))) 8 = 0 /\
    match while_ fuel (fun _ w => millis w <? deadline) (wait_body hw) bp w with
    | Done r w' =>
        deadline <= millis w' /\ (r = 0 \/ r = 1) /\
        (r = 1 <-> bp = 1 \/ pressed_in new = true) /\
        existsb is_pwm new = false /\ regs w' = regs w /\ config w' = config w
    | Spin _ => existsb is_pwm new = false
    | Restart _ => pressed_in new = true
    | Returned _ _ => False
    end.
Proof.
  induction fuel as [|fuel IH]; intros bp w Ha Hbp.
  - exists []. cbn. repeat split; reflexivity || assumption.
  - rewrite wait_loop_unfold.
    destruct (Z.ltb_spec (millis w) deadline) as [L|L].
    + destruct (check_report w Ha) as (ev & T & Ha1 & H).
      destruct (check_button_input hw w) as [b w1|v w1|w1|w1]; cbn [world_of] in *;
        try contradiction.
      * destruct H as (Pw & R1 & C1 & Hb).
        assert (Hbp' : (if b =? 0 then bp else 1) = 0 \/ (if b =? 0 then bp else 1) = 1).
        { destruct Hb as [[-> _]|[-> _]]; cbn; [exact Hbp|right; reflexivity]. }
        destruct (IH _ w1 Ha1 Hbp') as (new & T2 & Ha2 & H2).
        exists (new ++ ev). split; [rewrite T2, T, app_assoc; reflexivity|].
        split; [exact Ha2|].
        destruct (while_ fuel _ _ _ w1) as [r w2|v w2|w2|w2]; cbn [world_of] in *.
        -- destruct H2 as (D2 & Hr & Hiff & Pw2 & R2 & C2).
           split; [exact D2|]. split; [exact Hr|]. split; [|split; [|split]].
           ++ unfold pressed_in in *. rewrite existsb_app, Hiff.
              destruct Hb as [[-> Pe]|[-> Pe]]; rewrite Pe.
              ** rewrite orb_false_r. reflexivity.
              ** rewrite orb_true_r.
                 split; intros _; [right|left]; reflexivity.
           ++ rewrite existsb_app, Pw2, Pw. reflexivity.
           ++ congruence.
           ++ congruence.
        -- exact H2.
        -- unfold pressed_in in *. rewrite existsb_app, H2. reflexivity.
        -- rewrite existsb_app, H2, Pw. reflexivity.
      * exists ev. split; [exact T|]. split; [exact Ha1|exact H].
    + exists []. cbn. split; [reflexivity|]. split; [exact Ha|].
      split; [lia|]. split; [exact Hbp|]. split; [|repeat split; reflexivity].
      split; [intros ->; left; reflexivity|]. intros [->|F]; [reflexivity|discriminate F].
Qed.

Lemma delay_millis_check_button_eq fuel d w :
  delay_millis_check_button hw fuel d w =
  while_ fuel (fun _ w' => millis w' <? u64 (millis w + d)) (wait_body hw) 0 w.
Proof. reflexivity. Qed.

(** In a well-formed world that has not reached the wrap the millisecond
    counter is the interrupt count divided by five. *)
Lemma millis_now w : wf w -> now w < WRAP -> millis w = now w / 5.
Proof.
  intros [(Hn & _ & Hm) _] Hw. rewrite Hm. unfold u64. apply Z.mod_small.
  unfold WRAP in Hw. split; [apply Z.div_pos; lia|].
  apply Z.div_lt_upper_bound; lia.
Qed.

Lemma check_wf w : wf w -> wf (world_of (check_button_input hw w)).
Proof.
  intros Hw.
  apply (keeps_built (step0 hw) wf (step0_wf hw) _ _ (check_button_input_built hw) w Hw).
Qed.

(** How long a call of the monitor that returns takes. *)
Lemma check_time K w :
  timing hw K -> wf w ->
  match check_button_input hw w with
  | Done b w' => wf w' /\ now w + 1 <= now w' <= now w + CHECK_MAX K
  | Restart _ => True
  | _ => False
  end.
Proof.
  intros [Hadc Hms] Hw. pose proof (check_wf w Hw) as Hw'.
  destruct Hw as [Hs Ha].
  destruct (check_button_input_cases hw w Ha) as (w' & _ & H).
  pose proof (Hadc (now w)) as A1.
  pose proof (Hadc (t_resample hw (now w))) as A2.
  pose proof (Hadc (t_hold hw (now w))) as A3.
  pose proof (Hms (now w + Z.of_nat (adc_ovf hw (now w))) 300 ltac:(lia)) as M1.
  pose proof (Hms (t_resample hw (now w)
                   + Z.of_nat (adc_ovf hw (t_resample hw (now w)))) 3000 ltac:(lia)) as M2.
  assert (T2 : now w + 1 <= t_resample hw (now w) <= now w + 301 * K).
  { unfold t_resample. lia. }
  assert (T3 : now w + 2 <= t_hold hw (now w) <= now w + 3302 * K).
  { unfold t_hold. lia. }
  unfold CHECK_MAX.
  destruct (analog hw 0 (now w) <? 1000);
    [destruct (analog hw 0 (t_resample hw (now w)) <? 1000);
       [destruct (analog hw 0 (t_hold hw (now w)) <? 1000)|]|];
    destruct H as (E & T & H); rewrite E in Hw' |- *; cbn [world_of] in Hw';
    try exact I; destruct H as (N & _); (split; [exact Hw'|lia]).
Qed.

Lemma check_quiet K w :
  timing hw K -> quiet hw -> wf w ->
  exists w', check_button_input hw w = Done 0 w' /\ wf w' /\
    now w + 1 <= now w' <= now w + K /\
    trace w' = [EvAdc 0 (analog hw 0 (now w))] ++ trace w /\
    regs w' = regs w /\ config w' = config w.
Proof.
  intros [Hadc Hms] Hq Hw. pose proof (check_wf w Hw) as Hw'.
  destruct Hw as [Hs Ha].
  destruct (check_button_input_cases hw w Ha) as (w' & _ & H).
  pose proof (Hq (now w)) as Q. apply Z.ltb_ge in Q. rewrite Q in H.
  destruct H as (E & T & N & R & C). rewrite E in Hw'. cbn [world_of] in Hw'.
  pose proof (Hadc (now w)) as A1.
  exists w'. repeat (split; [assumption || lia|]). exact C.
Qed.

(** The wait loop makes progress: every call of the monitor takes time,
    so the loop reaches its deadline unless the device restarts. *)
Lemma wait_loop_progress (B D : Z) (Q : Z -> Prop) (R : Prop) :
  (forall w, wf w ->
     match check_button_input hw w with
     | Done b w' => wf w' /\ now w + 1 <= now w' <= now w + B /\ Q b
     | Restart _ => R
     | _ => False
     end) ->
  0 <= D -> 5 * D + B <= WRAP ->
  forall (n fuel : nat) bp w,
    wf w -> now w < WRAP ->
    5 * D - now w <= Z.of_nat n -> (n < fuel)%nat ->
    match while_ fuel (fun _ w => millis w <? D) (wait_body hw) bp w with
    | Done r w' =>
        wf w' /\ 5 * D <= now w' /\
        now w <= now w' <= Z.max (now w) (5 * D + B - 1) /\
        ((forall b, Q b -> b = 0) -> r = bp)
    | Restart _ => R
    | _ => False
    end.
Proof.
  intros Hstep HD HB n. induction n as [|n IH]; intros fuel bp w Hw Hn Hm Hf;
    (destruct fuel as [|fuel]; [lia|]); rewrite wait_loop_unfold;
    rewrite (millis_now w Hw) by lia.
  - assert (L : (now w / 5 <? D) = false).
    { apply Z.ltb_ge. apply Z.div_le_lower_bound; lia. }
    rewrite L. split; [exact Hw|]. split; [lia|]. split; [lia|]. reflexivity.
  - destruct (Z.ltb_spec (now w / 5) D) as [L|L].
    + specialize (Hstep w Hw).
      destruct (check_button_input hw w) as [b w1|v w1|w1|w1]; try contradiction.
      * destruct Hstep as (Hw1 & N1 & Qb).
        assert (L' : now w < 5 * D).
        { pose proof (Z.div_mod (now w) 5 ltac:(lia)).
          pose proof (Z.mod_pos_bound (now w) 5 ltac:(lia)). lia. }
        specialize (IH fuel (if b =? 0 then bp else 1) w1 Hw1 ltac:(lia) ltac:(lia) ltac:(lia)).
        destruct (while_ fuel _ _ _ w1) as [r w2|v w2|w2|w2]; try contradiction.
        -- destruct IH as (Hw2 & N2 & N3 & Hr).
           split; [exact Hw2|]. split; [exact N2|]. split; [lia|].
           intros HQ. rewrite (Hr HQ), (HQ b Qb). reflexivity.
        -- exact IH.
      * exact Hstep.
    + split; [exact Hw|]. split; [|split; [lia|reflexivity]].
      pose proof (Z.div_mod (now w) 5 ltac:(lia)).
      pose proof (Z.mod_pos_bound (now w) 5 ltac:(lia)). lia.
Qed.

End Polling.

Lemma timing_bench : timing bench 4.
Proof.
  split.
  - intros t. cbn. lia.
  - intros t n Hn. cbn [ms_ovf bench]. rewrite Z2Nat.id by lia. lia.
Qed.

(** C10 — For every non-negative delay [d], in an environment where a
    conversion takes between 1 and [K] timer periods and the millisecond
    counter does not wrap during the wait, [delay_millis_check_button]
    given fuel for more than [5 * d] polls either returns or the device
    restarts (a long press); when it returns, the millisecond counter has
    reached its starting value plus [d], press or no press; the result is
    0 or 1, and it is 1 exactly when some button sample taken during the
    wait read below the threshold; no compare register was written. *)
Theorem delay_millis_check_button_contract (hw : Hardware) (K : Z)
    (fuel : nat) (d : Z) (w : World) :
  0 <= d ->
  wf w ->
  timing hw K ->
  now w + 5 * d + CHECK_MAX K < WRAP ->
  5 * d < Z.of_nat fuel ->
  exists new,
    trace (world_of (delay_millis_check_button hw fuel d w)) = new ++ trace w /\
    match delay_millis_check_button hw fuel d w with
    | Done r w' =>
        millis w + d <= millis w' /\
        (r = 0 \/ r = 1) /\
        (r = 1 <-> pressed_in new = true) /\
        existsb is_pwm new = false /\ regs w' = regs w
    | Restart _ => pressed_in new = true
    | _ => False
    end.
Proof.
  intros Hd Hw Ht Hwrap Hf.
  rewrite delay_millis_check_button_eq.
  assert (HK : 3303 <= CHECK_MAX K).
  { destruct Ht as [Ha _]. specialize (Ha 0). unfold CHECK_MAX. lia. }
  assert (Hn : 0 <= now w) by apply Hw.
  rewrite (millis_now w Hw) by lia.
  pose proof (Z.div_mod (now w) 5 ltac:(lia)) as DM.
  pose proof (Z.mod_pos_bound (now w) 5 ltac:(lia)) as MB.
  set (D := now w / 5 + d) in *.
  assert (HD : u64 D = D).
  { unfold u64. apply Z.mod_small. unfold WRAP in Hwrap. subst D. lia. }
  rewrite HD.
  destruct (wait_loop_report hw D fuel 0 w (proj2 Hw) (or_introl eq_refl))
    as (new & T & _ & H).
  pose proof (wait_loop_progress hw (CHECK_MAX K) D (fun _ => True) True) as P.
  specialize (P (fun w0 Hw0 =>
    match check_button_input hw w0 as o
      return (match o with
              | Done b w' => wf w' /\ now w0 + 1 <= now w' <= now w0 + CHECK_MAX K
              | Restart _ => True | _ => False end ->
              match o with
              | Done b w' => wf w' /\ now w0 + 1 <= now w' <= now w0 + CHECK_MAX K /\ True
              | Restart _ => True | _ => False end)
    with
    | Done b w' => fun H => conj (proj1 H) (conj (proj2 H) I)
    | Restart _ => fun H => H
    | _ => fun H => H
    end (check_time hw K w0 Ht Hw0))).
  specialize (P ltac:(subst D; apply Z.add_nonneg_nonneg; [apply Z.div_pos|]; lia)
                ltac:(subst D; lia)
                (Z.to_nat (5 * d)) fuel 0 w Hw ltac:(subst D; lia)
                ltac:(subst D; lia) ltac:(lia)).
  exists new. split; [exact T|].
  destruct (while_ fuel _ _ 0 w) as [r w'|v w'|w'|w']; try contradiction.
  - destruct H as (H1 & H2 & H3 & H4 & H5 & _).
    split; [subst D; exact H1|]. split; [exact H2|]. split; [|split; assumption].
    rewrite H3. split; [intros [F|F]; [discriminate F|exact F]|intros F; right; exact F].
  - exact H.
Qed.

Lemma delay_millis_check_button_contract_witness :
  0 <= 50 /\ wf power_on /\ timing bench 4 /\
  now power_on + 5 * 50 + CHECK_MAX 4 < WRAP /\
  5 * 50 < Z.of_nat 300 /\
  exists new,
    trace (world_of (delay_millis_check_button bench 300 50 power_on))
      = new ++ trace power_on /\
    match delay_millis_check_button bench 300 50 power_on with
    | Done r w' =>
        millis power_on + 50 <= millis w' /\
        (r = 0 \/ r = 1) /\
        (r = 1 <-> pressed_in new = true) /\
        existsb is_pwm new = false /\ regs w' = regs power_on
    | Restart _ => pressed_in new = true
    | _ => False
    end.
Proof.
  assert (H1 : 0 <= 50) by lia.
  assert (H2 : wf power_on) by exact power_on_wf.
  assert (H3 : timing bench 4) by exact timing_bench.
  assert (H4 : now power_on + 5 * 50 + CHECK_MAX 4 < WRAP) by reflexivity.
  assert (H5 : 5 * 50 < Z.of_nat 300) by reflexivity.
  repeat (split; [assumption|]).
  exact (delay_millis_check_button_contract bench 4 300 50 power_on H1 H2 H3 H4 H5).
Defined.

(** ** Sequences without button activity *)

Lemma calm_ret {A} (a : A) (Q : A -> Prop) : Q a -> calm 0 0 (ret a) Q.
Proof.
  intros HQ w Hw _. exists a, w. split; [reflexivity|]. split; [exact Hw|].
  split; [lia|exact HQ].
Qed.

Lemma calm_bind {A B} lo1 hi1 lo2 hi2 (c : M A) (f : A -> M B) Q1 Q2 :
  calm lo1 hi1 c Q1 ->
  (forall a, Q1 a -> calm lo2 hi2 (f a) Q2) ->
  0 <= hi2 ->
  calm (lo1 + lo2) (hi1 + hi2) (bind c f) Q2.
Proof.
  intros Hc Hf H2 w Hw Hn.
  destruct (Hc w Hw ltac:(lia)) as (a & w1 & E1 & Hw1 & N1 & Q1a).
  destruct (Hf a Q1a w1 Hw1 ltac:(lia)) as (b & w2 & E2 & Hw2 & N2 & Q2b).
  exists b, w2. rewrite (bind_done _ _ _ _ _ E1).
  split; [exact E2|]. split; [exact Hw2|]. split; [lia|exact Q2b].
Qed.

Lemma calm_weaken {A} lo hi lo' hi' (c : M A) (Q Q' : A -> Prop) :
  calm lo hi c Q -> lo' <= lo -> hi <= hi' -> (forall a, Q a -> Q' a) ->
  calm lo' hi' c Q'.
Proof.
  intros Hc Hlo Hhi HQ w Hw Hn.
  destruct (Hc w Hw ltac:(lia)) as (a & w1 & E1 & Hw1 & N1 & Qa).
  exists a, w1. split; [exact E1|]. split; [exact Hw1|]. split; [lia|].
  apply HQ, Qa.
Qed.

Lemma calm_rounds {S} lo hi (I : S -> Prop) (n : nat) i d
    (body : Z -> S -> M S) s :
  (forall i s, I s -> calm lo hi (body i s) I) ->
  0 <= hi -> I s ->
  calm (Z.of_nat n * lo) (Z.of_nat n * hi) (rounds n i d body s) I.
Proof.
  intros Hb Hhi. revert i s. induction n as [|n IH]; intros i s Hs.
  - cbn [rounds]. apply calm_ret. exact Hs.
  - cbn [rounds].
    apply (calm_weaken (lo + Z.of_nat n * lo) (hi + Z.of_nat n * hi) _ _ _ I);
      [|lia|lia|auto].
    apply (calm_bind lo hi _ _ _ _ I I); [apply Hb, Hs| |nia].
    intros s' Hs'. apply IH, Hs'.
Qed.

Section Calm.

Context (hw : Hardware) (K : Z).
Hypothesis Ht : timing hw K.
Hypothesis Hq : quiet hw.

Lemma K_pos : 1 <= K.
Proof. destruct Ht as [Ha _]. specialize (Ha 0). lia. Qed.

Lemma calm_step0 {A} (c : M A) (f : World -> World) (g : World -> A) :
  (forall w, c w = Done (g w) (f w)) ->
  (forall w, now (f w) = now w) ->
  step0 hw A c ->
  calm 0 0 c (fun _ => True).
Proof.
  intros E N S w Hw _. exists (g w), (f w). split; [apply E|].
  pose proof (step0_wf hw A c S w Hw) as Hw'. rewrite E in Hw'.
  split; [exact Hw'|]. rewrite N. split; [lia|exact I].
Qed.

Lemma calm_write r v : calm 0 0 (write r v) (fun _ => True).
Proof.
  apply (calm_step0 _ (fun w => log (EvPwm r (u8 v)) (set_reg r (u8 v) w)) (fun _ => tt)).
  - reflexivity.
  - intros w. destruct r; reflexivity.
  - constructor.
Qed.

Lemma calm_read {A} (f : World -> A) : calm 0 0 (read f) (fun _ => True).
Proof.
  apply (calm_step0 _ (fun w => w) f); [reflexivity|reflexivity|constructor].
Qed.

Lemma calm_rand : calm 0 0 (rand hw) (fun _ => True).
Proof.
  apply (calm_step0 _ (fun w => set_rand_calls (S (rand_calls w)) w)
                      (fun w => rand_val hw (rand_calls w)));
    [reflexivity|reflexivity|constructor].
Qed.

Lemma calm_push v : calm 0 0 (push_sample v) (fun _ => True).
Proof.
  apply (calm_step0 _
    (fun w => set_mic (<[Z.to_nat (mic_buffer_current w) := u16 v]> (mic_buffer w))
                      (Z.rem (s16 (mic_buffer_current w + 1)) MIC_BUFFER_SIZE) w)
    (fun _ => tt)); [reflexivity|reflexivity|constructor].
Qed.

Lemma calm_init_mic : calm 0 0 init_mic_buffer (fun _ => True).
Proof.
  intros w Hw _. eexists; eexists. split; [reflexivity|].
  pose proof (step0_wf hw _ _ (step0_init_mic hw) w Hw) as Hw'.
  split; [exact Hw'|]. split; [cbn; lia|exact I].
Qed.

Lemma calm_delay n : 0 <= n -> calm 0 (K * n) (_delay_ms hw n) (fun _ => True).
Proof.
  intros Hn w Hw _.
  destruct (delay_ms_eq hw n w) as (w' & E & N & _).
  exists tt, w'. split; [exact E|].
  pose proof (step0_wf hw _ _ (step0_delay hw n) w Hw) as Hw'. rewrite E in Hw'.
  split; [exact Hw'|]. destruct Ht as [_ Hms]. specialize (Hms (now w) n Hn).
  split; [lia|exact I].
Qed.

Lemma calm_mic : calm 1 K (adc_read hw 1) (fun _ => True).
Proof.
  intros w Hw _.
  destruct (adc_read_eq hw 1 w (proj2 Hw) ltac:(lia)) as (w' & E & N & _).
  eexists; exists w'. split; [exact E|].
  pose proof (step0_wf hw _ _ (step0_adc hw 1 ltac:(lia)) w Hw) as Hw'.
  rewrite E in Hw'.
  split; [exact Hw'|]. destruct Ht as [Hadc _]. specialize (Hadc (now w)).
  split; [lia|exact I].
Qed.

Lemma calm_poll : calm 1 K (poll hw) (fun _ => True).
Proof.
  intros w Hw _.
  destruct (check_quiet hw K w Ht Hq Hw) as (w' & E & Hw' & N & _).
  exists tt, w'. unfold poll. rewrite (bind_done _ _ _ _ _ E).
  split; [reflexivity|]. split; [exact Hw'|]. split; [exact N|exact I].
Qed.

Lemma calm_wait_poll fuel d :
  0 <= d -> 5 * d < Z.of_nat fuel ->
  calm 0 (5 * d + K) (wait_poll hw fuel d) (fun _ => True).
Proof.
  intros Hd Hf w Hw Hn. pose proof K_pos as HK.
  assert (N0 : 0 <= now w) by apply Hw.
  pose proof (Z.div_mod (now w) 5 ltac:(lia)) as DM.
  pose proof (Z.mod_pos_bound (now w) 5 ltac:(lia)) as MB.
  unfold wait_poll. unfold bind at 1.
  rewrite delay_millis_check_button_eq, (millis_now w Hw) by lia.
  set (D := now w / 5 + d).
  assert (HD : u64 D = D).
  { unfold u64. apply Z.mod_small. unfold WRAP in Hn. subst D. lia. }
  rewrite HD.
  pose proof (wait_loop_progress hw K D (fun b => b = 0) False) as P.
  assert (Hstep : forall w0, wf w0 ->
            match check_button_input hw w0 with
            | Done b w' => wf w' /\ now w0 + 1 <= now w' <= now w0 + K /\ b = 0
            | Restart _ => False
            | _ => False
            end).
  { intros w0 Hw0.
    destruct (check_quiet hw K w0 Ht Hq Hw0) as (w' & E & Hw' & N & _).
    rewrite E. split; [exact Hw'|]. split; [exact N|reflexivity]. }
  specialize (P Hstep ltac:(subst D; lia) ltac:(subst D; lia)
                (Z.to_nat (5 * d)) fuel 0 w Hw ltac:(subst D; lia)
                ltac:(subst D; lia) ltac:(lia)).
  destruct (while_ fuel _ _ 0 w) as [r w'|v w'|w'|w']; try contradiction.
  destruct P as (Hw' & N1 & N2 & Hr).
  rewrite (Hr (fun b Hb => Hb)). cbn.
  exists tt, w'. split; [reflexivity|]. split; [exact Hw'|].
  split; [subst D; lia|exact I].
Qed.

(** The fade loops run to the end of the range. *)
Lemma calm_fade_in fuel r ms : forall (n : nat) led,
  0 <= ms -> 0 <= led <= 255 -> 255 - led = Z.of_nat n -> (n < fuel)%nat ->
  calm (255 - led) ((255 - led) * (K + K * ms)) (fade_in hw fuel r ms led)
       (eq 255).
Proof.
  intros n led Hms. revert fuel led.
  pose proof K_pos as HK.
  induction n as [|n IH]; intros fuel led Hl Hn Hf;
    (destruct fuel as [|fuel]; [lia|]); unfold fade_in; cbn [while_].
  - assert (led = 255) by lia. subst led.
    change (255 <? 255) with false. cbv iota.
    replace ((255 - 255) * (K + K * ms)) with 0 by lia.
    replace (255 - 255) with 0 by lia.
    intros w Hw _. exists 255, w. split; [reflexivity|]. split; [exact Hw|].
    split; [lia|reflexivity].
  - assert (L : (led <? 255) = true) by (apply Z.ltb_lt; lia). rewrite L.
    assert (U : u8 (led + 1) = led + 1) by (unfold u8; apply Z.mod_small; lia).
    apply (calm_weaken ((1 + (0 + (0 + 0))) + (254 - led))
                       ((K + (0 + (K * ms + 0))) + (254 - led) * (K + K * ms))
                       _ _ _ (eq 255));
      [|lia|nia|auto].
    apply (calm_bind _ _ _ _ _ _ (eq (led + 1)) (eq 255)); [| |nia].
    + apply (calm_bind _ _ _ _ _ _ (fun _ => True)); [apply calm_poll| |nia].
      intros _ _.
      apply (calm_bind _ _ _ _ _ _ (fun _ => True)); [apply calm_write| |nia].
      intros _ _.
      apply (calm_bind _ _ _ _ _ _ (fun _ => True)); [apply calm_delay; lia| |lia].
      intros _ _. rewrite U. apply calm_ret. reflexivity.
    + intros a <-.
      replace (254 - led) with (255 - (led + 1)) by lia.
      apply (IH fuel (led + 1)); lia.
Qed.

Lemma calm_fade_out fuel r ms : forall (n : nat) led,
  0 <= ms -> 0 <= led <= 255 -> led = Z.of_nat n -> (n < fuel)%nat ->
  calm led (led * (K + K * ms)) (fade_out hw fuel r ms led) (eq 0).
Proof.
  intros n led Hms. revert fuel led.
  pose proof K_pos as HK.
  induction n as [|n IH]; intros fuel led Hl Hn Hf;
    (destruct fuel as [|fuel]; [lia|]); unfold fade_out; cbn [while_].
  - assert (led = 0) by lia. subst led.
    change (0 >? 0) with false. cbv iota.
    replace (0 * (K + K * ms)) with 0 by lia.
    intros w Hw _. exists 0, w. split; [reflexivity|]. split; [exact Hw|].
    split; [lia|reflexivity].
  - assert (L : (led >? 0) = true) by (apply Z.gtb_lt; lia). rewrite L.
    assert (U : u8 (led - 1) = led - 1) by (unfold u8; apply Z.mod_small; lia).
    apply (calm_weaken ((1 + (0 + (0 + 0))) + (led - 1))
                       ((K + (0 + (K * ms + 0))) + (led - 1) * (K + K * ms))
                       _ _ _ (eq 0));
      [|lia|nia|auto].
    apply (calm_bind _ _ _ _ _ _ (eq (led - 1)) (eq 0)); [| |nia].
    + apply (calm_bind _ _ _ _ _ _ (fun _ => True)); [apply calm_poll| |nia].
      intros _ _.
      apply (calm_bind _ _ _ _ _ _ (fun _ => True)); [apply calm_write| |nia].
      intros _ _.
      apply (calm_bind _ _ _ _ _ _ (fun _ => True)); [apply calm_delay; lia| |lia].
      intros _ _. rewrite U. apply calm_ret. reflexivity.
    + intros a <-.
      apply (IH fuel (led - 1)); lia.
Qed.

End Calm.

Lemma calm_rounds_Z {S} lo hi (I : S -> Prop) (n : nat) (N : Z) i d
    (body : Z -> S -> M S) s :
  N = Z.of_nat n ->
  (forall i s, I s -> calm lo hi (body i s) I) ->
  0 <= hi -> I s ->
  calm (N * lo) (N * hi) (rounds n i d body s) I.
Proof. intros ->. apply calm_rounds. Qed.

(** The outer loop of a sequence with a non-negative timeout: it leaves
    at the first pass boundary at which the clock has reached the
    deadline, after a whole number of passes of its body. *)
Lemma outer_loop_passes {S} (I : S -> Prop) (body : S -> M S)
    (loB hiB timeout start : Z) :
  (forall s, I s -> calm loB hiB (body s) I) ->
  1 <= loB -> 0 <= hiB ->
  0 <= timeout -> 0 <= start ->
  5 * (start + timeout) + hiB < WRAP ->
  forall (m fuel : nat) s w,
    I s -> wf w -> now w < WRAP ->
    5 * (start + timeout) - now w <= Z.of_nat m -> (m < fuel)%nat ->
    exists (n : nat) s' w',
      while_ fuel (fun _ => running timeout start) body s w = Done s' w' /\
      run_passes n body s w = Done s' w' /\
      (forall k sk wk, (k < n)%nat -> run_passes k body s w = Done sk wk ->
                       millis wk < start + timeout) /\
      wf w' /\ I s' /\ start + timeout <= millis w' /\
      now w <= now w' /\
      ((0 < n)%nat -> now w' < 5 * (start + timeout) + hiB).
Proof.
  intros Hb Hlo Hhi Ht Hs HW.
  set (D := start + timeout) in *.
  assert (HD : u64 D = D).
  { unfold u64. apply Z.mod_small. unfold WRAP in HW. lia. }
  assert (R : forall w, wf w -> now w < WRAP ->
                        running timeout start w = (now w / 5 <? D)).
  { intros w Hw Hn. unfold running.
    assert (T : (timeout <? 0) = false) by (apply Z.ltb_ge; lia).
    rewrite T. cbn [orb]. fold D. rewrite HD, (millis_now w Hw Hn). reflexivity. }
  assert (Stop : forall fuel s w, I s -> wf w -> now w < WRAP ->
            (now w / 5 <? D) = false ->
            exists (n : nat) s' w',
              (if now w / 5 <? D
               then bind (body s) (while_ fuel (fun _ => running timeout start) body) w
               else Done s w) = Done s' w' /\
              run_passes n body s w = Done s' w' /\
              (forall k sk wk, (k < n)%nat -> run_passes k body s w = Done sk wk ->
                               millis wk < D) /\
              wf w' /\ I s' /\ D <= millis w' /\
              now w <= now w' /\ ((0 < n)%nat -> now w' < 5 * D + hiB)).
  { intros fuel s w Is Hw Hn L. rewrite L. exists 0%nat, s, w.
    split; [reflexivity|]. split; [reflexivity|].
    split; [intros k sk wk Hk; lia|]. split; [exact Hw|]. split; [exact Is|].
    rewrite (millis_now w Hw Hn). apply Z.ltb_ge in L.
    split; [exact L|]. split; [lia|]. intros F; lia. }
  intros m. induction m as [|m IH]; intros fuel s w Is Hw Hn Hm Hf;
    (destruct fuel as [|fuel]; [lia|]); cbn [while_]; rewrite (R w Hw Hn);
    pose proof (Z.div_mod (now w) 5 ltac:(lia)) as DM;
    pose proof (Z.mod_pos_bound (now w) 5 ltac:(lia)) as MB.
  - apply Stop; try assumption.
    apply Z.ltb_ge. apply Z.div_le_lower_bound; lia.
  - destruct (Z.ltb_spec (now w / 5) D) as [L|L].
    + destruct (Hb s Is w Hw ltac:(lia)) as (s1 & w1 & E1 & Hw1 & N1 & Is1).
      rewrite (bind_done _ _ _ _ _ E1).
      destruct (IH fuel s1 w1 Is1 Hw1 ltac:(lia) ltac:(lia) ltac:(lia))
        as (n & s2 & w2 & E2 & P2 & F2 & Hw2 & Is2 & M2 & N2 & B2).
      exists (Datatypes.S n), s2, w2. split; [exact E2|].
      split; [cbn [run_passes]; rewrite (bind_done _ _ _ _ _ E1); exact P2|].
      split.
      { intros k sk wk Hk. destruct k as [|k]; cbn [run_passes].
        - intros Ek. injection Ek as <- <-.
          rewrite (millis_now w Hw Hn). exact L.
        - rewrite (bind_done _ _ _ _ _ E1). apply F2. lia. }
      split; [exact Hw2|]. split; [exact Is2|]. split; [exact M2|].
      split; [lia|]. intros _.
      destruct n as [|n].
      * cbn [run_passes] in P2. injection P2 as <- <-. lia.
      * apply B2. lia.
    + assert (L' : (now w / 5 <? D) = false) by (apply Z.ltb_ge; exact L).
      destruct (Stop fuel s w Is Hw Hn L') as (n & s' & w' & E & H).
      rewrite L' in E. exists n, s', w'. split; [exact E|exact H].
Qed.

(** The frame of a sequence around a calm entry, lead-in and body. *)
Lemma sequence_passes {S} (I : S -> Prop) (entry prelude : M unit)
    (locals : Z -> S) (body : S -> M S) (hiP loB hiB : Z) :
  calm 0 0 entry (fun _ => True) ->
  calm 0 hiP prelude (fun _ => True) ->
  (forall s, I s -> calm loB hiB (body s) I) ->
  (forall st, I (locals st)) ->
  1 <= loB -> 0 <= hiP -> 0 <= hiB ->
  forall timeout (fuel : nat) w,
    0 <= timeout -> wf w ->
    now w + 5 * timeout + hiP + hiB < WRAP ->
    5 * timeout + 5 < Z.of_nat fuel ->
    exists (n : nat) st0 w0 st' w',
      (entry ;; start_time <- read millis ;; prelude ;;
       ret (locals start_time)) w = Done st0 w0 /\
      now w0 <= now w + hiP /\
      run_passes n body st0 w0 = Done st' w' /\
      (forall k stk wk, (k < n)%nat -> run_passes k body st0 w0 = Done stk wk ->
                        millis wk < millis w + timeout) /\
      millis w + timeout <= millis w' /\
      ((0 < n)%nat -> now w' < 5 * (millis w + timeout) + hiB) /\
      sequence fuel timeout entry locals prelude body w = Done 0 w' /\
      wf w'.
Proof.
  intros He Hp Hb Hl HloB HhiP HhiB timeout fuel w Ht Hw Hn Hf.
  assert (N0 : 0 <= now w) by apply Hw.
  pose proof (Z.div_mod (now w) 5 ltac:(lia)) as DM.
  pose proof (Z.mod_pos_bound (now w) 5 ltac:(lia)) as MB.
  destruct (He w Hw ltac:(lia)) as ([] & w1 & E1 & Hw1 & N1 & _).
  destruct (Hp w1 Hw1 ltac:(lia)) as ([] & w2 & E2 & Hw2 & N2 & _).
  assert (M1 : millis w1 = millis w).
  { rewrite (millis_now w Hw), (millis_now w1 Hw1) by lia. f_equal. lia. }
  rewrite (millis_now w Hw) in * by lia.
  set (start := now w / 5) in *.
  assert (Hs : 0 <= start) by (subst start; apply Z.div_pos; lia).
  destruct (outer_loop_passes I body loB hiB timeout start Hb HloB HhiB Ht Hs
              ltac:(lia) (Z.to_nat (5 * timeout + 5)) fuel (locals start) w2
              (Hl start) Hw2 ltac:(lia) ltac:(lia) ltac:(lia))
    as (n & s3 & w3 & E3 & P3 & F3 & Hw3 & _ & M3 & N3 & B3).
  exists n, (locals start), w2, s3, w3.
  split.
  { rewrite (bind_done _ _ _ _ _ E1).
    unfold bind at 1. unfold read at 1. rewrite M1.
    rewrite (bind_done _ _ _ _ _ E2). reflexivity. }
  split; [lia|]. split; [exact P3|]. split; [exact F3|].
  split; [exact M3|]. split; [exact B3|]. split; [|exact Hw3].
  unfold sequence, fn.
  rewrite (bind_done _ _ _ _ _ E1).
  unfold bind at 1. unfold read at 1. rewrite M1.
  rewrite (bind_done _ _ _ _ _ E2), (bind_done _ _ _ _ _ E3).
  reflexivity.
Qed.

Lemma calm_if {A} lo1 hi1 lo2 hi2 (b : bool) (c1 c2 : M A) (Q : A -> Prop) :
  calm lo1 hi1 c1 Q -> calm lo2 hi2 c2 Q ->
  calm (Z.min lo1 lo2) (Z.max hi1 hi2) (if b then c1 else c2) Q.
Proof.
  intros H1 H2. destruct b.
  - eapply calm_weaken; [exact H1|lia|lia|auto].
  - eapply calm_weaken; [exact H2|lia|lia|auto].
Qed.

Lemma u8_range x : 0 <= u8 x <= 255.
Proof. unfold u8. pose proof (Z.mod_pos_bound x 256). lia. Qed.

Section CalmSequences.

Context (hw : Hardware) (K : Z) (fuel : nat).
Hypothesis Ht : timing hw K.
Hypothesis Hq : quiet hw.
Hypothesis Hfuel : (3000 <= fuel)%nat.

Let HK : 1 <= K := K_pos hw K Ht.

Ltac side := first [exact I | pose proof HK; lia | pose proof HK; nia].

Ltac calm_go :=
  lazymatch goal with
  | |- calm _ _ (bind _ _) _ =>
      eapply calm_bind; [calm_go | intros ? ?; calm_go | side]
  | |- calm _ _ (ret _) _ =>
      apply calm_ret;
      first [exact I | unfold leds_ok; repeat split; apply u8_range]
  | |- calm _ _ (write _ _) _ => apply (calm_write hw)
  | |- calm _ _ (read _) _ => apply (calm_read hw)
  | |- calm _ _ (_delay_ms _ _) _ => apply (calm_delay hw K Ht); lia
  | |- calm _ _ (poll _) _ => apply (calm_poll hw K Ht Hq)
  | |- calm _ _ (wait_poll _ _ _) _ => apply (calm_wait_poll hw K Ht Hq); lia
  | |- calm _ _ (rand _) _ => apply (calm_rand hw)
  | |- calm _ _ (adc_read _ 1) _ => apply (calm_mic hw K Ht)
  | |- calm _ _ (push_sample _) _ => apply (calm_push hw)
  | |- calm _ _ init_mic_buffer _ => apply (calm_init_mic hw)
  | |- calm _ _ (rounds _ _ _ _ _) _ =>
      eapply (calm_rounds_Z _ _ (fun _ => True));
      [vm_compute; reflexivity | intros ? ? _; calm_go | side | exact I]
  | |- calm _ _ (if _ then _ else _) _ => eapply calm_if; [calm_go | calm_go]
  | |- calm _ _ (match ?x with _ => _ end) _ => destruct x; calm_go
  | |- calm _ _ _ _ =>
      first
        [ progress unfold bump, write_all, bump_all, flash, hand_off, chase,
            hold, drift, for_lt, for_le, for_gt, for_ge, get_mic_buffer_mad,
            seq8_prelude
        | progress cbv zeta ];
      calm_go
  end.

Ltac calm_top :=
  lazymatch goal with
  | |- calm _ _ _ ?Q =>
      eapply (calm_weaken _ _ _ _ _ Q Q);
      [calm_go | side | side | auto]
  end.

Lemma calm_entry v : calm 0 0 (write_all v) (fun _ => True).
Proof. calm_top. Qed.

Lemma calm_fade_in' r ms led :
  0 <= ms -> 0 <= led <= 255 ->
  calm 0 (255 * (K + K * ms)) (fade_in hw fuel r ms led) (eq 255).
Proof.
  intros Hms Hl. pose proof HK.
  eapply calm_weaken;
    [apply (calm_fade_in hw K Ht Hq fuel r ms (Z.to_nat (255 - led)) led); lia
    |lia|nia|auto].
Qed.

Lemma calm_fade_out_full r ms :
  0 <= ms ->
  calm 255 (255 * (K + K * ms)) (fade_out hw fuel r ms 255) (eq 0).
Proof.
  intros Hms.
  apply (calm_fade_out hw K Ht Hq fuel r ms 255%nat 255); lia.
Qed.

Lemma calm_seq1_body s :
  leds_ok s -> calm 1 (4080 * K) (seq1_body hw fuel s) leds_ok.
Proof.
  destruct s as [[[l1 l2] l3] l4]. intros (H1 & H2 & H3 & H4).
  unfold seq1_body. pose proof HK.
  eapply calm_weaken; [|shelve|shelve|intros a Ha; exact Ha].
  eapply calm_bind; [apply calm_fade_in'; lia| |].
  2: shelve.
  intros ? <-. eapply calm_bind; [apply calm_fade_in'; lia| |].
  2: shelve.
  intros ? <-. eapply calm_bind; [apply calm_fade_in'; lia| |].
  2: shelve.
  intros ? <-. eapply calm_bind; [apply calm_fade_in'; lia| |].
  2: shelve.
  intros ? <-. eapply calm_bind; [apply calm_fade_out_full; lia| |].
  2: shelve.
  intros ? <-. eapply calm_bind; [apply calm_fade_out_full; lia| |].
  2: shelve.
  intros ? <-. eapply calm_bind; [apply calm_fade_out_full; lia| |].
  2: shelve.
  intros ? <-. eapply calm_bind; [apply calm_fade_out_full; lia| |].
  2: shelve.
  intros ? <-. apply calm_ret. unfold leds_ok. lia.
  Unshelve. all: lia.
Qed.

Lemma calm_seq2_body s :
  leds_ok s -> calm 1 (4335 * K) (seq2_body hw fuel s) leds_ok.
Proof.
  destruct s as [[[l1 l2] l3] l4]. intros (H1 & H2 & H3 & H4).
  unfold seq2_body. pose proof HK.
  eapply calm_weaken; [|shelve|shelve|intros a Ha; exact Ha].
  eapply calm_bind; [apply calm_fade_in'; lia| |].
  2: shelve.
  intros ? <-. eapply calm_bind; [apply calm_fade_in'; lia| |].
  2: shelve.
  intros ? <-. eapply calm_bind; [apply calm_fade_in'; lia| |].
  2: shelve.
  intros ? <-. eapply calm_bind; [apply calm_fade_in'; lia| |].
  2: shelve.
  intros ? <-. unfold for_gt.
  eapply (calm_rounds_Z _ _ leds_ok); [vm_compute; reflexivity| | |unfold leds_ok; lia].
  2: shelve.
  intros i [[[a b] c] d] _. calm_go.
  Unshelve.
  all: try lia.
Qed.

Lemma calm_seq4_body s :
  calm 1 (1023 * K + 500) (seq4_body hw fuel s) (fun _ => True).
Proof. unfold seq4_body. calm_top. Qed.

Lemma calm_seq5_body s :
  calm 1 (257 * K + 150) (seq5_body hw fuel s) (fun _ => True).
Proof. unfold seq5_body. calm_top. Qed.

Lemma calm_seq6_body s :
  calm 1 (505 * K + 500) (seq6_body hw fuel s) (fun _ => True).
Proof. unfold seq6_body. calm_top. Qed.

Lemma calm_seq7_body s :
  calm 1 (1010 * K + 1000) (seq7_body hw fuel s) (fun _ => True).
Proof. unfold seq7_body. calm_top. Qed.

Lemma calm_seq8_prelude :
  calm 0 (180 * K) (seq8_prelude hw) (fun _ => True).
Proof. calm_top. Qed.

Lemma calm_seq8_body s :
  calm 1 (10380 * K) (seq8_body hw fuel s) (fun _ => True).
Proof. unfold seq8_body. calm_top. Qed.

Lemma calm_seq9_body s :
  calm 1 (8416 * K) (seq9_body hw fuel s) (fun _ => True).
Proof. unfold seq9_body. calm_top. Qed.

Lemma calm_random_body update odds dir s :
  calm 1 K (random_body hw update odds dir s) (fun _ => True).
Proof. unfold random_body. calm_top. Qed.

Lemma calm_seq12_body s :
  calm 1 (2 * K) (seq12_body hw s) (fun _ => True).
Proof. unfold seq12_body. calm_top. Qed.

Lemma calm_seq3_body s :
  calm 1 (535 * K + 10500) (seq3_body hw fuel s) (fun _ => True).
Proof. unfold seq3_body. calm_top. Qed.

End CalmSequences.

Lemma quiet_bench : quiet bench.
Proof. intros t. cbn. lia. Qed.

Section Timeout.

Context (hw : Hardware) (K : Z) (fuel : nat).
Hypothesis Ht : timing hw K.
Hypothesis Hq : quiet hw.
Hypothesis Hfuel : (3000 <= fuel)%nat.

Lemma calm_no_prelude : calm 0 0 (ret tt) (fun _ => True).
Proof. apply (calm_ret tt (fun _ => True) I). Qed.

Lemma calm_entry12 : calm 0 0 (write_all 0 ;; init_mic_buffer) (fun _ => True).
Proof.
  eapply calm_weaken;
    [eapply calm_bind; [apply (calm_entry hw K fuel Ht Hfuel)| intros _ _; apply (calm_init_mic hw) | lia]
    |lia|lia|auto].
Qed.

Lemma frame_times_out (f : frame) (I : f_state f -> Prop)
    (hiP hiB timeout : Z) (w : World) :
  calm 0 0 (f_entry f) (fun _ => True) ->
  calm 0 hiP (f_prelude f) (fun _ => True) ->
  (forall s, I s -> calm 1 hiB (f_body f s) I) ->
  (forall st, I (f_locals f st)) ->
  0 <= hiP -> 0 <= hiB ->
  0 <= timeout -> wf w ->
  now w + 5 * timeout + hiP + hiB < WRAP ->
  5 * timeout + 5 < Z.of_nat fuel ->
  times_out fuel f hiP hiB timeout w.
Proof.
  intros He Hp Hb Hl HP HB Hto Hw Hn Hf.
  exact (sequence_passes I (f_entry f) (f_prelude f) (f_locals f) (f_body f)
           hiP 1 hiB He Hp Hb Hl ltac:(lia) HP HB timeout fuel w Hto Hw Hn Hf).
Qed.

(** Each sequence, run without button activity on a non-negative timeout,
    returns 0 at the first pass boundary at which the deadline has been
    reached. *)
Lemma frames_times_out (i : nat) (f : frame) timeout w :
  frames hw fuel !! i = Some f ->
  0 <= timeout -> wf w ->
  now w + 5 * timeout + LEAD_MAX i K + PASS_MAX i K < WRAP ->
  5 * timeout + 5 < Z.of_nat fuel ->
  times_out fuel f (LEAD_MAX i K) (PASS_MAX i K) timeout w.
Proof.
  intros Hi Hto Hw Hn Hf.
  pose proof (K_pos hw K Ht) as HK.
  pose proof (calm_entry hw K fuel Ht Hfuel 0) as E0.
  pose proof (calm_entry hw K fuel Ht Hfuel 255) as E255.
  pose proof calm_no_prelude as P0.
  pose proof (calm_seq8_prelude hw K fuel Ht Hq Hfuel) as P8.
  pose proof calm_entry12 as E12.
  destruct i as [|[|[|[|[|[|[|[|[|[|[|[|i]]]]]]]]]]]];
    cbn in Hi; [ | | | | | | | | | | | | discriminate Hi ];
    injection Hi as <-;
    unfold LEAD_MAX, PASS_MAX in *; cbn [Nat.eqb nth] in *.
  - match goal with |- times_out _ ?f _ _ _ _ => apply (frame_times_out f leds_ok) end; cbn [f_state f_entry f_locals f_prelude f_body];
      try assumption; try lia.
    + apply (calm_seq1_body hw K fuel Ht Hq Hfuel).
    + intros; unfold leds_ok; lia.
  - match goal with |- times_out _ ?f _ _ _ _ => apply (frame_times_out f leds_ok) end; cbn [f_state f_entry f_locals f_prelude f_body];
      try assumption; try lia.
    + apply (calm_seq2_body hw K fuel Ht Hq Hfuel).
    + intros; unfold leds_ok; lia.
  - match goal with |- times_out _ ?f _ _ _ _ => apply (frame_times_out f (fun _ => True)) end; cbn [f_state f_entry f_locals f_prelude f_body];
      try assumption; try lia; try (intros; exact I).
    intros; apply (calm_seq3_body hw K fuel Ht Hq Hfuel).
  - match goal with |- times_out _ ?f _ _ _ _ => apply (frame_times_out f (fun _ => True)) end; cbn [f_state f_entry f_locals f_prelude f_body];
      try assumption; try lia; try (intros; exact I).
    intros; apply (calm_seq4_body hw K fuel Ht Hq Hfuel).
  - match goal with |- times_out _ ?f _ _ _ _ => apply (frame_times_out f (fun _ => True)) end; cbn [f_state f_entry f_locals f_prelude f_body];
      try assumption; try lia; try (intros; exact I).
    intros; apply (calm_seq5_body hw K fuel Ht Hq Hfuel).
  - match goal with |- times_out _ ?f _ _ _ _ => apply (frame_times_out f (fun _ => True)) end; cbn [f_state f_entry f_locals f_prelude f_body];
      try assumption; try lia; try (intros; exact I).
    intros; apply (calm_seq6_body hw K fuel Ht Hq Hfuel).
  - match goal with |- times_out _ ?f _ _ _ _ => apply (frame_times_out f (fun _ => True)) end; cbn [f_state f_entry f_locals f_prelude f_body];
      try assumption; try lia; try (intros; exact I).
    intros; apply (calm_seq7_body hw K fuel Ht Hq Hfuel).
  - match goal with |- times_out _ ?f _ _ _ _ => apply (frame_times_out f (fun _ => True)) end; cbn [f_state f_entry f_locals f_prelude f_body];
      try assumption; try lia; try (intros; exact I).
    intros; apply (calm_seq8_body hw K fuel Ht Hq Hfuel).
  - match goal with |- times_out _ ?f _ _ _ _ => apply (frame_times_out f (fun _ => True)) end; cbn [f_state f_entry f_locals f_prelude f_body];
      try assumption; try lia; try (intros; exact I).
    intros; apply (calm_seq9_body hw K fuel Ht Hq Hfuel).
  - match goal with |- times_out _ ?f _ _ _ _ => apply (frame_times_out f (fun _ => True)) end; cbn [f_state f_entry f_locals f_prelude f_body];
      try assumption; try lia; try (intros; exact I).
    intros; apply (calm_random_body hw K fuel Ht Hq Hfuel).
  - match goal with |- times_out _ ?f _ _ _ _ => apply (frame_times_out f (fun _ => True)) end; cbn [f_state f_entry f_locals f_prelude f_body];
      try assumption; try lia; try (intros; exact I).
    intros; apply (calm_random_body hw K fuel Ht Hq Hfuel).
  - match goal with |- times_out _ ?f _ _ _ _ => apply (frame_times_out f (fun _ => True)) end; cbn [f_state f_entry f_locals f_prelude f_body];
      try assumption; try lia; try (intros; exact I).
    intros; apply (calm_seq12_body hw K fuel Ht Hq Hfuel).
Qed.

End Timeout.

(** The sequence functions are their frames put together. *)
Lemma frames_led_sequences hw fuel timeout :
  map (run_frame fuel timeout) (frames hw fuel)
  = map (fun s => s fuel timeout) (led_sequences hw).
Proof. reflexivity. Qed.

Lemma frames_lookup hw fuel timeout (i : nat) (s : nat -> Z -> M Z) :
  led_sequences hw !! i = Some s ->
  exists f, frames hw fuel !! i = Some f /\
            s fuel timeout = run_frame fuel timeout f.
Proof.
  intros Hs.
  destruct i as [|[|[|[|[|[|[|[|[|[|[|[|i]]]]]]]]]]]];
    cbn in Hs; [ | | | | | | | | | | | | discriminate Hs ];
    injection Hs as <-; (eexists; split; [reflexivity|reflexivity]).
Qed.

(** C1 as stated fails: on the bench [seq1] started with a timeout of
    10 ms and no button activity returns 0 only when its first pass is
    over, 10200 timer periods (2040 ms) after the start, while the clock
    passed the deadline at period 55 and one animation step is at most
    2644 periods long. *)
Lemma sequence_times_out_counterexample :
  ~ (forall (hw : Hardware) (K : Z) (s : nat -> Z -> M Z) (timeout : Z)
            (fuel : nat) (w w' : World),
       timing hw K -> quiet hw -> In s (led_sequences hw) ->
       0 <= timeout -> wf w ->
       s fuel timeout w = Done 0 w' ->
       now w' <= 5 * (millis w + timeout + 1) + STEP_MAX K).
Proof.
  intros H.
  assert (E : seq1 bench 3100 10 power_on
              = Done 0 (world_of (seq1 bench 3100 10 power_on)))
    by (vm_compute; reflexivity).
  specialize (H bench 4 (seq1 bench) 10 3100%nat power_on _
                timing_bench quiet_bench
                ltac:(unfold led_sequences; cbn [In]; tauto)
                ltac:(lia) power_on_wf E).
  vm_compute in H. apply H. reflexivity.
Qed.

(** C1 (amended) — Take the sequence at position [i] of the twelve,
    started with a non-negative timeout, with no button sample low during
    its run, in an environment in which a conversion takes at most [K]
    timer periods and a busy wait of [n] ms at most [K * n], with fuel
    for its loops and the millisecond counter not reaching its wrap
    before the run is over.  The sequence is its entry code, lead-in and
    outer loop as listed in [frames]; it terminates and returns 0.  The
    deadline, start time plus timeout, is tested only between passes of
    the outer loop, and the sequence returns at the first test that finds
    the deadline reached: after its lead-in (at most [LEAD_MAX i K]
    periods) it runs a whole number [n] of passes of its own loop body;
    at every pass boundary before the last the millisecond counter was
    still below the deadline, at the last it has reached it; and if a
    pass was run at all, the return comes less than one pass, at most
    [PASS_MAX i K] periods, after the deadline. *)
Theorem sequence_times_out (hw : Hardware) (K : Z) (i : nat)
    (s : nat -> Z -> M Z) (timeout : Z) (fuel : nat) (w : World) :
  timing hw K ->
  quiet hw ->
  led_sequences hw !! i = Some s ->
  0 <= timeout ->
  wf w ->
  now w + 5 * timeout + LEAD_MAX i K + PASS_MAX i K < WRAP ->
  5 * timeout + 3000 <= Z.of_nat fuel ->
  exists (f : frame) (n : nat) (st0 : f_state f) (w0 : World)
         (st' : f_state f) (w' : World),
    frames hw fuel !! i = Some f /\
    s fuel timeout = run_frame fuel timeout f /\
    s fuel timeout w = Done 0 w' /\
    wf w' /\
    millis w + timeout <= millis w' /\
    lead_in f w = Done st0 w0 /\
    now w0 <= now w + LEAD_MAX i K /\
    run_passes n (f_body f) st0 w0 = Done st' w' /\
    (forall k stk wk, (k < n)%nat ->
       run_passes k (f_body f) st0 w0 = Done stk wk ->
       millis wk < millis w + timeout) /\
    ((0 < n)%nat -> now w' < 5 * (millis w + timeout) + PASS_MAX i K).
Proof.
  intros Ht Hq Hs Hto Hw Hn Hf.
  destruct (frames_lookup hw fuel timeout i s Hs) as (f & Hfr & Es).
  destruct (frames_times_out hw K fuel Ht Hq ltac:(lia) i f timeout w
              Hfr Hto Hw Hn ltac:(lia))
    as (n & st0 & w0 & st' & w' & L & NL & P & B & M & NB & R & Hw').
  exists f, n, st0, w0, st', w'.
  split; [exact Hfr|]. split; [exact Es|].
  split; [rewrite Es; exact R|]. split; [exact Hw'|]. split; [exact M|].
  split; [exact L|]. split; [exact NL|]. split; [exact P|].
  split; [exact B|exact NB].
Qed.

Lemma sequence_times_out_witness :
  timing bench 4 /\ quiet bench /\ led_sequences bench !! 4%nat = Some (seq5 bench) /\
  0 <= 10 /\ wf power_on /\
  now power_on + 5 * 10 + LEAD_MAX 4 4 + PASS_MAX 4 4 < WRAP /\
  5 * 10 + 3000 <= Z.of_nat 3100 /\
  exists (f : frame) (n : nat) (st0 : f_state f) (w0 : World)
         (st' : f_state f) (w' : World),
    frames bench 3100 !! 4%nat = Some f /\
    seq5 bench 3100 10 = run_frame 3100 10 f /\
    seq5 bench 3100 10 power_on = Done 0 w' /\
    wf w' /\
    millis power_on + 10 <= millis w' /\
    lead_in f power_on = Done st0 w0 /\
    now w0 <= now power_on + LEAD_MAX 4 4 /\
    run_passes n (f_body f) st0 w0 = Done st' w' /\
    (forall k stk wk, (k < n)%nat ->
       run_passes k (f_body f) st0 w0 = Done stk wk ->
       millis wk < millis power_on + 10) /\
    ((0 < n)%nat -> now w' < 5 * (millis power_on + 10) + PASS_MAX 4 4).
Proof.
  assert (H3 : led_sequences bench !! 4%nat = Some (seq5 bench)) by reflexivity.
  assert (H4 : 0 <= 10) by lia.
  assert (H6 : now power_on + 5 * 10 + LEAD_MAX 4 4 + PASS_MAX 4 4 < WRAP)
    by reflexivity.
  assert (H7 : 5 * 10 + 3000 <= Z.of_nat 3100) by (vm_compute; discriminate).
  split; [exact timing_bench|]. split; [exact quiet_bench|].
  split; [exact H3|]. split; [exact H4|]. split; [exact power_on_wf|].
  split; [exact H6|]. split; [exact H7|].
  exact (sequence_times_out bench 4 4 (seq5 bench) 10 3100%nat power_on
           timing_bench quiet_bench H3 H4 power_on_wf H6 H7).
Defined.

(** ** Sequences without a timeout *)

Lemma endless_bind_l {A B} (c : M A) (f : A -> M B) :
  endless c -> endless (bind c f).
Proof.
  intros Hc w. specialize (Hc w). unfold bind.
  destruct (c w); [contradiction|exact I|exact I|exact I].
Qed.

Lemma endless_bind_r {A B} (c : M A) (f : A -> M B) :
  (forall a, endless (f a)) -> endless (bind c f).
Proof.
  intros Hf w. unfold bind. destruct (c w) as [a w'| | |]; try exact I.
  apply Hf.
Qed.

(** A loop whose guard is always true never completes. *)
Lemma endless_while {S} (fuel : nat) (cond : S -> World -> bool)
    (body : S -> M S) :
  (forall s w, cond s w = true) -> forall s, endless (while_ fuel cond body s).
Proof.
  intros Hc. induction fuel as [|fuel IH]; intros s w; cbn [while_]; [exact I|].
  rewrite Hc. apply (endless_bind_r (body s) (while_ fuel cond body) IH w).
Qed.

Lemma running_unbounded (timeout start : Z) (w : World) :
  timeout < 0 -> running timeout start w = true.
Proof.
  intros H. unfold running. apply Z.ltb_lt in H. rewrite H. reflexivity.
Qed.

(** ** The clock of a run, recomputed from its events *)

Lemma clock_app hw t0 (a b : list event) :
  clock hw t0 (a ++ b) = clock hw (clock hw t0 b) a.
Proof. unfold clock. apply fold_right_app. Qed.

Lemma clock_le hw t0 (new : list event) : t0 <= clock hw t0 new.
Proof.
  induction new as [|e new IH]; [apply Z.le_refl|].
  change (clock hw t0 (e :: new)) with (advance hw e (clock hw t0 new)).
  destruct e; cbn [advance]; lia.
Qed.

Lemma faithful_tail hw t0 (a b : list event) :
  faithful hw t0 (a ++ b) -> faithful hw t0 b.
Proof.
  induction a as [|e a IH]; [auto|]. cbn [app faithful]. intros [H _]. auto.
Qed.

Lemma step0_timed hw t0 tr0 A (c : M A) :
  step0 hw A c -> keeps (timed hw t0 tr0) c.
Proof.
  intros H w (Hw & new & T & N & F).
  split; [apply (step0_wf hw A c H w Hw)|].
  destruct H; cbn [world_of].
  - exists new. repeat split; assumption.
  - exists (EvPwm r (u8 v) :: new). unfold write, effect. cbn [world_of].
    split; [destruct r; cbn; rewrite T; reflexivity|].
    split; [destruct r; exact N|]. cbn [faithful]. split; [exact F|exact I].
  - destruct (delay_ms_eq hw n w) as (w' & -> & N' & T' & _). cbn [world_of].
    exists (EvDelay n :: new). split; [rewrite T', T; reflexivity|].
    split; [|cbn [faithful]; split; [exact F|exact I]].
    change (clock hw t0 (EvDelay n :: new))
      with (clock hw t0 new + Z.of_nat (ms_ovf hw (clock hw t0 new) n)).
    rewrite N', N. reflexivity.
  - destruct (adc_read_eq hw ch w (proj2 Hw) H) as (w' & -> & N' & T' & _).
    cbn [world_of].
    exists (EvAdc ch (analog hw ch (now w)) :: new).
    split; [rewrite T', T; reflexivity|].
    split; [|cbn [faithful]; split; [exact F|rewrite N; reflexivity]].
    change (clock hw t0 (EvAdc ch (analog hw ch (now w)) :: new))
      with (clock hw t0 new + Z.of_nat (adc_ovf hw (clock hw t0 new))).
    rewrite N', N. reflexivity.
  - exists new. repeat split; assumption.
  - exists new. repeat split; assumption.
  - exists new. repeat split; assumption.
  - exists (EvEeprom (settings_start_seq w) :: new).
    split; [cbn; rewrite T; reflexivity|].
    split; [exact N|]. cbn [faithful]. split; [exact F|exact I].
  - exists (EvWdt t :: new). split; [cbn; rewrite T; reflexivity|].
    split; [exact N|]. cbn [faithful]. split; [exact F|exact I].
  - unfold spin_forever. destruct (wdt w); cbn [world_of];
      exists new; repeat split; assumption.
  - exists new. repeat split; assumption.
Qed.

(** The events of any code built from the machine steps account for the
    time it takes, and every logged sample is the level of its channel at
    the instant it was taken. *)
Lemma built_timed hw A (c : M A) w :
  built (step0 hw) A c -> wf w ->
  exists new,
    trace (world_of (c w)) = new ++ trace w /\
    now (world_of (c w)) = clock hw (now w) new /\
    faithful hw (now w) new.
Proof.
  intros Hc Hw.
  assert (H0 : timed hw (now w) (trace w) w).
  { split; [exact Hw|]. exists []. repeat split. }
  exact (proj2 (keeps_built (step0 hw) (timed hw (now w) (trace w))
                  (step0_timed hw (now w) (trace w)) A c Hc w H0)).
Qed.

Section Tidy.

Context (hw : Hardware) (K : Z) (fuel : nat).

Lemma tidy_ret A (a : A) : tidy hw K fuel (ret a).
Proof.
  intros w Hw. split; [exact Hw|]. exists []. repeat split.
Qed.

Lemma tidy_bind A B (c : M A) (f : A -> M B) :
  tidy hw K fuel c -> (forall a, tidy hw K fuel (f a)) -> tidy hw K fuel (bind c f).
Proof.
  intros Hc Hf w Hw. destruct (Hc w Hw) as (Hw1 & new1 & T1 & N1 & H1).
  unfold bind. destruct (c w) as [a w1|v w1|w1|w1]; cbn [world_of] in *.
  - destruct (Hf a w1 Hw1) as (Hw2 & new2 & T2 & N2 & H2).
    split; [exact Hw2|]. exists (new2 ++ new1).
    split; [rewrite T2, T1, app_assoc; reflexivity|].
    split; [rewrite clock_app, <- N1; exact N2|].
    destruct (f a w1) as [b w2|v w2|w2|w2]; unfold pressed_in in *.
    + rewrite existsb_app, H2, H1. reflexivity.
    + destruct H2 as (Hv & post & s & pre & -> & Hs & Hpre & Hpost & Hb).
      split; [exact Hv|]. exists post, s, (pre ++ new1).
      split; [rewrite <- app_assoc; reflexivity|]. split; [exact Hs|].
      split; [rewrite existsb_app, Hpre, H1; reflexivity|].
      split; [exact Hpost|].
      rewrite clock_app, <- N1. exact Hb.
    + rewrite existsb_app, H2. reflexivity.
    + intros Ht Hf' Hn. rewrite existsb_app, (H2 Ht Hf' Hn), H1. reflexivity.
  - split; [exact Hw1|]. exists new1. split; [exact T1|]. split; [exact N1|exact H1].
  - split; [exact Hw1|]. exists new1. split; [exact T1|]. split; [exact N1|exact H1].
  - split; [exact Hw1|]. exists new1. split; [exact T1|]. split; [exact N1|exact H1].
Qed.

Lemma tidy_while S n cond (body : S -> M S) s :
  (forall s, tidy hw K fuel (body s)) -> tidy hw K fuel (while_ n cond body s).
Proof.
  intros Hb. revert s. induction n as [|n IH]; intros s w Hw.
  - cbn. split; [exact Hw|]. exists []. repeat split.
  - cbn [while_]. destruct (cond s w).
    + apply (tidy_bind _ _ (body s) (while_ n cond body) (Hb s) IH w Hw).
    + cbn. split; [exact Hw|]. exists []. repeat split.
Qed.

Lemma tidy_rounds S n i d (body : Z -> S -> M S) s :
  (forall i s, tidy hw K fuel (body i s)) -> tidy hw K fuel (rounds n i d body s).
Proof.
  intros Hb. revert i s. induction n as [|n IH]; intros i s; cbn [rounds].
  - apply tidy_ret.
  - apply tidy_bind; [apply Hb|intros; apply IH].
Qed.

(** A step that completes without a low button sample. *)
Lemma tidy_plain A (c : M A) :
  (forall w, wf w -> exists a w' new,
      c w = Done a w' /\ wf w' /\ trace w' = new ++ trace w /\
      now w' = clock hw (now w) new /\
      pressed_in new = false) ->
  tidy hw K fuel c.
Proof.
  intros H w Hw. destruct (H w Hw) as (a & w' & new & -> & Hw' & T & N & P).
  split; [exact Hw'|]. exists new. split; [exact T|]. split; [exact N|exact P].
Qed.

Lemma tidy_read A (f : World -> A) : tidy hw K fuel (read f).
Proof.
  apply tidy_plain. intros w Hw. exists (f w), w, []. repeat split; apply Hw.
Qed.

Lemma tidy_write r v : tidy hw K fuel (write r v).
Proof.
  apply tidy_plain. intros w Hw.
  pose proof (step0_wf hw _ _ (step0_write hw r v) w Hw) as Hw'.
  revert Hw'. unfold write, effect.
  intros Hw'. eexists; eexists; exists [EvPwm r (u8 v)].
  split; [reflexivity|]. split; [exact Hw'|].
  split; [destruct r; reflexivity|].
  split; [destruct r; reflexivity|reflexivity].
Qed.

Lemma tidy_delay n : tidy hw K fuel (_delay_ms hw n).
Proof.
  apply tidy_plain. intros w Hw.
  pose proof (step0_wf hw _ _ (step0_delay hw n) w Hw) as Hw'.
  destruct (delay_ms_eq hw n w) as (w' & E & N & T & _).
  rewrite E in Hw'. exists tt, w', [EvDelay n].
  split; [exact E|]. split; [exact Hw'|]. split; [exact T|].
  split; [exact N|reflexivity].
Qed.

Lemma tidy_mic : tidy hw K fuel (adc_read hw 1).
Proof.
  apply tidy_plain. intros w Hw.
  pose proof (step0_wf hw _ _ (step0_adc hw 1 ltac:(lia)) w Hw) as Hw'.
  destruct (adc_read_eq hw 1 w (proj2 Hw) ltac:(lia)) as (w' & E & N & T & _).
  rewrite E in Hw'. eexists; exists w'; exists [EvAdc 1 (analog hw 1 (now w))].
  split; [exact E|]. split; [exact Hw'|]. split; [exact T|].
  split; [exact N|reflexivity].
Qed.

Lemma tidy_rand : tidy hw K fuel (rand hw).
Proof.
  apply tidy_plain. intros w Hw.
  pose proof (step0_wf hw _ _ (step0_rand hw) w Hw) as Hw'.
  eexists; eexists; exists []. split; [reflexivity|].
  split; [exact Hw'|]. repeat split.
Qed.

Lemma tidy_push v : tidy hw K fuel (push_sample v).
Proof.
  apply tidy_plain. intros w Hw.
  pose proof (step0_wf hw _ _ (step0_push hw v) w Hw) as Hw'.
  eexists; eexists; exists []. split; [reflexivity|].
  split; [exact Hw'|]. repeat split.
Qed.

Lemma tidy_init_mic : tidy hw K fuel init_mic_buffer.
Proof.
  apply tidy_plain. intros w Hw.
  pose proof (step0_wf hw _ _ (step0_init_mic hw) w Hw) as Hw'.
  eexists; eexists; exists []. split; [reflexivity|].
  split; [exact Hw'|]. repeat split.
Qed.

(** The events of a run that detected a press, split at the first low
    sample. *)
Lemma first_low_sample (new : list event) :
  pressed_in new = true -> existsb is_pwm new = false ->
  exists post s pre,
    new = post ++ EvAdc 0 s :: pre /\ s < 1000 /\
    pressed_in pre = false /\ existsb is_pwm post = false.
Proof. intros Hp Hw. exact (prompt_return_intro new Hp Hw). Qed.

Lemma check_step w :
  timing hw K -> wf w ->
  match check_button_input hw w with
  | Done b w' => wf w' /\ now w + 1 <= now w' <= now w + CHECK_MAX K /\ True
  | Restart _ => True
  | _ => False
  end.
Proof.
  intros Ht Hw. pose proof (check_time hw K w Ht Hw) as H.
  destruct (check_button_input hw w); try exact H.
  destruct H as [H1 H2]. split; [exact H1|]. split; [exact H2|exact I].
Qed.

Lemma tidy_poll : tidy hw K fuel (poll hw).
Proof.
  intros w Hw.
  pose proof (keeps_built (step0 hw) wf (step0_wf hw) _ _ (poll_built hw) w Hw)
    as Hw'.
  destruct (built_timed hw _ _ w (poll_built hw) Hw) as (new & T' & N' & _).
  split; [exact Hw'|]. clear Hw'. exists new. split; [exact T'|].
  split; [exact N'|].
  destruct (check_report hw w (proj2 Hw)) as (ev & T & _ & H).
  pose proof (fun Ht => check_time hw K w Ht Hw) as Htime.
  revert T' N'. unfold poll, bind.
  destruct (check_button_input hw w) as [b w1|v w1|w1|w1]; cbn [world_of] in *;
    try contradiction.
  - destruct H as (Pw & _ & _ & [[-> P]|[-> P]]); cbn; intros T' N'.
    + assert (new = ev) as ->
        by (apply (app_inv_tail (trace w)); rewrite <- T, <- T'; reflexivity).
      exact P.
    + assert (new = ev) as ->
        by (apply (app_inv_tail (trace w)); rewrite <- T, <- T'; reflexivity).
      split; [reflexivity|].
      destruct (first_low_sample ev P Pw) as (post & s & pre & E & Hs & Hpre & Hpost).
      exists post, s, pre. split; [exact E|]. split; [exact Hs|].
      split; [exact Hpre|]. split; [exact Hpost|].
      intros Ht _ _. specialize (Htime Ht). destruct Htime as [_ Hn].
      pose proof (clock_le hw (now w) pre).
      assert (0 <= 5 * 500) by lia. unfold WAIT_MAX. lia.
  - intros T' N'.
    assert (new = ev) as ->
      by (apply (app_inv_tail (trace w)); rewrite <- T, <- T'; reflexivity).
    exact H.
Qed.

(** Time does not run backwards. *)
Lemma step0_later (n0 : Z) A (c : M A) :
  step0 hw A c -> keeps (fun x => n0 <= now x) c.
Proof.
  intros H w Hn. destruct H; cbn; try exact Hn.
  - destruct r; exact Hn.
  - destruct (elapse_shape (ms_ovf hw (now w) n) w) as (t & m & ->). cbn. lia.
  - destruct (elapse_shape (adc_ovf hw (now w))
                (set_ADMUX (Z.lor (Z.land (ADMUX w) 248) ch) w)) as (t & m & E).
    cbn in E. rewrite E. cbn. lia.
  - unfold spin_forever. destruct (wdt w); exact Hn.
Qed.

(** With bounded timing a timed wait of at most 500 ms that does not
    restart the device is over [WAIT_MAX K] periods after it began. *)
Lemma wait_loop_bounded d w :
  0 <= d <= 500 -> wf w ->
  timing hw K -> (3000 <= fuel)%nat ->
  now w <= now (world_of (wait_poll hw fuel d w)) ->
  now (world_of (wait_poll hw fuel d w)) + WAIT_MAX K < WRAP ->
  match while_ fuel (fun _ w' => millis w' <? u64 (millis w + d))
               (wait_body hw) 0 w with
  | Done _ w' => now w' <= now w + WAIT_MAX K
  | Restart _ => True
  | _ => False
  end.
Proof.
  intros Hd Hw Ht Hf Hn Hwrap.
  assert (HK : 3303 <= CHECK_MAX K).
  { destruct Ht as [Ha _]. specialize (Ha 0). unfold CHECK_MAX. lia. }
  assert (N0 : 0 <= now w) by apply Hw.
  unfold WAIT_MAX in *.
  rewrite (millis_now w Hw) by lia.
  pose proof (Z.div_mod (now w) 5 ltac:(lia)) as DM.
  pose proof (Z.mod_pos_bound (now w) 5 ltac:(lia)) as MB.
  set (D := now w / 5 + d) in *.
  assert (HD : u64 D = D).
  { unfold u64. apply Z.mod_small. unfold WRAP in Hwrap. subst D. lia. }
  rewrite HD.
  pose proof (wait_loop_progress hw (CHECK_MAX K) D (fun _ => True) True
                (fun w0 Hw0 => check_step w0 Ht Hw0)
                ltac:(subst D; lia) ltac:(subst D; lia)
                (Z.to_nat (5 * d)) fuel 0 w Hw ltac:(lia)
                ltac:(subst D; lia) ltac:(lia)) as P.
  destruct (while_ fuel _ (wait_body hw) 0 w) as [r w'|v w'|w'|w'];
    try exact P.
  destruct P as (_ & _ & P & _). subst D. lia.
Qed.

Lemma tidy_wait d : 0 <= d <= 500 -> tidy hw K fuel (wait_poll hw fuel d).
Proof.
  intros Hd w Hw.
  pose proof (keeps_built (step0 hw) wf (step0_wf hw) _ _
                (wait_poll_built hw fuel d) w Hw) as Hw'.
  pose proof (keeps_built (step0 hw) (fun x => now w <= now x)
                (step0_later (now w)) _ _
                (wait_poll_built hw fuel d) w (Z.le_refl _)) as Hn.
  destruct (built_timed hw _ _ w (wait_poll_built hw fuel d) Hw)
    as (new' & T' & N' & _).
  pose proof (fun Ht Hf Hwrap => wait_loop_bounded d w Hd Hw Ht Hf Hn Hwrap) as B.
  split; [exact Hw'|]. clear Hw'. exists new'. split; [exact T'|].
  split; [exact N'|].
  revert Hn T' N' B. unfold wait_poll, bind. rewrite delay_millis_check_button_eq.
  destruct (wait_loop_report hw (u64 (millis w + d)) fuel 0 w (proj2 Hw)
              (or_introl eq_refl)) as (new & T & _ & H).
  destruct (while_ fuel _ (wait_body hw) 0 w) as [r w'|v w'|w'|w'] eqn:E;
    cbn [world_of] in *; try contradiction.
  - destruct H as (_ & Hr & Hiff & Pw & _).
    destruct Hr as [-> | ->]; cbn; intros _ T' N' B;
      (assert (new' = new) as ->
        by (apply (app_inv_tail (trace w)); rewrite <- T, <- T'; reflexivity)).
    + destruct (pressed_in new); [|reflexivity].
      assert (F : 0 = 1) by (apply Hiff; right; reflexivity). discriminate F.
    + split; [reflexivity|].
      assert (P : pressed_in new = true).
      { destruct (proj1 Hiff eq_refl) as [F|F]; [discriminate F|exact F]. }
      destruct (first_low_sample new P Pw) as (post & s & pre & E' & Hs & Hpre & Hpost).
      exists post, s, pre. split; [exact E'|]. split; [exact Hs|].
      split; [exact Hpre|]. split; [exact Hpost|].
      intros Ht Hf Hwrap. specialize (B Ht Hf Hwrap).
      pose proof (clock_le hw (now w) pre). lia.
  - intros _ T' N' B.
    assert (new' = new) as ->
      by (apply (app_inv_tail (trace w)); rewrite <- T, <- T'; reflexivity).
    exact H.
  - intros _ T' N' B.
    assert (new' = new) as ->
      by (apply (app_inv_tail (trace w)); rewrite <- T, <- T'; reflexivity).
    intros Ht Hf Hwrap. exfalso. exact (B Ht Hf Hwrap).
Qed.

(** The frame of a sequence around tidy parts, on a negative timeout. *)
Lemma sequence_unbounded {S} (entry prelude : M unit) (locals : Z -> S)
    (body : S -> M S) (timeout : Z) (w : World) :
  timeout < 0 ->
  tidy hw K fuel entry -> tidy hw K fuel prelude ->
  (forall s, tidy hw K fuel (body s)) ->
  wf w ->
  exists new,
    trace (world_of (sequence fuel timeout entry locals prelude body w))
      = new ++ trace w /\
    match sequence fuel timeout entry locals prelude body w with
    | Done r w' =>
        r = 1 /\
        exists post s pre,
          new = post ++ EvAdc 0 s :: pre /\ s < 1000 /\
          pressed_in pre = false /\ existsb is_pwm post = false /\
          (timing hw K -> (3000 <= fuel)%nat -> now w' + WAIT_MAX K < WRAP ->
           now w' <= clock hw (now w) pre + WAIT_MAX K)
    | Restart _ => pressed_in new = true
    | Spin w' =>
        timing hw K -> (3000 <= fuel)%nat -> now w' + WAIT_MAX K < WRAP ->
        pressed_in new = false
    | Returned _ _ => False
    end.
Proof.
  intros Hto He Hp Hb Hw.
  set (c := (entry ;;
             start_time <- read millis ;;
             prelude ;;
             while_ fuel (fun _ => running timeout start_time) body
                    (locals start_time) ;;
             ret 0) : M Z).
  assert (Tc : tidy hw K fuel c).
  { subst c. apply tidy_bind; [exact He|intros _].
    apply tidy_bind; [apply tidy_read|intros start].
    apply tidy_bind; [exact Hp|intros _].
    apply tidy_bind; [apply tidy_while; exact Hb|intros _].
    apply tidy_ret. }
  assert (Ec : endless c).
  { subst c. apply endless_bind_r; intros _.
    apply endless_bind_r; intros start.
    apply endless_bind_r; intros _.
    apply endless_bind_l. apply endless_while.
    intros s0 w0. apply running_unbounded, Hto. }
  change (sequence fuel timeout entry locals prelude body) with (fn c).
  destruct (Tc w Hw) as (_ & new & T & _ & H). specialize (Ec w).
  unfold fn. exists new.
  destruct (c w) as [r w'|v w'|w'|w']; cbn [world_of] in *;
    [contradiction| | |]; (split; [exact T|exact H]).
Qed.

End Tidy.

Lemma timing_held : timing held 4.
Proof.
  split.
  - intros t. cbn. lia.
  - intros t n Hn. cbn. lia.
Qed.

Section TidySequences.

Context (hw : Hardware) (K : Z) (fuel : nat).

Ltac tidy_go :=
  repeat match goal with
    | |- tidy _ _ _ (ret _) => apply tidy_ret
    | |- tidy _ _ _ (bind _ _) => apply tidy_bind; [|intros]
    | |- tidy _ _ _ (while_ _ _ _ _) => apply tidy_while; intros
    | |- tidy _ _ _ (rounds _ _ _ _ _) => apply tidy_rounds; intros
    | |- tidy _ _ _ (read _) => apply tidy_read
    | |- tidy _ _ _ (write _ _) => apply tidy_write
    | |- tidy _ _ _ (_delay_ms _ _) => apply tidy_delay
    | |- tidy _ _ _ (rand _) => apply tidy_rand
    | |- tidy _ _ _ (push_sample _) => apply tidy_push
    | |- tidy _ _ _ init_mic_buffer => apply tidy_init_mic
    | |- tidy _ _ _ (adc_read _ 1) => apply tidy_mic
    | |- tidy _ _ _ (poll _) => apply tidy_poll
    | |- tidy _ _ _ (wait_poll _ _ _) => apply tidy_wait; lia
    | |- tidy _ _ _ (match ?x with _ => _ end) => destruct x
    | |- tidy _ _ _ _ =>
        progress unfold bump, write_all, bump_all, fade_in, fade_out, flash,
          hand_off, chase, hold, drift, for_lt, for_le, for_gt, for_ge,
          get_mic_buffer_mad, seq8_prelude
    end.

Lemma tidy_entry v : tidy hw K fuel (write_all v).
Proof. tidy_go. Qed.

Lemma tidy_entry12 : tidy hw K fuel (write_all 0 ;; init_mic_buffer).
Proof. tidy_go. Qed.

Lemma tidy_seq1_body s : tidy hw K fuel (seq1_body hw fuel s).
Proof. unfold seq1_body. tidy_go. Qed.

Lemma tidy_seq2_body s : tidy hw K fuel (seq2_body hw fuel s).
Proof. unfold seq2_body. tidy_go. Qed.

Lemma tidy_seq3_body s : tidy hw K fuel (seq3_body hw fuel s).
Proof. unfold seq3_body. tidy_go. Qed.

Lemma tidy_seq4_body s : tidy hw K fuel (seq4_body hw fuel s).
Proof. unfold seq4_body. tidy_go. Qed.

Lemma tidy_seq5_body s : tidy hw K fuel (seq5_body hw fuel s).
Proof. unfold seq5_body. tidy_go. Qed.

Lemma tidy_seq6_body s : tidy hw K fuel (seq6_body hw fuel s).
Proof. unfold seq6_body. tidy_go. Qed.

Lemma tidy_seq7_body s : tidy hw K fuel (seq7_body hw fuel s).
Proof. unfold seq7_body. tidy_go. Qed.

Lemma tidy_seq8_prelude : tidy hw K fuel (seq8_prelude hw).
Proof. tidy_go. Qed.

Lemma tidy_seq8_body s : tidy hw K fuel (seq8_body hw fuel s).
Proof. unfold seq8_body. tidy_go. Qed.

Lemma tidy_seq9_body s : tidy hw K fuel (seq9_body hw fuel s).
Proof. unfold seq9_body. tidy_go. Qed.

Lemma tidy_random_body update odds dir s :
  tidy hw K fuel (random_body hw update odds dir s).
Proof. unfold random_body. tidy_go. Qed.

Lemma tidy_seq12_body s : tidy hw K fuel (seq12_body hw s).
Proof. unfold seq12_body. tidy_go. Qed.

(** Every sequence on a negative timeout: how the run can end. *)
Lemma led_sequences_unbounded s timeout w :
  In s (led_sequences hw) -> timeout < 0 -> wf w ->
  exists new,
    trace (world_of (s fuel timeout w)) = new ++ trace w /\
    match s fuel timeout w with
    | Done r w' =>
        r = 1 /\
        exists post v pre,
          new = post ++ EvAdc 0 v :: pre /\ v < 1000 /\
          pressed_in pre = false /\ existsb is_pwm post = false /\
          (timing hw K -> (3000 <= fuel)%nat -> now w' + WAIT_MAX K < WRAP ->
           now w' <= clock hw (now w) pre + WAIT_MAX K)
    | Restart _ => pressed_in new = true
    | Spin w' =>
        timing hw K -> (3000 <= fuel)%nat -> now w' + WAIT_MAX K < WRAP ->
        pressed_in new = false
    | Returned _ _ => False
    end.
Proof.
  intros Hin Hto Hw.
  pose proof (tidy_entry 0) as E0. pose proof (tidy_entry 255) as E255.
  pose proof tidy_entry12 as E12. pose proof (tidy_ret hw K fuel _ tt) as P0.
  pose proof tidy_seq8_prelude as P8.
  unfold led_sequences in Hin. cbn [In] in Hin.
  destruct Hin as [<-|[<-|[<-|[<-|[<-|[<-|[<-|[<-|[<-|[<-|[<-|[<-|[]]]]]]]]]]]]];
    apply sequence_unbounded; try assumption; intros.
  - apply tidy_seq1_body.
  - apply tidy_seq2_body.
  - apply tidy_seq3_body.
  - apply tidy_seq4_body.
  - apply tidy_seq5_body.
  - apply tidy_seq6_body.
  - apply tidy_seq7_body.
  - apply tidy_seq8_body.
  - apply tidy_seq9_body.
  - apply tidy_random_body.
  - apply tidy_random_body.
  - apply tidy_seq12_body.
Qed.

(** Without button activity no low sample enters the trace. *)
Lemma step0_hush (t0 : list event) A (c : M A) :
  quiet hw -> step0 hw A c -> keeps (hush t0) c.
Proof.
  intros Hq H w (Hw & new & T & P).
  split; [apply (step0_wf hw A c H w Hw)|].
  destruct H; cbn [world_of].
  - exists new. split; assumption.
  - exists (EvPwm r (u8 v) :: new). split; [|exact P].
    unfold write, effect. cbn [world_of]. destruct r; cbn; rewrite T; reflexivity.
  - destruct (delay_ms_eq hw n w) as (w' & -> & _ & T' & _). cbn [world_of].
    exists (EvDelay n :: new). split; [rewrite T', T; reflexivity|exact P].
  - destruct (adc_read_eq hw ch w (proj2 Hw) H) as (w' & -> & _ & T' & _).
    cbn [world_of].
    exists (EvAdc ch (analog hw ch (now w)) :: new).
    split; [rewrite T', T; reflexivity|].
    unfold pressed_in in *. cbn [existsb low_sample]. rewrite P, orb_false_r.
    destruct (Z.eqb_spec ch 0) as [->|]; [|reflexivity].
    cbn [andb]. apply Z.ltb_ge. apply Hq.
  - exists new. split; assumption.
  - exists new. split; assumption.
  - exists new. split; assumption.
  - exists (EvEeprom (settings_start_seq w) :: new).
    split; [cbn; rewrite T; reflexivity|exact P].
  - exists (EvWdt t :: new). split; [cbn; rewrite T; reflexivity|exact P].
  - unfold spin_forever. destruct (wdt w); cbn [world_of];
      exists new; split; assumption.
  - exists new. split; assumption.
Qed.

Lemma led_sequences_hush s timeout w :
  quiet hw -> In s (led_sequences hw) -> wf w ->
  exists new,
    trace (world_of (s fuel timeout w)) = new ++ trace w /\
    pressed_in new = false.
Proof.
  intros Hq Hin Hw.
  destruct (led_sequences_built hw s Hin fuel timeout) as (c & -> & Hc).
  assert (H0 : hush (trace w) w).
  { split; [exact Hw|]. exists []. split; reflexivity. }
  pose proof (keeps_fn _ c
                (keeps_built (step0 hw) (hush (trace w))
                   (fun A c0 H => step0_hush (trace w) A c0 Hq H)
                   _ c (built_lower hw _ c Hc)) w H0) as (_ & new & T & P).
  exists new. split; assumption.
Qed.

(** The events of a sequence account for the time it takes, and every
    logged sample is the level of its channel at the instant it was
    taken. *)
Lemma led_sequences_timed s timeout w :
  In s (led_sequences hw) -> wf w ->
  exists new,
    trace (world_of (s fuel timeout w)) = new ++ trace w /\
    now (world_of (s fuel timeout w)) = clock hw (now w) new /\
    faithful hw (now w) new.
Proof.
  intros Hin Hw.
  destruct (led_sequences_built hw s Hin fuel timeout) as (c & -> & Hc).
  destruct (built_timed hw _ c w (built_lower hw _ c Hc) Hw) as (new & T & N & F).
  exists new. unfold fn. destruct (c w); cbn [world_of] in *; repeat split; assumption.
Qed.

End TidySequences.

Lemma timing_pressed_between from upto : timing (pressed_between from upto) 4.
Proof.
  split.
  - intros t. cbn. lia.
  - intros t n Hn. cbn. lia.
Qed.

(** C2 as stated fails in two ways.  With the button held low, [seq1] on
    a negative timeout takes three low samples in its first poll, blinks,
    saves the settings and restarts the device; it never returns 1.  And
    with the button low from instant 100 up to instant 2000, [seq1] takes
    its first low sample at instant 100 and returns 1 at instant 13303,
    after the 300 ms and 3 s delays of the monitor: 13203 timer periods
    after that sample, while one animation step is at most 2644 periods
    long. *)
Lemma unbounded_sequence_counterexample :
  ~ (forall (hw : Hardware) (K : Z) (s : nat -> Z -> M Z) (timeout : Z)
            (fuel : nat) (w : World) (new : list event),
       timing hw K -> (3000 <= fuel)%nat ->
       In s (led_sequences hw) -> timeout < 0 -> wf w ->
       trace (world_of (s fuel timeout w)) = new ++ trace w ->
       pressed_in new = true ->
       exists w', s fuel timeout w = Done 1 w') /\
  ~ (forall (hw : Hardware) (K : Z) (s : nat -> Z -> M Z) (timeout : Z)
            (fuel : nat) (w w' : World) (post : list event) (v : Z)
            (pre : list event),
       timing hw K -> (3000 <= fuel)%nat ->
       In s (led_sequences hw) -> timeout < 0 -> wf w ->
       s fuel timeout w = Done 1 w' ->
       trace w' = post ++ EvAdc 0 v :: pre ++ trace w ->
       v < 1000 -> pressed_in pre = false ->
       now w' <= clock hw (now w) pre + STEP_MAX K).
Proof.
  split.
  - intros H.
    destruct (H held 4 (seq1 held) (-1) 3000%nat power_on
                (trace (world_of (seq1 held 3000 (-1) power_on)))
                timing_held ltac:(lia)
                ltac:(unfold led_sequences; cbn [In]; tauto)
                ltac:(lia) power_on_wf
                ltac:(symmetry; apply app_nil_r)
                ltac:(vm_compute; reflexivity)) as [w' E].
    vm_compute in E. discriminate E.
  - intros H.
    set (hw := pressed_between 100 2000).
    assert (E : seq1 hw 3000 (-1) power_on
                = Done 1 (world_of (seq1 hw 3000 (-1) power_on)))
      by (vm_compute; reflexivity).
    specialize (H hw 4 (seq1 hw) (-1) 3000%nat power_on _
                  (firstn 4 (trace (world_of (seq1 hw 3000 (-1) power_on))))
                  500
                  (skipn 5 (trace (world_of (seq1 hw 3000 (-1) power_on))))
                  (timing_pressed_between 100 2000) ltac:(lia)
                  ltac:(unfold led_sequences; cbn [In]; tauto)
                  ltac:(lia) power_on_wf E
                  ltac:(vm_compute; reflexivity)
                  ltac:(lia)
                  ltac:(vm_compute; reflexivity)).
    vm_compute in H. apply H. reflexivity.
Qed.

(** C2 (amended) — For every lighting sequence called with a negative
    timeout the guard of the outer loop is true whatever the clock reads,
    and the call never returns 0.  It returns only the value 1, and only
    after a button sample below the threshold, without having written a
    compare register since the first such sample; and with bounded timing
    (a conversion takes at most [K] timer periods, a busy wait of [n] ms
    at most [K * n]), at least 3000 passes for every loop and the
    millisecond counter away from its wrap, it returns at most
    [WAIT_MAX K] timer periods after the instant at which that first low
    sample was taken: the rest of a timed wait in progress, at most
    500 ms, and one call of the monitor with its delays of 300 ms and
    3 s.  A long press (three low samples in one call of the monitor)
    restarts the device instead, so the call does not return at all.  As
    long as no sample is low the call is still running, whatever budget
    its loops are given; in an environment without button activity that
    is always the case.  Under the same three conditions the call is
    still running only if no sample was low: a sampled press ends it.
    The events logged account for the time passed, so that the instant of
    each sample is known from the events before it. *)
Theorem unbounded_sequence_runs_until_press (hw : Hardware) (K : Z)
    (s : nat -> Z -> M Z) (timeout : Z) (fuel : nat) (w : World) :
  In s (led_sequences hw) ->
  timeout < 0 ->
  wf w ->
  (forall start w0, running timeout start w0 = true) /\
  exists new,
    trace (world_of (s fuel timeout w)) = new ++ trace w /\
    now (world_of (s fuel timeout w)) = clock hw (now w) new /\
    match s fuel timeout w with
    | Done r w' =>
        r = 1 /\
        exists post v pre,
          new = post ++ EvAdc 0 v :: pre /\
          pressed_in pre = false /\
          v = analog hw 0 (clock hw (now w) pre) /\ v < 1000 /\
          existsb is_pwm post = false /\
          (timing hw K -> (3000 <= fuel)%nat -> now w' + WAIT_MAX K < WRAP ->
           now w' <= clock hw (now w) pre + WAIT_MAX K)
    | Restart _ => pressed_in new = true
    | Spin w' =>
        timing hw K -> (3000 <= fuel)%nat -> now w' + WAIT_MAX K < WRAP ->
        pressed_in new = false
    | Returned _ _ => False
    end /\
    (quiet hw -> pressed_in new = false /\
                 exists w', s fuel timeout w = Spin w').
Proof.
  intros Hin Hto Hw.
  split; [intros start w0; apply running_unbounded, Hto|].
  destruct (led_sequences_unbounded hw K fuel s timeout w Hin Hto Hw)
    as (new & T & H).
  destruct (led_sequences_timed hw fuel s timeout w Hin Hw) as (new0 & T0 & N0 & F0).
  assert (new0 = new) as ->.
  { apply (app_inv_tail (trace w)). rewrite <- T, <- T0. reflexivity. }
  exists new. split; [exact T|]. split; [exact N0|]. split.
  { destruct (s fuel timeout w) as [r w'|v w'|w'|w']; try exact H.
    destruct H as (Hr & post & v & pre & E & Hv & Hpre & Hpost & Hb).
    split; [exact Hr|]. exists post, v, pre.
    split; [exact E|]. split; [exact Hpre|].
    split; [|split; [exact Hv|split; [exact Hpost|exact Hb]]].
    rewrite E in F0. apply faithful_tail in F0. cbn [faithful] in F0.
    exact (proj2 F0). }
  intros Hq.
  destruct (led_sequences_hush hw fuel s timeout w Hq Hin Hw) as (new' & T' & P').
  assert (new' = new) as ->.
  { apply (app_inv_tail (trace w)). rewrite <- T, <- T'. reflexivity. }
  split; [exact P'|].
  destruct (s fuel timeout w) as [r w'|v w'|w'|w'].
  - destruct H as (_ & post & v & pre & -> & Hv & _).
    unfold pressed_in in P'. rewrite existsb_app in P'. cbn [existsb low_sample] in P'.
    apply Z.ltb_lt in Hv. rewrite Hv in P'. cbn in P'.
    rewrite orb_true_r in P'. discriminate P'.
  - contradiction.
  - congruence.
  - exists w'. reflexivity.
Qed.

Lemma unbounded_sequence_runs_until_press_witness :
  In (seq1 (pressed_between 100 2000)) (led_sequences (pressed_between 100 2000)) /\
  -1 < 0 /\
  wf power_on /\
  (forall start w0, running (-1) start w0 = true) /\
  exists new,
    trace (world_of (seq1 (pressed_between 100 2000) 3000 (-1) power_on))
      = new ++ trace power_on /\
    now (world_of (seq1 (pressed_between 100 2000) 3000 (-1) power_on))
      = clock (pressed_between 100 2000) (now power_on) new /\
    match seq1 (pressed_between 100 2000) 3000 (-1) power_on with
    | Done r w' =>
        r = 1 /\
        exists post v pre,
          new = post ++ EvAdc 0 v :: pre /\
          pressed_in pre = false /\
          v = analog (pressed_between 100 2000) 0
                (clock (pressed_between 100 2000) (now power_on) pre) /\
          v < 1000 /\
          existsb is_pwm post = false /\
          (timing (pressed_between 100 2000) 4 -> (3000 <= 3000)%nat ->
           now w' + WAIT_MAX 4 < WRAP ->
           now w' <= clock (pressed_between 100 2000) (now power_on) pre
                     + WAIT_MAX 4)
    | Restart _ => pressed_in new = true
    | Spin w' =>
        timing (pressed_between 100 2000) 4 -> (3000 <= 3000)%nat ->
        now w' + WAIT_MAX 4 < WRAP ->
        pressed_in new = false
    | Returned _ _ => False
    end /\
    (quiet (pressed_between 100 2000) ->
     pressed_in new = false /\
     exists w', seq1 (pressed_between 100 2000) 3000 (-1) power_on = Spin w').
Proof.
  assert (H1 : In (seq1 (pressed_between 100 2000))
                  (led_sequences (pressed_between 100 2000)))
    by (unfold led_sequences; cbn [In]; tauto).
  assert (H2 : -1 < 0) by lia.
  split; [exact H1|]. split; [exact H2|]. split; [exact power_on_wf|].
  exact (unbounded_sequence_runs_until_press (pressed_between 100 2000) 4
           (seq1 (pressed_between 100 2000)) (-1) 3000%nat power_on
           H1 H2 power_on_wf).
Defined.

(** ** The sound-reactive flasher *)

Lemma u8_idem (x : Z) : u8 (u8 x) = u8 x.
Proof. unfold u8. apply Z.mod_mod. lia. Qed.

Lemma config_mic (w1 w2 : World) :
  config w1 = config w2 -> mic_buffer w1 = mic_buffer w2.
Proof. unfold config. intros H. injection H. auto. Qed.

(** A poll that lets the sequence go on has changed neither the compare
    registers nor the configuration. *)
Lemma poll_done (hw : Hardware) (w : World) :
  Z.land (ADMUX w) 8 = 0 ->
  match poll hw w with
  | Done _ w' => regs w' = regs w /\ config w' = config w
  | _ => True
  end.
Proof.
  intros Ha. destruct (check_report hw w Ha) as (ev & _ & _ & H).
  unfold poll, bind.
  destruct (check_button_input hw w) as [r w1|r w1|w1|w1]; try exact I.
  destruct H as (_ & R & C & [[-> _]|[-> _]]).
  - change (0 =? 0) with true. cbv iota. unfold ret. split; assumption.
  - change (1 =? 0) with false. cbv iota. exact I.
Qed.

(** One completed pass of the flasher leaves on all four channels the
    level derived from the ring buffer as it stands after the pass. *)
Lemma seq12_body_level (hw : Hardware) (st st' : Z * Z) (w w' : World) :
  wf w -> seq12_body hw st w = Done st' w' ->
  regs w' = (flasher_level (mic_buffer w'), flasher_level (mic_buffer w'),
             flasher_level (mic_buffer w'), flasher_level (mic_buffer w')).
Proof.
  intros Hw. destruct st as [l t]. unfold seq12_body.
  destruct (adc_read_eq hw 1 w (proj2 Hw) ltac:(lia)) as (w1 & E1 & _ & _ & A1 & _).
  rewrite (bind_done _ _ _ _ _ E1).
  set (v := analog hw 1 (now w)).
  assert (E2 : push_sample v w1 = Done tt (world_of (push_sample v w1)))
    by reflexivity.
  assert (A2 : ADMUX (world_of (push_sample v w1)) = ADMUX w1) by reflexivity.
  set (w2 := world_of (push_sample v w1)) in *. clearbody w2.
  rewrite (bind_done _ _ _ _ _ E2).
  assert (E3 : get_mic_buffer_mad w2 = Done (mic_mad (mic_buffer w2)) w2)
    by reflexivity.
  rewrite (bind_done _ _ _ _ _ E3).
  assert (Hb : flasher_level (mic_buffer w2)
               = u8 (scale_up (noise_floor (mic_mad (mic_buffer w2)))))
    by reflexivity.
  set (b := u8 (scale_up (noise_floor (mic_mad (mic_buffer w2))))) in *.
  assert (Hu : u8 b = b) by apply u8_idem.
  clearbody b.
  destruct (write_all_eq b w2) as (w3 & E4 & _ & _ & A3 & R3 & C3).
  rewrite (bind_done _ _ _ _ _ E4).
  assert (E5 : read millis w3 = Done (millis w3) w3) by reflexivity.
  rewrite (bind_done _ _ _ _ _ E5).
  assert (A3' : Z.land (ADMUX w3) 8 = 0) by (rewrite A3, A2; exact A1).
  pose proof (poll_done hw w3 A3') as P.
  assert (G : forall s0 : Z * Z,
             bind (poll hw) (fun _ => ret s0) w3 = Done st' w' ->
             regs w' = regs w3 /\ config w' = config w3).
  { intros s0. unfold bind. destruct (poll hw w3) as [u w4| | |];
      try discriminate. unfold ret. intros E. injection E as _ <-. exact P. }
  intros E.
  assert (G' : regs w' = regs w3 /\ config w' = config w3).
  { destruct (millis w3 >? u16 (t + 1)); exact (G _ E). }
  destruct G' as [R4 C4].
  rewrite R4, R3, (config_mic _ _ C4), (config_mic _ _ C3), Hb, Hu. reflexivity.
Qed.

(** A pass does not read the brightness the pass before it left. *)
Lemma seq12_body_ignores (hw : Hardware) (l1 l2 t : Z) :
  seq12_body hw (l1, t) = seq12_body hw (l2, t).
Proof. unfold seq12_body. cbv beta iota. reflexivity. Qed.

(** C7 — The decrement of [leds] in the flasher has no effect: every pass
    computes the brightness afresh from the ring buffer and writes it to
    the four channels before the decrement, and the next pass does not
    read the decremented value.  So the brightness follows the buffer down
    as fast as the buffer changes: in the burst environment it is 252
    after 29 passes (11 ms on the clock), 96 after 30 and 0 after
    32 passes, both within millisecond 12. *)
Theorem flasher_brightness_follows_buffer (hw : Hardware) (st st' : Z * Z)
    (w w' : World) :
  wf w ->
  seq12_body hw st w = Done st' w' ->
  regs w' = (flasher_level (mic_buffer w'), flasher_level (mic_buffer w'),
             flasher_level (mic_buffer w'), flasher_level (mic_buffer w')) /\
  (forall leds, seq12_body hw (leds, snd st) w = Done st' w') /\
  (let w29 := world_of (seq12 burst 29 (-1) power_on) in
   let w30 := world_of (seq12 burst 30 (-1) power_on) in
   let w32 := world_of (seq12 burst 32 (-1) power_on) in
   (regs w29, millis w29) = ((252, 252, 252, 252), 11) /\
   (regs w30, millis w30) = ((96, 96, 96, 96), 12) /\
   (regs w32, millis w32) = ((0, 0, 0, 0), 12)).
Proof.
  intros Hw E. split; [exact (seq12_body_level hw st st' w w' Hw E)|].
  split.
  { intros leds. destruct st as [l t]. cbn [snd].
    rewrite (seq12_body_ignores hw leds l t). exact E. }
  vm_compute. repeat split.
Qed.

Lemma flasher_brightness_follows_buffer_witness :
  wf power_on /\
  exists st' w',
    seq12_body burst (0, 0) power_on = Done st' w' /\
    regs w' = (flasher_level (mic_buffer w'), flasher_level (mic_buffer w'),
               flasher_level (mic_buffer w'), flasher_level (mic_buffer w')) /\
    (forall leds, seq12_body burst (leds, snd (0, 0)) power_on = Done st' w').
Proof.
  split; [exact power_on_wf|].
  assert (E : seq12_body burst (0, 0) power_on
              = Done (0, 0) (world_of (seq12_body burst (0, 0) power_on)))
    by (vm_compute; reflexivity).
  exists (0, 0), (world_of (seq12_body burst (0, 0) power_on)).
  split; [exact E|].
  destruct (flasher_brightness_follows_buffer burst (0, 0) (0, 0) power_on _
              power_on_wf E) as (H1 & H2 & _).
  split; [exact H1|exact H2].
Defined.

(** * Further properties of the code *)

(** ** Edge behaviour of the monitor, the converter and the waits *)

(** With the button released the monitor returns 0 at once: it takes its
    one conversion on channel 0 and nothing else happens, no delay, no
    store to a compare register, no change of the settings. *)
Theorem released_button_is_not_a_press (hw : Hardware) (w : World) :
  Z.land (ADMUX w) 8 = 0 ->
  1000 <= analog hw 0 (now w) ->
  exists w',
    check_button_input hw w = Done 0 w' /\
    trace w' = [EvAdc 0 (analog hw 0 (now w))] ++ trace w /\
    now w' = now w + Z.of_nat (adc_ovf hw (now w)) /\
    regs w' = regs w /\ config w' = config w.
Proof.
  intros Ha Hs. destruct (check_button_input_cases hw w Ha) as (w' & _ & H).
  apply Z.ltb_ge in Hs. rewrite Hs in H. exists w'. exact H.
Qed.

Lemma released_button_is_not_a_press_witness :
  Z.land (ADMUX power_on) 8 = 0 /\
  1000 <= analog bench 0 (now power_on) /\
  exists w', check_button_input bench power_on = Done 0 w' /\
             regs w' = regs power_on.
Proof.
  assert (Ha : Z.land (ADMUX power_on) 8 = 0) by reflexivity.
  assert (Hs : 1000 <= analog bench 0 (now power_on)) by (vm_compute; discriminate).
  split; [exact Ha|]. split; [exact Hs|].
  destruct (released_button_is_not_a_press bench power_on Ha Hs)
    as (w' & E & _ & _ & R & _).
  exists w'. split; [exact E|exact R].
Defined.

(** A delay of zero, or a negative one that does not reach back before
    power-up, is over before it starts: [delay_millis_check_button]
    returns 0 without looking at the button, so a press at that moment
    goes unnoticed, and the world is as it was. *)
Theorem elapsed_delay_takes_no_sample (hw : Hardware) (fuel : nat) (d : Z)
    (w : World) :
  (0 < fuel)%nat ->
  0 <= millis w < 2 ^ 64 ->
  - millis w <= d <= 0 ->
  delay_millis_check_button hw fuel d w = Done 0 w.
Proof.
  intros Hf Hm Hd. destruct fuel as [|fuel]; [lia|].
  rewrite delay_millis_check_button_eq, wait_loop_unfold.
  assert (E : u64 (millis w + d) = millis w + d).
  { unfold u64. apply Z.mod_small. lia. }
  rewrite E. destruct (Z.ltb_spec (millis w) (millis w + d)); [lia|reflexivity].
Qed.

Lemma elapsed_delay_takes_no_sample_witness :
  (0 < 1)%nat /\ 0 <= millis power_on < 2 ^ 64 /\ - millis power_on <= 0 <= 0 /\
  delay_millis_check_button held 1 0 power_on = Done 0 power_on.
Proof.
  assert (H1 : (0 < 1)%nat) by lia.
  assert (H2 : 0 <= millis power_on < 2 ^ 64) by (cbn; lia).
  assert (H3 : - millis power_on <= 0 <= 0) by (cbn; lia).
  split; [exact H1|]. split; [exact H2|]. split; [exact H3|].
  exact (elapsed_delay_takes_no_sample held 1 0 power_on H1 H2 H3).
Defined.

Lemma mux_low_bits (a ch : Z) :
  0 <= ch < 8 ->
  Z.land (Z.lor (Z.land a 248) ch) 7 = ch /\
  Z.land (Z.lor (Z.land a 248) ch) 248 = Z.land a 248.
Proof.
  intros Hc.
  assert (C : ch = 0 \/ ch = 1 \/ ch = 2 \/ ch = 3 \/ ch = 4 \/ ch = 5 \/ ch = 6 \/ ch = 7) by lia.
  split; apply Z.bits_inj'; intros n Hn;
    rewrite !Z.land_spec, Z.lor_spec, Z.land_spec.
  - destruct (Z.ltb_spec n 3) as [L|L].
    + assert (N : n = 0 \/ n = 1 \/ n = 2) by lia.
      destruct N as [->|[->| ->]];
        change (Z.testbit 248 _) with false; change (Z.testbit 7 _) with true;
        rewrite andb_false_r, andb_true_r; reflexivity.
    + assert (T7 : Z.testbit 7 n = false).
      { change 7 with (Z.ones 3). apply Z.ones_spec_high. lia. }
      rewrite T7, andb_false_r.
      symmetry. apply (Z.bits_above_log2 ch n); [lia|].
      decompose [or] C; subst ch; cbn; lia.
  - destruct (Z.ltb_spec n 3) as [L|L].
    + assert (N : n = 0 \/ n = 1 \/ n = 2) by lia.
      destruct N as [->|[->| ->]];
        change (Z.testbit 248 _) with false; rewrite !andb_false_r; reflexivity.
    + assert (T : Z.testbit ch n = false).
      { apply (Z.bits_above_log2 ch n); [lia|].
        decompose [or] C; subst ch; cbn; lia. }
      rewrite T, orb_false_r.
      destruct (Z.testbit a n), (Z.testbit 248 n); reflexivity.
Qed.

(** [adc_read(ch)] for a channel number below 8 puts [ch] into the low
    three bits of [ADMUX] and leaves the upper five (reference selection,
    result alignment, the fourth multiplexer bit) as they were; it stores
    to no compare register and changes no setting.  With the fourth
    multiplexer bit clear the value returned is the reading of channel
    [ch] at the instant of the call. *)
Theorem adc_read_selects_channel (hw : Hardware) (ch : Z) (w : World) :
  0 <= ch < 8 ->
  exists v w',
    adc_read hw ch w = Done v w' /\
    Z.land (ADMUX w') 7 = ch /\
    Z.land (ADMUX w') 248 = Z.land (ADMUX w) 248 /\
    regs w' = regs w /\ config w' = config w /\
    now w' = now w + Z.of_nat (adc_ovf hw (now w)) /\
    (Z.land (ADMUX w) 8 = 0 ->
     v = analog hw ch (now w) /\ trace w' = EvAdc ch v :: trace w).
Proof.
  intros Hc. destruct (mux_low_bits (ADMUX w) ch Hc) as [M1 M2].
  unfold adc_read. cbn [ADMUX set_ADMUX now].
  eexists; eexists. split; [reflexivity|].
  destruct (elapse_shape (adc_ovf hw (now w))
              (set_ADMUX (Z.lor (Z.land (ADMUX w) 248) ch) w)) as (t & m & E).
  cbn [now set_ADMUX] in E. rewrite E.
  split; [exact M1|]. split; [exact M2|].
  split; [reflexivity|]. split; [reflexivity|]. split; [reflexivity|].
  intros Ha. destruct (mux_select (ADMUX w) ch Ha Hc) as [M3 _].
  rewrite M3. split; reflexivity.
Qed.

Lemma adc_read_selects_channel_witness :
  0 <= 1 < 8 /\
  exists v w', adc_read bench 1 power_on = Done v w' /\ Z.land (ADMUX w') 7 = 1.
Proof.
  assert (H : 0 <= 1 < 8) by lia.
  split; [exact H|].
  destruct (adc_read_selects_channel bench 1 power_on H) as (v & w' & E & M & _).
  exists v, w'. split; [exact E|exact M].
Defined.

(** ** A timeout of zero *)

Lemma sequence_zero {S} (fuel : nat) (entry : M unit)
    (locals : Z -> S) (body : S -> M S) (w w1 : World) :
  entry w = Done tt w1 ->
  0 <= millis w1 < 2 ^ 64 ->
  sequence (Datatypes.S fuel) 0 entry locals (ret tt) body w = Done 0 w1.
Proof.
  intros E Hm. unfold sequence, fn.
  rewrite (bind_done _ _ _ _ _ E).
  assert (R : running 0 (millis w1) w1 = false).
  { unfold running. rewrite Z.add_0_r. unfold u64. rewrite Z.mod_small by exact Hm.
    rewrite !Z.ltb_irrefl. reflexivity. }
  unfold bind, read, ret. cbn [while_]. rewrite R. reflexivity.
Qed.

Lemma millis_range (w : World) : wf w -> 0 <= millis w < 2 ^ 64.
Proof.
  intros [(_ & _ & Hm) _]. rewrite Hm. unfold u64. apply Z.mod_pos_bound. lia.
Qed.

Lemma sequence_zero_plain {S} (fuel : nat) (v : Z)
    (locals : Z -> S) (body : S -> M S) (w : World) :
  0 <= millis w < 2 ^ 64 ->
  exists w' new,
    sequence (Datatypes.S fuel) 0 (write_all v) locals (ret tt) body w
      = Done 0 w' /\
    now w' = now w /\ trace w' = new ++ trace w /\ forallb is_pwm new = true.
Proof.
  intros Hm.
  assert (E : write_all v w = Done tt (world_of (write_all v w))) by reflexivity.
  assert (Q : millis (world_of (write_all v w)) = millis w) by reflexivity.
  assert (N : now (world_of (write_all v w)) = now w) by reflexivity.
  assert (T : trace (world_of (write_all v w))
              = [EvPwm R_OCR1A (u8 v); EvPwm R_OCR1B (u8 v);
                 EvPwm R_OCR0B (u8 v); EvPwm R_OCR0A (u8 v)] ++ trace w)
    by reflexivity.
  revert E Q N T. generalize (world_of (write_all v w)). intros w1 E Q N T.
  rewrite <- Q in Hm.
  exists w1. eexists. split; [exact (sequence_zero fuel _ _ _ w w1 E Hm)|].
  split; [exact N|]. split; [exact T|reflexivity].
Qed.

Lemma sequence_zero_mic {S} (fuel : nat)
    (locals : Z -> S) (body : S -> M S) (w : World) :
  0 <= millis w < 2 ^ 64 ->
  exists w' new,
    sequence (Datatypes.S fuel) 0 (write_all 0 ;; init_mic_buffer) locals
             (ret tt) body w = Done 0 w' /\
    now w' = now w /\ trace w' = new ++ trace w /\ forallb is_pwm new = true.
Proof.
  intros Hm.
  set (c := (write_all 0 ;; init_mic_buffer) : M unit).
  assert (E : c w = Done tt (world_of (c w))) by reflexivity.
  assert (Q : millis (world_of (c w)) = millis w) by reflexivity.
  assert (N : now (world_of (c w)) = now w) by reflexivity.
  assert (T : trace (world_of (c w))
              = [EvPwm R_OCR1A (u8 0); EvPwm R_OCR1B (u8 0);
                 EvPwm R_OCR0B (u8 0); EvPwm R_OCR0A (u8 0)] ++ trace w)
    by reflexivity.
  revert E Q N T. generalize (world_of (c w)). intros w1 E Q N T.
  rewrite <- Q in Hm.
  exists w1. eexists. split; [exact (sequence_zero fuel _ _ _ w w1 E Hm)|].
  split; [exact N|]. split; [exact T|reflexivity].
Qed.

(** Called with a timeout of zero, every sequence but [seq8] sets the
    four channels to its starting brightness and returns 0 at the same
    instant, without taking a single button sample: a press is not
    noticed.  ([seq8] plays its lead-in, 60 polled steps, before it first
    looks at the clock.) *)
Theorem zero_timeout_returns_at_once (hw : Hardware) (fuel i : nat)
    (s : nat -> Z -> M Z) (w : World) :
  wf w ->
  (0 < fuel)%nat ->
  nth_error (led_sequences hw) i = Some s ->
  i <> 7%nat ->
  exists w' new,
    s fuel 0 w = Done 0 w' /\
    now w' = now w /\
    trace w' = new ++ trace w /\
    forallb is_pwm new = true.
Proof.
  intros Hw Hf Hi H7. destruct fuel as [|fuel]; [lia|].
  pose proof (millis_range w Hw) as Hm.
  unfold led_sequences in Hi.
  destruct i as [|[|[|[|[|[|[|[|[|[|[|[|i]]]]]]]]]]]]; cbn [nth_error] in Hi.
  all: try (exfalso; apply H7; reflexivity).
  all: try (destruct i; discriminate Hi).
  all: injection Hi as <-.
  all: unfold seq1, seq2, seq3, seq4, seq5, seq6, seq7, seq9, seq10, seq11, seq12.
  1-10: apply sequence_zero_plain; exact Hm.
  apply sequence_zero_mic; exact Hm.
Qed.

Lemma zero_timeout_returns_at_once_witness :
  wf power_on /\ (0 < 1)%nat /\
  nth_error (led_sequences held) 0 = Some (seq1 held) /\ 0%nat <> 7%nat /\
  exists w', seq1 held 1 0 power_on = Done 0 w' /\ now w' = now power_on.
Proof.
  assert (H2 : (0 < 1)%nat) by lia.
  assert (H3 : nth_error (led_sequences held) 0 = Some (seq1 held)) by reflexivity.
  assert (H4 : 0%nat <> 7%nat) by discriminate.
  split; [exact power_on_wf|]. split; [exact H2|]. split; [exact H3|].
  split; [exact H4|].
  destruct (zero_timeout_returns_at_once held 1 0 (seq1 held) power_on
              power_on_wf H2 H3 H4) as (w' & new & E & N & _).
  exists w'. split; [exact E|exact N].
Defined.

(** ** The sound estimator and its ring buffer *)

Lemma s16_small (x : Z) : 0 <= x < 32768 -> s16 x = x.
Proof.
  intros H. unfold s16. rewrite Z.mod_small by lia.
  destruct (Z.ltb_spec x 32768); lia.
Qed.

Lemma push_sample_ring (v : Z) (w : World) :
  ring_ok w ->
  ring_ok (world_of (push_sample v w)) /\
  mic_buffer_current (world_of (push_sample v w))
    = (mic_buffer_current w + 1) mod 16 /\
  mic_buffer (world_of (push_sample v w))
    = <[Z.to_nat (mic_buffer_current w) := u16 v]> (mic_buffer w).
Proof.
  intros [Hl Hc]. unfold ring_ok. cbn.
  assert (E : Z.rem (s16 (mic_buffer_current w + 1)) MIC_BUFFER_SIZE
              = (mic_buffer_current w + 1) mod 16).
  { rewrite s16_small by lia. apply Z.rem_mod_nonneg; unfold MIC_BUFFER_SIZE; lia. }
  rewrite E. split; [|split; reflexivity].
  split; [rewrite length_insert; exact Hl|].
  apply Z.mod_pos_bound. lia.
Qed.

Lemma pushes_snoc (vs : list Z) (v : Z) (w : World) :
  pushes (vs ++ [v]) w = world_of (push_sample v (pushes vs w)).
Proof. unfold pushes. rewrite fold_left_app. reflexivity. Qed.

Lemma pushes_ring (vs : list Z) (w : World) :
  ring_ok w ->
  ring_ok (pushes vs w) /\
  mic_buffer_current (pushes vs w)
    = (mic_buffer_current w + Z.of_nat (length vs)) mod 16.
Proof.
  intros Hw. induction vs as [|v vs IH] using rev_ind.
  - cbn. split; [exact Hw|]. rewrite Z.add_0_r. symmetry.
    apply Z.mod_small. apply Hw.
  - destruct IH as [R C]. rewrite pushes_snoc.
    destruct (push_sample_ring v _ R) as (R' & C' & _).
    split; [exact R'|]. rewrite C', C, length_app, Nat2Z.inj_add. cbn [length].
    rewrite Z.add_mod_idemp_l by lia. f_equal. lia.
Qed.

(** The slot that holds the [j]-th most recent sample. *)
Lemma pushes_slot (vs : list Z) (w : World) :
  ring_ok w ->
  forall j, (j < length vs)%nat -> (j < 16)%nat ->
  mic_buffer (pushes vs w)
    !!! Z.to_nat ((mic_buffer_current w + Z.of_nat (length vs) - 1 - Z.of_nat j) mod 16)
  = u16 (nth j (rev vs) 0).
Proof.
  intros Hw. induction vs as [|v vs IH] using rev_ind; intros j Hj H16.
  - cbn in Hj. lia.
  - destruct (pushes_ring vs w Hw) as [R C].
    rewrite pushes_snoc.
    destruct (push_sample_ring v _ R) as (_ & _ & B). rewrite B, C.
    rewrite rev_app_distr. cbn [rev app]. rewrite length_app. cbn [length].
    rewrite Nat2Z.inj_add. change (Z.of_nat 1) with 1.
    set (c := mic_buffer_current w) in *. set (n := Z.of_nat (length vs)) in *.
    assert (Hc : 0 <= c < 16) by apply Hw.
    assert (Hn : 0 <= n) by (subst n; lia).
    destruct j as [|j].
    + cbn [nth]. replace (c + (n + 1) - 1 - Z.of_nat 0) with (c + n) by lia.
      apply list_lookup_total_insert_eq.
      destruct R as [Rl _]. rewrite Rl.
      pose proof (Z.mod_pos_bound (c + n) 16 ltac:(lia)). lia.
    + cbn [nth]. rewrite length_app in Hj. cbn [length] in Hj.
      rewrite list_lookup_total_insert_ne.
      * replace (c + (n + 1) - 1 - Z.of_nat (S j)) with (c + n - 1 - Z.of_nat j) by lia.
        apply IH; lia.
      * intros E. apply Z2Nat.inj in E;
          [|apply Z.mod_pos_bound; lia|apply Z.mod_pos_bound; lia].
        assert (Hk : 1 <= Z.of_nat (S j) <= 15) by lia.
        revert E Hk. generalize (Z.of_nat (S j)). intros k E Hk.
        Z.div_mod_to_equations. lia.
Qed.

Lemma sumZ_perm (l1 l2 : list Z) : Permutation l1 l2 -> sumZ l1 = sumZ l2.
Proof.
  induction 1 as [|x l l' _ IH|x y l|l l' l'' _ IH1 _ IH2]; unfold sumZ in *;
    cbn [fold_right]; lia.
Qed.

Lemma devs_perm (m : Z) (l1 l2 : list Z) :
  Permutation l1 l2 -> devs m l1 = devs m l2.
Proof.
  intros H. unfold devs. apply sumZ_perm. apply Permutation_map, H.
Qed.

Lemma adc_samples_perm (l1 l2 : list Z) :
  Permutation l1 l2 -> adc_samples l1 -> adc_samples l2.
Proof.
  intros H [Hl Hf]. split.
  - rewrite <- Hl. symmetry. apply Permutation_length, H.
  - rewrite <- H. exact Hf.
Qed.

Lemma mic_mad_replicate (v : Z) : 0 <= v < 1024 -> mic_mad (replicate 16 v) = 0.
Proof.
  intros Hv.
  assert (A : adc_samples (replicate 16 v)).
  { split; [reflexivity|]. cbn. repeat (constructor; [exact Hv|]). constructor. }
  destruct (mic_mad_plain _ A) as (_ & _ & ->).
  assert (S16 : sumZ (replicate 16 v) = 16 * v) by (cbn; lia).
  rewrite S16. replace (16 * v / 16) with v
    by (rewrite Z.mul_comm; symmetry; apply Z.div_mul; lia).
  unfold devs. cbn. rewrite !Z.sub_diag. reflexivity.
Qed.

Lemma flasher_level_closed (buf : list Z) :
  adc_samples buf ->
  flasher_level buf = 4 * Z.min 63 (Z.max 0 (mic_mad buf - 40)).
Proof.
  intros H. pose proof (mic_mad_range buf H) as R.
  unfold flasher_level. rewrite noise_floor_max by lia.
  unfold scale_up. rewrite Z.shiftl_mul_pow2 by lia. change (2 ^ 2) with 4.
  assert (X : 0 <= Z.max 0 (mic_mad buf - 40) <= 472) by lia.
  revert X. generalize (Z.max 0 (mic_mad buf - 40)). intros x X.
  unfold u8, u16.
  destruct (Z.gtb_spec x 63); cbv iota.
  - rewrite (Z.mod_small (63 * 4) 65536) by lia. rewrite Z.mod_small by lia. lia.
  - rewrite (Z.mod_small (x * 4) 65536) by lia. rewrite Z.mod_small by lia. lia.
Qed.

(** The ring buffer holds the most recent samples: after the samples
    [vs] have been stored, the write index has advanced by their number
    modulo 16, the buffer still has sixteen entries, and the [j]-th most
    recent sample (for [j] below 16) sits [j + 1] slots behind the write
    index, whatever was stored before. *)
Theorem ring_buffer_keeps_latest (vs : list Z) (w : World) (j : nat) :
  ring_ok w ->
  (j < length vs)%nat -> (j < 16)%nat ->
  ring_ok (pushes vs w) /\
  mic_buffer_current (pushes vs w)
    = (mic_buffer_current w + Z.of_nat (length vs)) mod 16 /\
  mic_buffer (pushes vs w)
    !!! Z.to_nat ((mic_buffer_current (pushes vs w) - 1 - Z.of_nat j) mod 16)
  = u16 (nth j (rev vs) 0).
Proof.
  intros Hw Hj H16. destruct (pushes_ring vs w Hw) as [R C].
  split; [exact R|]. split; [exact C|].
  rewrite <- (pushes_slot vs w Hw j Hj H16). rewrite C. f_equal. f_equal.
  rewrite <- !Z.sub_add_distr. rewrite Zminus_mod_idemp_l. reflexivity.
Qed.

Lemma ring_buffer_keeps_latest_witness :
  ring_ok power_on /\ (2 < length [7; 8; 9])%nat /\ (2 < 16)%nat /\
  mic_buffer (pushes [7; 8; 9] power_on)
    !!! Z.to_nat ((mic_buffer_current (pushes [7; 8; 9] power_on) - 1 - Z.of_nat 2) mod 16)
  = u16 (nth 2 (rev [7; 8; 9]) 0).
Proof.
  assert (H1 : ring_ok power_on) by (split; [reflexivity|cbn; lia]).
  assert (H2 : (2 < length [7; 8; 9])%nat) by (cbn; lia).
  assert (H3 : (2 < 16)%nat) by lia.
  split; [exact H1|]. split; [exact H2|]. split; [exact H3|].
  apply (ring_buffer_keeps_latest [7; 8; 9] power_on 2 H1 H2 H3).
Defined.

(** The estimate does not depend on where in the ring the samples sit:
    two buffers holding the same sixteen samples in any order have the
    same mean absolute deviation and give the same brightness. *)
Theorem mad_ignores_order (buf1 buf2 : list Z) :
  adc_samples buf1 ->
  Permutation buf1 buf2 ->
  adc_samples buf2 /\
  mic_mad buf2 = mic_mad buf1 /\
  flasher_level buf2 = flasher_level buf1.
Proof.
  intros H1 P. pose proof (adc_samples_perm _ _ P H1) as H2.
  assert (E : mic_mad buf2 = mic_mad buf1).
  { destruct (mic_mad_plain _ H1) as (_ & _ & ->).
    destruct (mic_mad_plain _ H2) as (_ & _ & ->).
    rewrite (sumZ_perm _ _ P), (devs_perm _ _ _ P). reflexivity. }
  split; [exact H2|]. split; [exact E|].
  unfold flasher_level. rewrite E. reflexivity.
Qed.

Lemma mad_ignores_order_witness :
  adc_samples (1000 :: replicate 15 0) /\
  Permutation (1000 :: replicate 15 0) (replicate 15 0 ++ [1000]) /\
  mic_mad (replicate 15 0 ++ [1000]) = mic_mad (1000 :: replicate 15 0).
Proof.
  assert (H1 : adc_samples (1000 :: replicate 15 0)).
  { split; [reflexivity|]. cbn. repeat (constructor; [lia|]). constructor. }
  assert (H2 : Permutation (1000 :: replicate 15 0) (replicate 15 0 ++ [1000])).
  { apply Permutation_cons_append. }
  split; [exact H1|]. split; [exact H2|].
  apply (mad_ignores_order _ _ H1 H2).
Defined.

(** The brightness the flasher derives from a buffer of conversion
    results is four times the estimate above the noise floor of 40,
    capped at 63: a multiple of 4 between 0 and 252.  None of the
    16-bit and 8-bit conversions on the way wraps, and full brightness
    (255) is never reached. *)
Theorem flasher_level_range (buf : list Z) :
  adc_samples buf ->
  flasher_level buf = 4 * Z.min 63 (Z.max 0 (mic_mad buf - 40)) /\
  0 <= flasher_level buf <= 252 /\
  flasher_level buf mod 4 = 0 /\
  (mic_mad buf <= 40 -> flasher_level buf = 0) /\
  (103 <= mic_mad buf -> flasher_level buf = 252).
Proof.
  intros H. rewrite (flasher_level_closed buf H).
  split; [reflexivity|]. split; [lia|]. split; [|split; intros; lia].
  rewrite Z.mul_comm. apply Z.mod_mul. lia.
Qed.

Lemma flasher_level_range_witness :
  adc_samples [0; 1023; 0; 1023; 0; 1023; 0; 1023; 0; 1023; 0; 1023; 0; 1023; 0; 1023] /\
  flasher_level [0; 1023; 0; 1023; 0; 1023; 0; 1023; 0; 1023; 0; 1023; 0; 1023; 0; 1023]
    <= 252.
Proof.
  assert (H : adc_samples [0; 1023; 0; 1023; 0; 1023; 0; 1023; 0; 1023; 0; 1023; 0; 1023; 0; 1023]).
  { split; [reflexivity|]. repeat (constructor; [lia|]). constructor. }
  split; [exact H|]. apply (flasher_level_range _ H).
Defined.

(** Sixteen equal conversion results in a row silence the flasher
    whatever the buffer held before: the buffer then holds that value in
    every slot, the estimate is 0 and the brightness derived from it is
    0. *)
Theorem sixteen_equal_samples_go_dark (v : Z) (w : World) :
  ring_ok w ->
  0 <= v < 1024 ->
  mic_buffer (pushes (replicate 16 v) w) = replicate 16 v /\
  mic_mad (mic_buffer (pushes (replicate 16 v) w)) = 0 /\
  flasher_level (mic_buffer (pushes (replicate 16 v) w)) = 0.
Proof.
  intros Hw Hv.
  assert (B : mic_buffer (pushes (replicate 16 v) w) = replicate 16 v).
  { destruct (pushes_ring (replicate 16 v) w Hw) as [[Rl _] _].
    apply (list_eq_same_length _ _ 16); [reflexivity|exact Rl|].
    intros i x y Hi Hx Hy.
    apply lookup_replicate in Hy. destruct Hy as [-> _].
    apply list_lookup_total_correct in Hx. subst x.
    set (c := mic_buffer_current w). assert (Hc : 0 <= c < 16) by apply Hw.
    set (j := Z.to_nat ((c + 15 - Z.of_nat i) mod 16)).
    assert (Hj : (j < 16)%nat).
    { subst j. pose proof (Z.mod_pos_bound (c + 15 - Z.of_nat i) 16 ltac:(lia)). lia. }
    pose proof (pushes_slot (replicate 16 v) w Hw j
                  ltac:(rewrite length_replicate; exact Hj) Hj) as S.
    rewrite length_replicate in S. fold c in S.
    assert (I : Z.to_nat ((c + Z.of_nat 16 - 1 - Z.of_nat j) mod 16) = i).
    { subst j. rewrite Z2Nat.id by (apply Z.mod_pos_bound; lia).
      apply Nat2Z.inj. rewrite Z2Nat.id by (apply Z.mod_pos_bound; lia).
      change (Z.of_nat 16) with 16.
      assert (Hi' : 0 <= Z.of_nat i < 16) by lia.
      revert Hi'. generalize (Z.of_nat i). intros k Hk.
      Z.div_mod_to_equations. lia. }
    rewrite I in S. rewrite S.
    assert (N : nth j (rev (replicate 16 v)) 0 = v).
    { change (rev (replicate 16 v)) with (replicate 16 v).
      clear -Hj. do 16 (destruct j as [|j]; [reflexivity|]). lia. }
    rewrite N. unfold u16. apply Z.mod_small. lia. }
  rewrite B. split; [reflexivity|].
  pose proof (mic_mad_replicate v Hv) as Z0. split; [exact Z0|].
  unfold flasher_level. rewrite Z0. reflexivity.
Qed.

Lemma sixteen_equal_samples_go_dark_witness :
  ring_ok (pushes [0; 1023; 0; 1023] power_on) /\ 0 <= 300 < 1024 /\
  flasher_level
    (mic_buffer (pushes (replicate 16 300) (pushes [0; 1023; 0; 1023] power_on))) = 0.
Proof.
  assert (H1 : ring_ok (pushes [0; 1023; 0; 1023] power_on))
    by (split; [reflexivity|vm_compute; split; [discriminate|reflexivity]]).
  assert (H2 : 0 <= 300 < 1024) by lia.
  split; [exact H1|]. split; [exact H2|].
  apply (sixteen_equal_samples_go_dark 300 _ H1 H2).
Defined.

(** ** The random fades of [seq10] and [seq11] *)

Lemma insert_pair_same (D : list Z) (i : nat) : <[i := D !!! i]> D = D.
Proof.
  destruct (D !! i) as [x|] eqn:E.
  - rewrite (list_lookup_total_correct _ _ _ E). apply list_insert_id, E.
  - apply lookup_ge_None in E. apply list_insert_ge. exact E.
Qed.

(** The update of channel [i] changes that channel alone, by its step. *)
Lemma update10_step (D B : list Z) (i : nat) :
  (i < length B)%nat ->
  update10 (D, B) i
  = (<[i := fst (step10 (D !!! i) (B !!! i))]> D,
     <[i := snd (step10 (D !!! i) (B !!! i))]> B).
Proof.
  intros Hi. unfold update10, step10.
  destruct ((D !!! i >? 0) && (B !!! i <? 255)).
  - rewrite list_lookup_total_insert_eq by exact Hi.
    destruct (u8 (B !!! i + 1) >=? 255); cbn [fst snd].
    + rewrite list_insert_insert_eq. reflexivity.
    + rewrite insert_pair_same. reflexivity.
  - destruct (D !!! i <? 0).
    + destruct (B !!! i >? 0).
      * rewrite list_lookup_total_insert_eq by exact Hi.
        destruct (u8 (B !!! i - 1) <=? 0); cbn [fst snd].
        -- rewrite list_insert_insert_eq. reflexivity.
        -- rewrite insert_pair_same. reflexivity.
      * destruct (B !!! i <=? 0); cbn [fst snd].
        -- reflexivity.
        -- rewrite !insert_pair_same. reflexivity.
    + cbn [fst snd]. rewrite !insert_pair_same. reflexivity.
Qed.

Lemma update11_step (D B : list Z) (i : nat) :
  (i < length B)%nat ->
  update11 (D, B) i
  = (<[i := fst (step11 (D !!! i) (B !!! i))]> D,
     <[i := snd (step11 (D !!! i) (B !!! i))]> B).
Proof.
  intros Hi. unfold update11, step11.
  destruct ((D !!! i <? 0) && (B !!! i >? 0)).
  - rewrite list_lookup_total_insert_eq by exact Hi.
    destruct (u8 (B !!! i - 1) <=? 0); cbn [fst snd].
    + rewrite list_insert_insert_eq. reflexivity.
    + rewrite insert_pair_same. reflexivity.
  - destruct (D !!! i >? 0).
    + destruct (B !!! i <? 255).
      * rewrite list_lookup_total_insert_eq by exact Hi.
        destruct (u8 (B !!! i + 1) >=? 255); cbn [fst snd].
        -- rewrite list_insert_insert_eq. reflexivity.
        -- rewrite insert_pair_same. reflexivity.
      * destruct (B !!! i >=? 255); cbn [fst snd].
        -- reflexivity.
        -- rewrite !insert_pair_same. reflexivity.
    + cbn [fst snd]. rewrite !insert_pair_same. reflexivity.
Qed.

Lemma step10_ok (d b : Z) :
  chan10_ok d b ->
  chan10_ok (fst (step10 d b)) (snd (step10 d b)) /\
  Z.abs (snd (step10 d b) - b) <= 1 /\
  (d = 0 -> step10 d b = (d, b)).
Proof.
  unfold chan10_ok, step10, u8.
  intros [[-> ->]|[[-> H]|[-> H]]].
  - cbn. split; [left; split; reflexivity|]. split; [lia|reflexivity].
  - change (1 >? 0) with true. destruct (Z.ltb_spec b 255); [|lia]. cbn [andb].
    rewrite Z.mod_small by lia.
    destruct (Z.geb_spec (b + 1) 255); cbn [fst snd]; (split; [|split; [|lia]]); lia.
  - change (-1 >? 0) with false. cbn [andb]. change (-1 <? 0) with true. cbv iota.
    destruct (Z.gtb_spec b 0); [|lia]. rewrite Z.mod_small by lia.
    destruct (Z.leb_spec (b - 1) 0); cbn [fst snd]; (split; [|split; [|lia]]); lia.
Qed.

Lemma step11_ok (d b : Z) :
  chan11_ok d b ->
  chan11_ok (fst (step11 d b)) (snd (step11 d b)) /\
  Z.abs (snd (step11 d b) - b) <= 1 /\
  (d = 0 -> step11 d b = (d, b)).
Proof.
  unfold chan11_ok, step11, u8.
  intros [[-> ->]|[[-> H]|[-> H]]].
  - cbn. split; [left; split; reflexivity|]. split; [lia|reflexivity].
  - change (-1 <? 0) with true. destruct (Z.gtb_spec b 0); [|lia]. cbn [andb].
    rewrite Z.mod_small by lia.
    destruct (Z.leb_spec (b - 1) 0); cbn [fst snd]; (split; [|split; [|lia]]); lia.
  - change (1 <? 0) with false. cbn [andb]. change (1 >? 0) with true. cbv iota.
    destruct (Z.ltb_spec b 255); [|lia]. rewrite Z.mod_small by lia.
    destruct (Z.geb_spec (b + 1) 255); cbn [fst snd]; (split; [|split; [|lia]]); lia.
Qed.

Lemma four {A} (l : list A) :
  length l = 4%nat -> exists a b c d, l = [a; b; c; d].
Proof.
  intros H. do 4 (destruct l as [|? l]; [discriminate H|]).
  destruct l; [|discriminate H]. repeat eexists.
Qed.

Section Fade.

Context (hw : Hardware) (update : leds_state -> nat -> leds_state)
        (step : Z -> Z -> Z * Z) (chan_ok : Z -> Z -> Prop) (odds dir : Z).

Hypothesis update_step : forall (D B : list Z) (i : nat),
  (i < length B)%nat ->
  update (D, B) i
  = (<[i := fst (step (D !!! i) (B !!! i))]> D,
     <[i := snd (step (D !!! i) (B !!! i))]> B).

Hypothesis step_ok : forall d b,
  chan_ok d b ->
  chan_ok (fst (step d b)) (snd (step d b)) /\
  Z.abs (snd (step d b) - b) <= 1 /\
  (d = 0 -> step d b = (d, b)).

Hypothesis chan_byte : forall d b, chan_ok d b -> 0 <= b <= 255.
Hypothesis chan_start : forall b, chan_ok 0 b -> chan_ok dir b.

(** One pass of the update loop over the four channels. *)
Lemma update_pass (st : leds_state) :
  fade_ok chan_ok st ->
  fade_ok chan_ok (fold_left update (seq 0 4) st) /\
  forall i, (i < 4)%nat ->
    Z.abs (snd (fold_left update (seq 0 4) st) !!! i - snd st !!! i) <= 1 /\
    (fst st !!! i = 0 ->
     fst (fold_left update (seq 0 4) st) !!! i = 0 /\
     snd (fold_left update (seq 0 4) st) !!! i = snd st !!! i).
Proof.
  destruct st as [D B]. intros (HD & HB & Hok). cbn [fst snd] in *.
  destruct (four D HD) as (d0 & d1 & d2 & d3 & ->).
  destruct (four B HB) as (b0 & b1 & b2 & b3 & ->).
  pose proof (Hok 0%nat ltac:(lia)) as K0. pose proof (Hok 1%nat ltac:(lia)) as K1.
  pose proof (Hok 2%nat ltac:(lia)) as K2. pose proof (Hok 3%nat ltac:(lia)) as K3.
  cbn in K0, K1, K2, K3.
  destruct (step_ok _ _ K0) as (A0 & B0 & C0). destruct (step_ok _ _ K1) as (A1 & B1 & C1).
  destruct (step_ok _ _ K2) as (A2 & B2 & C2). destruct (step_ok _ _ K3) as (A3 & B3 & C3).
  assert (F : fold_left update (seq 0 4) ([d0; d1; d2; d3], [b0; b1; b2; b3])
              = ([fst (step d0 b0); fst (step d1 b1); fst (step d2 b2); fst (step d3 b3)],
                 [snd (step d0 b0); snd (step d1 b1); snd (step d2 b2); snd (step d3 b3)])).
  { cbn [fold_left seq].
    rewrite update_step by (cbn; lia). cbn.
    rewrite update_step by (cbn; lia). cbn.
    rewrite update_step by (cbn; lia). cbn.
    rewrite update_step by (cbn; lia). cbn. reflexivity. }
  rewrite F. cbn [fst snd]. split.
  - split; [reflexivity|]. split; [reflexivity|].
    intros i Hi. destruct i as [|[|[|[|i]]]]; cbn; try assumption. lia.
  - intros i Hi. destruct i as [|[|[|[|i]]]]; cbn; try lia.
    + split; [exact B0|]. intros E. rewrite (C0 E). split; [exact E|reflexivity].
    + split; [exact B1|]. intros E. rewrite (C1 E). split; [exact E|reflexivity].
    + split; [exact B2|]. intros E. rewrite (C2 E). split; [exact E|reflexivity].
    + split; [exact B3|]. intros E. rewrite (C3 E). split; [exact E|reflexivity].
Qed.

Lemma fade_ok_start (D B : list Z) (led : nat) :
  fade_ok chan_ok (D, B) -> D !!! led = 0 ->
  fade_ok chan_ok (<[led := dir]> D, B).
Proof.
  intros (HD & HB & Hok) E. unfold fade_ok. cbn [fst snd] in *.
  split; [rewrite length_insert; exact HD|]. split; [exact HB|].
  intros i Hi. cbn [fst snd].
  destruct (Nat.eq_dec led i) as [->|N].
  - rewrite list_lookup_total_insert_eq by lia.
    apply chan_start. rewrite <- E. apply Hok, Hi.
  - rewrite list_lookup_total_insert_ne by exact N. apply Hok, Hi.
Qed.

Lemma random_body_fade (st st' : leds_state) (w w' : World) :
  fade_ok chan_ok st ->
  random_body hw update odds dir st w = Done st' w' ->
  fade_ok chan_ok st' /\
  regs w' = (snd st' !!! 0%nat, snd st' !!! 1%nat,
             snd st' !!! 3%nat, snd st' !!! 2%nat) /\
  forall i, (i < 4)%nat ->
    Z.abs (snd st' !!! i - snd st !!! i) <= 1 /\
    (fst st !!! i = 0 -> snd st' !!! i = snd st !!! i).
Proof.
  intros Hok. destruct (update_pass st Hok) as (Hok' & Hstep).
  unfold random_body. unfold bind at 1.
  destruct (poll hw w) as [u w1| | |]; try discriminate.
  destruct (fold_left update (seq 0 4) st) as [D' B'].
  cbn [fst snd] in Hstep.
  assert (Hb : forall i, (i < 4)%nat -> u8 (B' !!! i) = B' !!! i).
  { intros i Hi. destruct Hok' as (_ & _ & K). specialize (K i Hi).
    apply chan_byte in K. cbn [snd] in K. unfold u8. apply Z.mod_small. lia. }
  intros E.
  assert (G : exists D'', st' = (D'', B') /\
                          (D'' = D' \/ exists led, D' !!! led = 0 /\ D'' = <[led := dir]> D') /\
                          regs w' = (B' !!! 0%nat, B' !!! 1%nat, B' !!! 3%nat, B' !!! 2%nat)).
  { revert E. unfold write, effect, bind, ret, rand.
    destruct (Z.rem _ odds =? 0).
    - match goal with
      | |- context [D' !!! ?k =? 0] =>
          destruct (Z.eqb_spec (D' !!! k) 0) as [Z0|Z0]
      end; intros E; injection E as <- <-.
      + eexists. split; [reflexivity|]. split; [right; eexists; split; [exact Z0|reflexivity]|].
        unfold regs. cbn. rewrite !Hb by lia. reflexivity.
      + eexists. split; [reflexivity|]. split; [left; reflexivity|].
        unfold regs. cbn. rewrite !Hb by lia. reflexivity.
    - intros E; injection E as <- <-.
      eexists. split; [reflexivity|]. split; [left; reflexivity|].
      unfold regs. cbn. rewrite !Hb by lia. reflexivity. }
  destruct G as (D'' & -> & HD & HR). cbn [fst snd].
  split; [|split; [exact HR|]].
  - destruct HD as [->|(led & Z0 & ->)]; [exact Hok'|].
    apply fade_ok_start; assumption.
  - intros i Hi. destruct (Hstep i Hi) as [S1 S2].
    split; [exact S1|]. intros E0. apply (S2 E0).
Qed.

End Fade.

Lemma chan10_byte (d b : Z) : chan10_ok d b -> 0 <= b <= 255.
Proof. unfold chan10_ok. lia. Qed.

Lemma chan11_byte (d b : Z) : chan11_ok d b -> 0 <= b <= 255.
Proof. unfold chan11_ok. lia. Qed.

(** In [seq10], where every channel starts idle and dark, each channel
    is at every pass idle and dark, rising below full brightness or
    falling above zero; in one pass no channel's brightness moves by more
    than one unit and an idle channel stays as it is; the brightness
    bytes never wrap; and the four compare registers are left holding the
    four brightness values ([OCR1A] the third, [OCR1B] the fourth). *)
Theorem seq10_fades_smoothly (hw : Hardware) (st st' : leds_state)
    (w w' : World) :
  fade_ok chan10_ok st ->
  random_body hw update10 50 1 st w = Done st' w' ->
  fade_ok chan10_ok ([0; 0; 0; 0], [0; 0; 0; 0]) /\
  fade_ok chan10_ok st' /\
  regs w' = (snd st' !!! 0%nat, snd st' !!! 1%nat,
             snd st' !!! 3%nat, snd st' !!! 2%nat) /\
  forall i, (i < 4)%nat ->
    0 <= snd st' !!! i <= 255 /\
    Z.abs (snd st' !!! i - snd st !!! i) <= 1 /\
    (fst st !!! i = 0 -> snd st' !!! i = 0).
Proof.
  intros Hok E.
  destruct (random_body_fade hw update10 step10 chan10_ok 50 1
              update10_step step10_ok chan10_byte
              ltac:(unfold chan10_ok; intros; lia) st st' w w' Hok E)
    as (Hok' & R & Hs).
  split.
  { split; [reflexivity|]. split; [reflexivity|].
    intros i Hi. destruct i as [|[|[|[|i]]]]; cbn; try lia; left; split; reflexivity. }
  split; [exact Hok'|]. split; [exact R|].
  intros i Hi. destruct (Hs i Hi) as [S1 S2].
  split; [apply (chan10_byte (fst st' !!! i)), Hok', Hi|].
  split; [exact S1|]. intros E0. rewrite (S2 E0).
  destruct Hok as (_ & _ & K). specialize (K i Hi). unfold chan10_ok in K. lia.
Qed.

Lemma seq10_fades_smoothly_witness :
  fade_ok chan10_ok ([0; 0; 0; 0], [0; 0; 0; 0]) /\
  exists st' w',
    random_body bench update10 50 1 ([0; 0; 0; 0], [0; 0; 0; 0]) power_on
      = Done st' w' /\
    fade_ok chan10_ok st'.
Proof.
  assert (H : fade_ok chan10_ok ([0; 0; 0; 0], [0; 0; 0; 0])).
  { split; [reflexivity|]. split; [reflexivity|].
    intros i Hi. destruct i as [|[|[|[|i]]]]; cbn; try lia; left; split; reflexivity. }
  assert (E : random_body bench update10 50 1 ([0; 0; 0; 0], [0; 0; 0; 0]) power_on
              = Done ([0; 1; 0; 0], [0; 0; 0; 0])
                     (world_of (random_body bench update10 50 1
                                  ([0; 0; 0; 0], [0; 0; 0; 0]) power_on)))
    by (vm_compute; reflexivity).
  split; [exact H|]. eexists; eexists. split; [exact E|].
  apply (seq10_fades_smoothly bench _ _ _ _ H E).
Defined.

(** In [seq11], where every channel starts idle at full brightness, each
    channel is at every pass idle and full, falling above zero or rising
    below full; in one pass no channel's brightness moves by more than
    one unit and an idle channel stays at full; the brightness bytes
    never wrap; and the compare registers hold the four values. *)
Theorem seq11_fades_smoothly (hw : Hardware) (st st' : leds_state)
    (w w' : World) :
  fade_ok chan11_ok st ->
  random_body hw update11 100 (-1) st w = Done st' w' ->
  fade_ok chan11_ok ([0; 0; 0; 0], [255; 255; 255; 255]) /\
  fade_ok chan11_ok st' /\
  regs w' = (snd st' !!! 0%nat, snd st' !!! 1%nat,
             snd st' !!! 3%nat, snd st' !!! 2%nat) /\
  forall i, (i < 4)%nat ->
    0 <= snd st' !!! i <= 255 /\
    Z.abs (snd st' !!! i - snd st !!! i) <= 1 /\
    (fst st !!! i = 0 -> snd st' !!! i = 255).
Proof.
  intros Hok E.
  destruct (random_body_fade hw update11 step11 chan11_ok 100 (-1)
              update11_step step11_ok chan11_byte
              ltac:(unfold chan11_ok; intros; lia) st st' w w' Hok E)
    as (Hok' & R & Hs).
  split.
  { split; [reflexivity|]. split; [reflexivity|].
    intros i Hi. destruct i as [|[|[|[|i]]]]; cbn; try lia; left; split; reflexivity. }
  split; [exact Hok'|]. split; [exact R|].
  intros i Hi. destruct (Hs i Hi) as [S1 S2].
  split; [apply (chan11_byte (fst st' !!! i)), Hok', Hi|].
  split; [exact S1|]. intros E0. rewrite (S2 E0).
  destruct Hok as (_ & _ & K). specialize (K i Hi). unfold chan11_ok in K. lia.
Qed.

Lemma seq11_fades_smoothly_witness :
  fade_ok chan11_ok ([0; 0; 0; 0], [255; 255; 255; 255]) /\
  exists st' w',
    random_body bench update11 100 (-1) ([0; 0; 0; 0], [255; 255; 255; 255]) power_on
      = Done st' w' /\
    fade_ok chan11_ok st'.
Proof.
  assert (H : fade_ok chan11_ok ([0; 0; 0; 0], [255; 255; 255; 255])).
  { split; [reflexivity|]. split; [reflexivity|].
    intros i Hi. destruct i as [|[|[|[|i]]]]; cbn; try lia; left; split; reflexivity. }
  assert (E : random_body bench update11 100 (-1)
                ([0; 0; 0; 0], [255; 255; 255; 255]) power_on
              = Done ([0; -1; 0; 0], [255; 255; 255; 255])
                     (world_of (random_body bench update11 100 (-1)
                                  ([0; 0; 0; 0], [255; 255; 255; 255]) power_on))).
  { vm_compute. reflexivity. }
  split; [exact H|]. eexists; eexists. split; [exact E|].
  apply (seq11_fades_smoothly bench _ _ _ _ H E).
Defined.

(** The channel alone, pass after pass. *)
Lemma update_iter (update : leds_state -> nat -> leds_state)
    (step : Z -> Z -> Z * Z) (i n : nat) (D B : list Z) :
  (forall (D B : list Z) (i : nat), (i < length B)%nat ->
     update (D, B) i = (<[i := fst (step (D !!! i) (B !!! i))]> D,
                        <[i := snd (step (D !!! i) (B !!! i))]> B)) ->
  (i < length D)%nat -> (i < length B)%nat ->
  Nat.iter n (fun st => update st i) (D, B)
  = (<[i := fst (passes step n (D !!! i, B !!! i))]> D,
     <[i := snd (passes step n (D !!! i, B !!! i))]> B).
Proof.
  intros Hu HD HB. induction n as [|n IH].
  - cbn. rewrite !insert_pair_same. reflexivity.
  - rewrite Nat.iter_succ, IH. rewrite Hu by (rewrite length_insert; exact HB).
    rewrite !list_lookup_total_insert_eq by assumption.
    rewrite !list_insert_insert_eq. unfold passes. rewrite Nat.iter_succ.
    reflexivity.
Qed.

Lemma pair_eqb_eq (p q : Z * Z) : pair_eqb p q = true -> p = q.
Proof.
  destruct p, q. unfold pair_eqb. cbn [fst snd]. intros H.
  apply andb_true_iff in H. destruct H as [H1 H2].
  apply Z.eqb_eq in H1, H2. congruence.
Qed.

Lemma passes_pulse10 (n : nat) :
  (n <= 600)%nat -> passes step10 n (1, 0) = pulse10 (Z.of_nat n).
Proof.
  intros Hn.
  assert (A : forallb (fun k => pair_eqb (passes step10 k (1, 0)) (pulse10 (Z.of_nat k)))
                      (seq 0 601) = true) by (vm_compute; reflexivity).
  rewrite forallb_forall in A. apply pair_eqb_eq, A, in_seq. lia.
Qed.

Lemma passes_dip11 (n : nat) :
  (n <= 600)%nat -> passes step11 n (-1, 255) = dip11 (Z.of_nat n).
Proof.
  intros Hn.
  assert (A : forallb (fun k => pair_eqb (passes step11 k (-1, 255)) (dip11 (Z.of_nat k)))
                      (seq 0 601) = true) by (vm_compute; reflexivity).
  rewrite forallb_forall in A. apply pair_eqb_eq, A, in_seq. lia.
Qed.

(** A channel of [seq10] that has just been started (direction 1,
    brightness 0) runs one complete pulse: its brightness is [n] after
    [n] passes up to 255, then [510 - n], and after 510 passes it is dark
    and idle again, ready to be started anew; the other channels are not
    touched by its updates.  A channel of [seq11] that has just been
    started (direction -1, brightness 255) runs the mirror image and is
    idle at full brightness after 510 passes. *)
Theorem started_channel_completes_its_pulse (i n : nat) (D B : list Z) :
  (i < length D)%nat -> (i < length B)%nat -> (n <= 600)%nat ->
  (D !!! i = 1 -> B !!! i = 0 ->
   Nat.iter n (fun st => update10 st i) (D, B)
   = (<[i := fst (pulse10 (Z.of_nat n))]> D,
      <[i := snd (pulse10 (Z.of_nat n))]> B)) /\
  (D !!! i = -1 -> B !!! i = 255 ->
   Nat.iter n (fun st => update11 st i) (D, B)
   = (<[i := fst (dip11 (Z.of_nat n))]> D,
      <[i := snd (dip11 (Z.of_nat n))]> B)).
Proof.
  intros HD HB Hn. split; intros Ed Eb.
  - rewrite (update_iter update10 step10 i n D B update10_step HD HB).
    rewrite Ed, Eb, (passes_pulse10 n Hn). reflexivity.
  - rewrite (update_iter update11 step11 i n D B update11_step HD HB).
    rewrite Ed, Eb, (passes_dip11 n Hn). reflexivity.
Qed.

Lemma started_channel_completes_its_pulse_witness :
  (2 < length [0; 0; 1; 0])%nat /\ (2 < length [0; 0; 0; 0])%nat /\
  (510 <= 600)%nat /\
  Nat.iter 510 (fun st => update10 st 2%nat) ([0; 0; 1; 0], [0; 0; 0; 0])
  = ([0; 0; 0; 0], [0; 0; 0; 0]).
Proof.
  assert (H1 : (2 < length [0; 0; 1; 0])%nat) by (cbn; lia).
  assert (H2 : (2 < length [0; 0; 0; 0])%nat) by (cbn; lia).
  assert (H3 : (510 <= 600)%nat) by lia.
  split; [exact H1|]. split; [exact H2|]. split; [exact H3|].
  exact (proj1 (started_channel_completes_its_pulse 2 510 [0; 0; 1; 0] [0; 0; 0; 0]
                  H1 H2 H3) eq_refl eq_refl).
Defined.

(** ** The emulated PWM pin from any level *)

(** All 256 duty values, through a whole period that begins with the pin
    high. *)
Lemma period_run_high late d :
  0 <= d <= 255 ->
  pin_run late d 256 0 true = (false, if late then d + 1 else d).
Proof.
  intros Hd.
  assert (A : forallb (fun k => result_eqb (pin_run late (Z.of_nat k) 256 0 true)
                                           (false, if late then Z.of_nat k + 1
                                                   else Z.of_nat k))
                      (seq 0 256) = true).
  { destruct late; vm_compute; reflexivity. }
  rewrite forallb_forall in A.
  assert (I : In (Z.to_nat d) (seq 0 256)) by (apply in_seq; lia).
  apply A in I. rewrite Z2Nat.id in I by lia.
  apply result_eqb_eq, I.
Qed.

(** The pin cannot stay stuck high.  A period of timer 1 that begins with
    the pin high (as when the foreground lowers the duty register below
    the counter in mid-period, so that the compare match of that period
    is missed) clears it at the compare match, also for a duty value in
    the dead zone: the pin is high for the first [d] counts only (one
    more when the handler's effect shows late) and low at the end of the
    period, so the periods that follow find the pin low.  The other port
    bits and the duty register are left as they were. *)
Theorem pwm_pin_recovers_from_high (late : bool) (d : Z) (w : World) :
  0 <= d <= 255 ->
  OCR1A w = d ->
  pin_high w = true ->
  pin_high (fst (timer1_period late w)) = false /\
  snd (timer1_period late w) = (if late then d + 1 else d) /\
  OCR1A (fst (timer1_period late w)) = d /\
  other_bits w (fst (timer1_period late w)).
Proof.
  intros Hd Ho Hp. unfold timer1_period.
  pose proof (timer1_run_pin late 256 0 w) as H.
  destruct (timer1_run late 256 0 w) as [w' high]. cbn [fst snd] in *.
  destruct H as (E & O & P).
  rewrite Ho, Hp, (period_run_high late d Hd) in P.
  injection P as P1 P2.
  split; [exact P1|]. split; [exact P2|]. split; [congruence|exact O].
Qed.

Lemma pwm_pin_recovers_from_high_witness :
  0 <= 3 <= 255 /\
  OCR1A (set_PORTB 8 (set_OCR1A 3 power_on)) = 3 /\
  pin_high (set_PORTB 8 (set_OCR1A 3 power_on)) = true /\
  pin_high (fst (timer1_period false (set_PORTB 8 (set_OCR1A 3 power_on)))) = false.
Proof.
  assert (H1 : 0 <= 3 <= 255) by lia.
  assert (H2 : OCR1A (set_PORTB 8 (set_OCR1A 3 power_on)) = 3) by reflexivity.
  assert (H3 : pin_high (set_PORTB 8 (set_OCR1A 3 power_on)) = true) by reflexivity.
  split; [exact H1|]. split; [exact H2|]. split; [exact H3|].
  apply (pwm_pin_recovers_from_high false 3 _ H1 H2 H3).
Defined.

(** ** The stored settings *)

Lemma config_settings (w1 w2 : World) :
  config w1 = config w2 ->
  settings_start_seq w1 = settings_start_seq w2 /\
  settings_start_seq_ee w1 = settings_start_seq_ee w2 /\
  wdt w1 = wdt w2.
Proof. unfold config. intros H. injection H. auto. Qed.

Lemma frugal_plain A (c : M A) :
  (forall w, wf w -> exists a w',
      c w = Done a w' /\ wf w' /\
      settings_start_seq w' = settings_start_seq w /\
      settings_start_seq_ee w' = settings_start_seq_ee w /\
      wdt w' = wdt w) ->
  frugal c.
Proof.
  intros H w Hw. destruct (H w Hw) as (a & w' & -> & Hw' & H1 & H2 & H3).
  cbn [world_of]. auto.
Qed.

Lemma frugal_ret A (a : A) : frugal (ret a).
Proof. apply frugal_plain. intros w Hw. exists a, w. auto. Qed.

Lemma frugal_return A (v : Z) : frugal (@return_ A v).
Proof. intros w Hw. cbn. auto. Qed.

Lemma frugal_bind A B (c : M A) (f : A -> M B) :
  frugal c -> (forall a, frugal (f a)) -> frugal (bind c f).
Proof.
  intros Hc Hf w Hw. specialize (Hc w Hw). unfold bind.
  destruct (c w) as [a w1|v w1|w1|w1]; cbn [world_of] in *; try exact Hc.
  destruct Hc as (Hw1 & S1 & E1 & W1). specialize (Hf a w1 Hw1).
  destruct (f a w1) as [b w2|v w2|w2|w2]; cbn [world_of] in *.
  - destruct Hf as (? & ? & ? & ?).
    split; [assumption|]. split; [congruence|]. split; congruence.
  - destruct Hf as (? & ? & ? & ?).
    split; [assumption|]. split; [congruence|]. split; congruence.
  - destruct Hf as (? & ?). split; congruence.
  - destruct Hf as (? & ? & ? & ?).
    split; [assumption|]. split; [congruence|]. split; congruence.
Qed.

Lemma frugal_while S n cond (body : S -> M S) s :
  (forall s, frugal (body s)) -> frugal (while_ n cond body s).
Proof.
  intros Hb. revert s. induction n as [|n IH]; intros s w Hw.
  - cbn. auto.
  - cbn [while_]. destruct (cond s w).
    + apply (frugal_bind _ _ (body s) (while_ n cond body) (Hb s) IH w Hw).
    + cbn. auto.
Qed.

Lemma frugal_rounds S n i d (body : Z -> S -> M S) s :
  (forall i s, frugal (body i s)) -> frugal (rounds n i d body s).
Proof.
  intros Hb. revert i s. induction n as [|n IH]; intros i s; cbn [rounds].
  - apply frugal_ret.
  - apply frugal_bind; [apply Hb|intros; apply IH].
Qed.

Lemma frugal_fn (c : M Z) : frugal c -> frugal (fn c).
Proof.
  intros Hc w Hw. specialize (Hc w Hw). unfold fn.
  destruct (c w); exact Hc.
Qed.

Section Frugal.

Context (hw : Hardware).

Lemma frugal_read A (f : World -> A) : frugal (read f).
Proof. apply frugal_plain. intros w Hw. exists (f w), w. auto. Qed.

Lemma frugal_write r v : frugal (write r v).
Proof.
  apply frugal_plain. intros w Hw.
  pose proof (step0_wf hw _ _ (step0_write hw r v) w Hw) as Hw'.
  eexists; eexists. split; [reflexivity|]. split; [exact Hw'|].
  destruct r; repeat split; reflexivity.
Qed.

Lemma frugal_delay n : frugal (_delay_ms hw n).
Proof.
  apply frugal_plain. intros w Hw.
  pose proof (step0_wf hw _ _ (step0_delay hw n) w Hw) as Hw'.
  destruct (delay_ms_eq hw n w) as (w' & E & _ & _ & _ & _ & C).
  rewrite E in Hw'. exists tt, w'. split; [exact E|]. split; [exact Hw'|].
  apply config_settings, C.
Qed.

Lemma frugal_mic : frugal (adc_read hw 1).
Proof.
  apply frugal_plain. intros w Hw.
  pose proof (step0_wf hw _ _ (step0_adc hw 1 ltac:(lia)) w Hw) as Hw'.
  destruct (adc_read_eq hw 1 w (proj2 Hw) ltac:(lia)) as (w' & E & _ & _ & _ & _ & C).
  rewrite E in Hw'. eexists; exists w'. split; [exact E|]. split; [exact Hw'|].
  apply config_settings, C.
Qed.

Lemma frugal_rand : frugal (rand hw).
Proof.
  apply frugal_plain. intros w Hw.
  pose proof (step0_wf hw _ _ (step0_rand hw) w Hw) as Hw'.
  eexists; eexists. split; [reflexivity|]. split; [exact Hw'|].
  repeat split; reflexivity.
Qed.

Lemma frugal_push v : frugal (push_sample v).
Proof.
  apply frugal_plain. intros w Hw.
  pose proof (step0_wf hw _ _ (step0_push hw v) w Hw) as Hw'.
  eexists; eexists. split; [reflexivity|]. split; [exact Hw'|].
  repeat split; reflexivity.
Qed.

Lemma frugal_init_mic : frugal init_mic_buffer.
Proof.
  apply frugal_plain. intros w Hw.
  pose proof (step0_wf hw _ _ (step0_init_mic hw) w Hw) as Hw'.
  eexists; eexists. split; [reflexivity|]. split; [exact Hw'|].
  repeat split; reflexivity.
Qed.

Lemma frugal_check : frugal (check_button_input hw).
Proof.
  intros w Hw. pose proof (check_wf hw w Hw) as Hw'.
  destruct (check_button_input_cases hw w (proj2 Hw)) as (w' & _ & H).
  destruct (analog hw 0 (now w) <? 1000);
    [destruct (analog hw 0 (t_resample hw (now w)) <? 1000);
       [destruct (analog hw 0 (t_hold hw (now w)) <? 1000)|]|].
  - destruct H as (E & _ & _ & S & W). rewrite E. split; assumption.
  - destruct H as (E & _ & _ & _ & C). rewrite E in *. cbn [world_of] in *.
    split; [exact Hw'|]. apply config_settings, C.
  - destruct H as (E & _ & _ & _ & C). rewrite E in *. cbn [world_of] in *.
    split; [exact Hw'|]. apply config_settings, C.
  - destruct H as (E & _ & _ & _ & C). rewrite E in *. cbn [world_of] in *.
    split; [exact Hw'|]. apply config_settings, C.
Qed.

Ltac frugal_go :=
  repeat match goal with
    | |- frugal (ret _) => apply frugal_ret
    | |- frugal (return_ _) => apply frugal_return
    | |- frugal (bind _ _) => apply frugal_bind; [|intros]
    | |- frugal (while_ _ _ _ _) => apply frugal_while; intros
    | |- frugal (rounds _ _ _ _ _) => apply frugal_rounds; intros
    | |- frugal (fn _) => apply frugal_fn
    | |- frugal (read _) => apply frugal_read
    | |- frugal (write _ _) => apply frugal_write
    | |- frugal (_delay_ms _ _) => apply frugal_delay
    | |- frugal (rand _) => apply frugal_rand
    | |- frugal (push_sample _) => apply frugal_push
    | |- frugal init_mic_buffer => apply frugal_init_mic
    | |- frugal (adc_read _ 1) => apply frugal_mic
    | |- frugal (check_button_input _) => apply frugal_check
    | |- frugal (match ?x with _ => _ end) => destruct x
    | |- frugal _ =>
        progress unfold bump, write_all, bump_all, fade_in, fade_out, flash,
          hand_off, chase, hold, drift, for_lt, for_le, for_gt, for_ge,
          get_mic_buffer_mad, seq8_prelude, poll, wait_poll,
          delay_millis_check_button, sequence
    end.

Lemma frugal_poll : frugal (poll hw).
Proof. frugal_go. Qed.

Lemma frugal_wait fuel d : frugal (wait_poll hw fuel d).
Proof. frugal_go. Qed.

Ltac frugal_seq :=
  repeat match goal with
    | |- frugal (poll _) => apply frugal_poll
    | |- frugal (wait_poll _ _ _) => apply frugal_wait
    | |- frugal (ret _) => apply frugal_ret
    | |- frugal (bind _ _) => apply frugal_bind; [|intros]
    | |- frugal (while_ _ _ _ _) => apply frugal_while; intros
    | |- frugal (rounds _ _ _ _ _) => apply frugal_rounds; intros
    | |- frugal (fn _) => apply frugal_fn
    | |- frugal (read _) => apply frugal_read
    | |- frugal (write _ _) => apply frugal_write
    | |- frugal (_delay_ms _ _) => apply frugal_delay
    | |- frugal (rand _) => apply frugal_rand
    | |- frugal (push_sample _) => apply frugal_push
    | |- frugal init_mic_buffer => apply frugal_init_mic
    | |- frugal (adc_read _ 1) => apply frugal_mic
    | |- frugal (match ?x with _ => _ end) => destruct x
    | |- frugal _ =>
        progress unfold bump, write_all, bump_all, fade_in, fade_out, flash,
          hand_off, chase, hold, drift, for_lt, for_le, for_gt, for_ge,
          get_mic_buffer_mad, seq8_prelude, sequence
    end.

Lemma frugal_seq1 fuel t : frugal (seq1 hw fuel t).
Proof. unfold seq1, seq1_body. frugal_seq. Qed.
Lemma frugal_seq2 fuel t : frugal (seq2 hw fuel t).
Proof. unfold seq2, seq2_body. frugal_seq. Qed.
Lemma frugal_seq3 fuel t : frugal (seq3 hw fuel t).
Proof. unfold seq3, seq3_body. frugal_seq. Qed.
Lemma frugal_seq4 fuel t : frugal (seq4 hw fuel t).
Proof. unfold seq4, seq4_body. frugal_seq. Qed.
Lemma frugal_seq5 fuel t : frugal (seq5 hw fuel t).
Proof. unfold seq5, seq5_body. frugal_seq. Qed.
Lemma frugal_seq6 fuel t : frugal (seq6 hw fuel t).
Proof. unfold seq6, seq6_body. frugal_seq. Qed.
Lemma frugal_seq7 fuel t : frugal (seq7 hw fuel t).
Proof. unfold seq7, seq7_body. frugal_seq. Qed.
Lemma frugal_seq8 fuel t : frugal (seq8 hw fuel t).
Proof. unfold seq8, seq8_body. frugal_seq. Qed.
Lemma frugal_seq9 fuel t : frugal (seq9 hw fuel t).
Proof. unfold seq9, seq9_body. frugal_seq. Qed.
Lemma frugal_seq10 fuel t : frugal (seq10 hw fuel t).
Proof. unfold seq10, random_body. frugal_seq. Qed.
Lemma frugal_seq11 fuel t : frugal (seq11 hw fuel t).
Proof. unfold seq11, random_body. frugal_seq. Qed.
Lemma frugal_seq12 fuel t : frugal (seq12 hw fuel t).
Proof. unfold seq12, seq12_body. frugal_seq. Qed.

Lemma led_sequences_frugal s fuel t :
  In s (led_sequences hw) -> frugal (s fuel t).
Proof.
  unfold led_sequences. cbn [In].
  intros [<-|[<-|[<-|[<-|[<-|[<-|[<-|[<-|[<-|[<-|[<-|[<-|[]]]]]]]]]]]]].
  - apply frugal_seq1.
  - apply frugal_seq2.
  - apply frugal_seq3.
  - apply frugal_seq4.
  - apply frugal_seq5.
  - apply frugal_seq6.
  - apply frugal_seq7.
  - apply frugal_seq8.
  - apply frugal_seq9.
  - apply frugal_seq10.
  - apply frugal_seq11.
  - apply frugal_seq12.
Qed.

End Frugal.

(** No sequence changes the start sequence held in RAM. *)
Lemma led_sequences_keep_start (hw : Hardware) (s : nat -> Z -> M Z)
    (fuel : nat) (timeout : Z) (w : World) :
  In s (led_sequences hw) ->
  settings_start_seq (world_of (s fuel timeout w)) = settings_start_seq w.
Proof.
  intros Hin.
  destruct (led_sequences_built hw s Hin fuel timeout) as (c & -> & Hc).
  apply (keeps_fn (fun x => settings_start_seq x = settings_start_seq w)); [|reflexivity].
  apply (keeps_built (step0 hw)); [|apply built_lower, Hc].
  intros A c0 H w0 E. destruct H; cbn; try exact E.
  - destruct r; exact E.
  - destruct (elapse_shape (ms_ovf hw (now w0) n) w0) as (t & m & ->). exact E.
  - destruct (elapse_shape (adc_ovf hw (now w0))
                (set_ADMUX (Z.lor (Z.land (ADMUX w0) 248) ch) w0)) as (t & m & Q).
    cbn in Q. rewrite Q. exact E.
  - unfold spin_forever. destruct (wdt w0); exact E.
Qed.

(** Only a long press touches the stored settings.  However a sequence
    ends, it has not changed the start sequence held in RAM; unless it
    ends in a restart it has written nothing to the EEPROM and has not
    armed the watchdog; and when it ends in a restart (three low button
    samples in one call of the monitor) the EEPROM holds the start
    sequence from RAM and the watchdog is armed with the 30 ms
    timeout. *)
Theorem only_long_press_saves_settings (hw : Hardware) (s : nat -> Z -> M Z)
    (fuel : nat) (timeout : Z) (w : World) :
  In s (led_sequences hw) ->
  wf w ->
  settings_start_seq (world_of (s fuel timeout w)) = settings_start_seq w /\
  match s fuel timeout w with
  | Restart w' =>
      settings_start_seq_ee w' = settings_start_seq w /\
      wdt w' = Some WDTO_30MS
  | o =>
      settings_start_seq_ee (world_of o) = settings_start_seq_ee w /\
      wdt (world_of o) = wdt w
  end.
Proof.
  intros Hin Hw. pose proof (led_sequences_frugal hw s fuel timeout Hin w Hw) as F.
  split; [apply (led_sequences_keep_start hw), Hin|].
  destruct (s fuel timeout w) as [r w'|v w'|w'|w'] eqn:O; cbn [world_of] in *;
    try (destruct F as (_ & _ & F1 & F2); split; assumption).
  exact F.
Qed.

Lemma only_long_press_saves_settings_witness :
  In (seq1 held) (led_sequences held) /\ wf (set_settings_start_seq 7 power_on) /\
  exists w',
    seq1 held 3000 (-1) (set_settings_start_seq 7 power_on) = Restart w' /\
    settings_start_seq_ee w' = 7.
Proof.
  assert (H1 : In (seq1 held) (led_sequences held))
    by (unfold led_sequences; cbn [In]; tauto).
  assert (H2 : wf (set_settings_start_seq 7 power_on)) by exact power_on_wf.
  split; [exact H1|]. split; [exact H2|].
  pose proof (only_long_press_saves_settings held (seq1 held) 3000 (-1)
                (set_settings_start_seq 7 power_on) H1 H2) as [_ H].
  assert (E : seq1 held 3000 (-1) (set_settings_start_seq 7 power_on)
              = Restart (world_of (seq1 held 3000 (-1)
                                     (set_settings_start_seq 7 power_on))))
    by (vm_compute; reflexivity).
  rewrite E in H. eexists. split; [exact E|]. apply H.
Defined.

(** ** The main program *)

Lemma bind_ext {A B} (c : M A) (f g : A -> M B) (w : World) :
  (forall a w', f a w' = g a w') -> bind c f w = bind c g w.
Proof. intros H. unfold bind. destruct (c w); auto. Qed.

Section MainLoop.

Context (hw : Hardware) (fuel : nat).

(** A block whose condition fails is skipped. *)
Lemma stay_skip k s w :
  k + 1 <= settings_start_seq w -> stay fuel k s 0 w = Done 0 w.
Proof.
  intros H. unfold stay, bind, read. change (0 =? 0) with true. cbn [negb orb].
  destruct (Z.ltb_spec (settings_start_seq w) (k + 1)); [lia|reflexivity].
Qed.

(** A block whose condition holds plays its sequence. *)
Lemma stay_hit k s applied (F : Z -> M Z) w :
  applied <> 0 \/ settings_start_seq w <= k ->
  (a <- stay fuel k s applied ;; F a) w = play fuel k s (F 1) w.
Proof.
  intros H. unfold stay, play, bind, read, effect, ret.
  assert (C : negb (applied =? 0) || (settings_start_seq w <? k + 1) = true).
  { destruct H as [H|H].
    - destruct (Z.eqb_spec applied 0); [contradiction|reflexivity].
    - destruct (Z.ltb_spec (settings_start_seq w) (k + 1)); [|lia].
      apply orb_true_r. }
  rewrite C. destruct (s fuel (-1) _); reflexivity.
Qed.

Lemma stays_skip l w :
  Forall (fun ks => fst ks + 1 <= settings_start_seq w) l ->
  stays fuel l 0 w = Done 0 w.
Proof.
  induction 1 as [|ks l H _ IH]; [reflexivity|].
  cbn [stays fold_right]. unfold bind at 1. rewrite (stay_skip _ _ _ H).
  exact IH.
Qed.

Lemma stays_applied l : forall w, stays fuel l 1 w = plays fuel l w.
Proof.
  induction l as [|ks l IH]; intros w; [reflexivity|].
  cbn [stays plays fold_right].
  rewrite (stay_hit (fst ks) (snd ks) 1 _ w) by (left; discriminate).
  unfold play. apply bind_ext. intros _ w1. apply bind_ext. intros _ w2.
  apply IH.
Qed.

Lemma stays_from l1 ks l2 w :
  Forall (fun ks => fst ks + 1 <= settings_start_seq w) l1 ->
  settings_start_seq w <= fst ks ->
  stays fuel (l1 ++ ks :: l2) 0 w = plays fuel (ks :: l2) w.
Proof.
  intros H1 H2. induction H1 as [|ks1 l1 H _ IH].
  - cbn [app stays plays fold_right].
    rewrite (stay_hit (fst ks) (snd ks) 0 _ w) by (right; exact H2).
    unfold play. apply bind_ext. intros _ w1. apply bind_ext. intros _ w2.
    apply stays_applied.
  - cbn [app stays fold_right]. unfold bind at 1. rewrite (stay_skip _ _ _ H).
    exact IH.
Qed.

Lemma main_pass_stays applied w :
  main_pass hw fuel applied w =
  (ss <- read settings_start_seq ;;
   let '(button_pressed, applied) :=
     if applied =? 0
     then (if ss >? 0 then (1, applied) else (0, 1))
     else (0, applied) in
   demo hw fuel button_pressed ;;
   stays fuel (numbered hw) applied) w.
Proof.
  unfold main_pass. apply bind_ext. intros ss w1.
  destruct (if applied =? 0 then if ss >? 0 then (1, applied) else (0, 1)
            else (0, applied)) as [bp a].
  apply bind_ext. intros _ w2. unfold numbered, led_sequences, stays.
  cbn [combine fold_right fst snd].
  repeat (apply bind_ext; intros ? ?). reflexivity.
Qed.

Lemma demo_skip w : (0 < fuel)%nat -> demo hw fuel 1 w = Done 1 w.
Proof. intros H. destruct fuel; [lia|]. reflexivity. Qed.

End MainLoop.

Lemma numbered_split (hw : Hardware) (n : Z) :
  1 <= n <= 12 ->
  exists l1 ks l2,
    numbered hw = l1 ++ ks :: l2 /\
    Forall (fun ks' => fst ks' + 1 <= n) l1 /\
    fst ks = n /\
    List.filter (fun ks' => n <=? fst ks') (numbered hw) = ks :: l2.
Proof.
  intros Hn.
  assert (C : n = 1 \/ n = 2 \/ n = 3 \/ n = 4 \/ n = 5 \/ n = 6 \/ n = 7 \/
              n = 8 \/ n = 9 \/ n = 10 \/ n = 11 \/ n = 12) by lia.
  unfold numbered, led_sequences. cbn [combine].
  decompose [or] C; subst n; clear.
  - exists []. eexists; eexists. split; [reflexivity|].
    split; [constructor|]. split; reflexivity.
  - eexists [_]. eexists; eexists. split; [reflexivity|].
    split; [repeat constructor; cbn; lia|]. split; reflexivity.
  - eexists [_; _]. eexists; eexists. split; [reflexivity|].
    split; [repeat constructor; cbn; lia|]. split; reflexivity.
  - eexists [_; _; _]. eexists; eexists. split; [reflexivity|].
    split; [repeat constructor; cbn; lia|]. split; reflexivity.
  - eexists [_; _; _; _]. eexists; eexists. split; [reflexivity|].
    split; [repeat constructor; cbn; lia|]. split; reflexivity.
  - eexists [_; _; _; _; _]. eexists; eexists. split; [reflexivity|].
    split; [repeat constructor; cbn; lia|]. split; reflexivity.
  - eexists [_; _; _; _; _; _]. eexists; eexists. split; [reflexivity|].
    split; [repeat constructor; cbn; lia|]. split; reflexivity.
  - eexists [_; _; _; _; _; _; _]. eexists; eexists. split; [reflexivity|].
    split; [repeat constructor; cbn; lia|]. split; reflexivity.
  - eexists [_; _; _; _; _; _; _; _]. eexists; eexists. split; [reflexivity|].
    split; [repeat constructor; cbn; lia|]. split; reflexivity.
  - eexists [_; _; _; _; _; _; _; _; _]. eexists; eexists. split; [reflexivity|].
    split; [repeat constructor; cbn; lia|]. split; reflexivity.
  - eexists [_; _; _; _; _; _; _; _; _; _]. eexists; eexists. split; [reflexivity|].
    split; [repeat constructor; cbn; lia|]. split; reflexivity.
  - eexists [_; _; _; _; _; _; _; _; _; _; _]. eexists; eexists. split; [reflexivity|].
    split; [repeat constructor; cbn; lia|]. split; reflexivity.
Qed.

Lemma main_pass_resume (hw : Hardware) (fuel : nat) (n : Z) (w : World) :
  (0 < fuel)%nat -> 1 <= n <= 12 -> settings_start_seq w = n ->
  main_pass hw fuel 0 w = play_from hw fuel n w.
Proof.
  intros Hf Hn Hs. rewrite main_pass_stays. unfold bind at 1, read.
  rewrite Hs. change (0 =? 0) with true. cbv iota.
  destruct (Z.gtb_spec n 0); [|lia].
  unfold bind at 1. rewrite (demo_skip hw fuel w Hf).
  destruct (numbered_split hw n Hn) as (l1 & ks & l2 & E & F & K & L).
  unfold play_from. rewrite L, E.
  apply stays_from.
  - rewrite Hs. exact F.
  - rewrite Hs, K. lia.
Qed.

Lemma set_up_eq (hw : Hardware) (w : World) :
  length (mic_buffer w) = 16%nat ->
  (init_mic_buffer ;; effect (set_ADMUX 0) ;; load_settings) w
  = Done tt (set_up w).
Proof.
  intros Hl. rewrite (bind_done _ _ _ _ _ (init_mic_buffer_samples w Hl)).
  reflexivity.
Qed.

Lemma main_eq (hw : Hardware) (fuel : nat) (w : World) :
  length (mic_buffer w) = 16%nat ->
  main hw fuel w
  = (while_ fuel (fun _ _ => true) (main_pass hw fuel) 0 ;; ret 0) (set_up w).
Proof.
  intros Hl. unfold main.
  rewrite (bind_done _ _ _ _ _ (init_mic_buffer_samples w Hl)).
  reflexivity.
Qed.

(** After a restart with the number [e] of a sequence in the EEPROM,
    [main] resumes where the long press left off: having set up the ring
    buffer and the multiplexer and loaded the byte, it skips demo mode
    and the sequences before number [e], and plays sequence [e] and the
    ones after it in order, each until the button is tapped, before its
    loop goes round to demo mode. *)
Theorem main_resumes_stored_sequence (hw : Hardware) (fuel : nat) (e : Z) :
  1 <= e <= 12 ->
  settings_start_seq (set_up (boot e)) = e /\
  mic_buffer (set_up (boot e)) = replicate 16 512 /\
  wf (set_up (boot e)) /\
  main hw (S fuel) (boot e)
  = (applied <- play_from hw (S fuel) e ;;
     while_ fuel (fun _ _ => true) (main_pass hw (S fuel)) applied ;;
     ret 0) (set_up (boot e)).
Proof.
  intros He. split; [reflexivity|]. split; [reflexivity|].
  split; [repeat split; vm_compute; congruence|].
  rewrite (main_eq hw (S fuel) (boot e) eq_refl).
  cbn [while_]. rewrite bind_assoc. unfold bind at 1.
  rewrite (main_pass_resume hw (S fuel) e (set_up (boot e)) ltac:(lia) He eq_refl).
  reflexivity.
Qed.

Lemma main_resumes_stored_sequence_witness :
  1 <= 5 <= 12 /\
  main bench 1 (boot 5)
  = (applied <- play_from bench 1 5 ;;
     while_ 0 (fun _ _ => true) (main_pass bench 1) applied ;;
     ret 0) (set_up (boot 5)).
Proof.
  assert (H : 1 <= 5 <= 12) by lia.
  split; [exact H|]. apply (main_resumes_stored_sequence bench 0 5 H).
Defined.

(** Once the stored number has been applied, and on a first pass that
    finds 0 stored, a pass of the main loop is demo mode followed by all
    twelve sequences in order, each announced in [settings_start_seq] and
    played until the button is tapped. *)
Theorem main_pass_plays_all_twelve (hw : Hardware) (fuel : nat) (applied : Z)
    (w : World) :
  applied = 1 \/ (applied = 0 /\ settings_start_seq w = 0) ->
  main_pass hw fuel applied w
  = (demo hw fuel 0 ;;
     play fuel 1 (seq1 hw) (play fuel 2 (seq2 hw) (play fuel 3 (seq3 hw)
     (play fuel 4 (seq4 hw) (play fuel 5 (seq5 hw) (play fuel 6 (seq6 hw)
     (play fuel 7 (seq7 hw) (play fuel 8 (seq8 hw) (play fuel 9 (seq9 hw)
     (play fuel 10 (seq10 hw) (play fuel 11 (seq11 hw) (play fuel 12 (seq12 hw)
     (ret 1))))))))))))) w.
Proof.
  intros H. rewrite main_pass_stays. unfold bind at 1, read.
  assert (E : (if applied =? 0
               then if settings_start_seq w >? 0 then (1, applied) else (0, 1)
               else (0, applied)) = (0, 1)).
  { destruct H as [->|[-> ->]]; reflexivity. }
  rewrite E. apply bind_ext. intros _ w1. rewrite stays_applied. reflexivity.
Qed.

Lemma main_pass_plays_all_twelve_witness :
  (1 = 1 \/ (1 = 0 /\ settings_start_seq power_on = 0)) /\
  main_pass held 1 1 power_on
  = (demo held 1 0 ;;
     play 1 1 (seq1 held) (play 1 2 (seq2 held) (play 1 3 (seq3 held)
     (play 1 4 (seq4 held) (play 1 5 (seq5 held) (play 1 6 (seq6 held)
     (play 1 7 (seq7 held) (play 1 8 (seq8 held) (play 1 9 (seq9 held)
     (play 1 10 (seq10 held) (play 1 11 (seq11 held) (play 1 12 (seq12 held)
     (ret 1))))))))))))) power_on.
Proof.
  assert (H : 1 = 1 \/ (1 = 0 /\ settings_start_seq power_on = 0))
    by (left; reflexivity).
  split; [exact H|]. apply (main_pass_plays_all_twelve held 1 1 power_on H).
Defined.

Lemma main_pass_stall (hw : Hardware) (fuel : nat) (w : World) :
  (0 < fuel)%nat -> 13 <= settings_start_seq w ->
  main_pass hw fuel 0 w = Done 0 w.
Proof.
  intros Hf Hs. rewrite main_pass_stays. unfold bind at 1, read.
  change (0 =? 0) with true. cbv iota.
  destruct (Z.gtb_spec (settings_start_seq w) 0); [|lia].
  unfold bind at 1. rewrite (demo_skip hw fuel w Hf).
  apply stays_skip. unfold numbered, led_sequences. cbn [combine].
  repeat (constructor; [cbn [fst]; lia|]). constructor.
Qed.

Lemma stall_loop (hw : Hardware) (fuel n : nat) (w : World) :
  main_pass hw fuel 0 w = Done 0 w ->
  while_ n (fun _ _ => true) (main_pass hw fuel) 0 w = Spin w.
Proof.
  intros E. induction n as [|n IH]; [reflexivity|].
  cbn [while_]. unfold bind. rewrite E. exact IH.
Qed.

(** A stored byte above 12 stalls the device.  Started with such a byte
    in the EEPROM (an erased EEPROM reads 255), [main] takes it for a
    stored sequence, skips demo mode, finds no sequence with that number
    and goes round its outer loop for ever: it plays no sequence, stores
    to no compare register and never samples the button, so no press, long
    or short, changes anything. *)
Theorem stale_setting_stalls_main (hw : Hardware) (fuel : nat) (e : Z) :
  13 <= e ->
  main hw fuel (boot e) = Spin (set_up (boot e)) /\
  trace (set_up (boot e)) = [] /\
  now (set_up (boot e)) = 0 /\
  regs (set_up (boot e)) = (0, 0, 0, 0) /\
  settings_start_seq_ee (set_up (boot e)) = e.
Proof.
  intros He. split; [|repeat split; reflexivity].
  rewrite (main_eq hw fuel (boot e) eq_refl). unfold bind.
  destruct fuel as [|fuel]; [reflexivity|].
  rewrite (stall_loop hw (S fuel) (S fuel) (set_up (boot e))); [reflexivity|].
  apply main_pass_stall; [lia|exact He].
Qed.

Lemma stale_setting_stalls_main_witness :
  13 <= 255 /\ main held 100 (boot 255) = Spin (set_up (boot 255)).
Proof.
  assert (H : 13 <= 255) by lia.
  split; [exact H|]. apply (stale_setting_stalls_main held 100 255 H).
Defined.

(** ** How the main program can end *)

Lemma resumable_plain A (c : M A) :
  (forall w, wf w -> exists a w', c w = Done a w' /\ wf w') -> resumable c.
Proof.
  intros H w Hw. destruct (H w Hw) as (a & w' & -> & Hw'). exact Hw'.
Qed.

Lemma resumable_ret A (a : A) : resumable (ret a).
Proof. apply resumable_plain. intros w Hw. exists a, w. auto. Qed.

Lemma resumable_bind A B (c : M A) (f : A -> M B) :
  resumable c -> (forall a, resumable (f a)) -> resumable (bind c f).
Proof.
  intros Hc Hf w Hw. specialize (Hc w Hw). unfold bind.
  destruct (c w) as [a w1|v w1|w1|w1]; cbn [world_of] in *; try exact Hc.
  apply Hf, Hc.
Qed.

Lemma resumable_while S n cond (body : S -> M S) s :
  (forall s, resumable (body s)) -> resumable (while_ n cond body s).
Proof.
  intros Hb. revert s. induction n as [|n IH]; intros s w Hw.
  - exact Hw.
  - cbn [while_]. destruct (cond s w); [|exact Hw].
    apply (resumable_bind _ _ (body s) (while_ n cond body) (Hb s) IH w Hw).
Qed.

Section Resumable.

Context (hw : Hardware) (fuel : nat).

(** A sequence called with its number, or 0, in [settings_start_seq]. *)
Lemma resumable_call (s : nat -> Z -> M Z) (timeout : Z) (w : World) :
  In s (led_sequences hw) -> wf w -> 0 <= settings_start_seq w <= 12 ->
  match s fuel timeout w with
  | Restart w' =>
      settings_start_seq_ee w' = settings_start_seq w' /\
      0 <= settings_start_seq w' <= 12 /\
      wdt w' = Some WDTO_30MS
  | Returned _ _ => False
  | o => wf (world_of o)
  end.
Proof.
  intros Hin Hw Hs.
  pose proof (led_sequences_frugal hw s fuel timeout Hin w Hw) as F.
  pose proof (led_sequences_keep_start hw s fuel timeout w Hin) as K.
  destruct (led_sequences_built hw s Hin fuel timeout) as (c & E & _).
  rewrite E in *. unfold fn in *.
  destruct (c w) as [r w'|v w'|w'|w']; cbn [world_of] in *;
    try (apply F).
  destruct F as [F1 F2]. rewrite K. repeat split; try assumption; lia.
Qed.

Lemma resumable_play k s rest :
  0 <= k <= 12 -> In s (led_sequences hw) -> resumable rest ->
  resumable (play fuel k s rest).
Proof.
  intros Hk Hin Hr w Hw. unfold play, bind, effect.
  assert (Hw0 : wf (set_settings_start_seq k w)) by exact Hw.
  pose proof (resumable_call s (-1) (set_settings_start_seq k w) Hin Hw0 Hk) as C.
  destruct (s fuel (-1) (set_settings_start_seq k w)) as [r w'|v w'|w'|w'];
    cbn [world_of] in *; try exact C.
  apply Hr, C.
Qed.

Lemma resumable_stay k s applied :
  0 <= k <= 12 -> In s (led_sequences hw) ->
  resumable (stay fuel k s applied).
Proof.
  intros Hk Hin w Hw. unfold stay. unfold bind at 1, read.
  destruct (negb (applied =? 0) || (settings_start_seq w <? k + 1)).
  - apply (resumable_play k s (ret 1) Hk Hin (resumable_ret _ 1) w Hw).
  - exact Hw.
Qed.

Lemma resumable_stays l :
  Forall (fun ks => 0 <= fst ks <= 12 /\ In (snd ks) (led_sequences hw)) l ->
  forall applied, resumable (stays fuel l applied).
Proof.
  induction 1 as [|ks l [Hk Hin] _ IH]; intros applied; cbn [stays fold_right].
  - apply resumable_ret.
  - apply resumable_bind; [apply resumable_stay; assumption|exact IH].
Qed.

Lemma numbered_ok :
  Forall (fun ks => 0 <= fst ks <= 12 /\ In (snd ks) (led_sequences hw))
         (numbered hw).
Proof.
  unfold numbered, led_sequences. cbn [combine].
  repeat (constructor; [split; [cbn [fst]; lia|cbn [snd In]; tauto]|]).
  constructor.
Qed.

Lemma seq_table_sub s : In s (seq_table hw) -> In s (led_sequences hw).
Proof. unfold seq_table, led_sequences. cbn [In]. tauto. Qed.

Lemma resumable_demo bp : resumable (demo hw fuel bp).
Proof.
  unfold demo. apply resumable_while. intros b w Hw.
  unfold bind, effect, rand.
  destruct (b =? 0); [|exact Hw].
  unfold call_seq.
  destruct (seq_table hw !! _) as [s|] eqn:L; [|exact Hw].
  apply resumable_call.
  - apply seq_table_sub. apply list_elem_of_In. apply (list_elem_of_lookup_2 _ _ _ L).
  - exact Hw.
  - cbn. lia.
Qed.

Lemma resumable_main_pass applied : resumable (main_pass hw fuel applied).
Proof.
  intros w Hw. rewrite main_pass_stays. unfold bind at 1, read.
  destruct (if applied =? 0
            then if settings_start_seq w >? 0 then (1, applied) else (0, 1)
            else (0, applied)) as [bp a].
  apply (resumable_bind _ _ (demo hw fuel bp) (fun _ => stays fuel (numbered hw) a)
           (resumable_demo bp) (fun _ => resumable_stays _ numbered_ok a) w Hw).
Qed.

Lemma resumable_main : resumable (main hw fuel).
Proof.
  unfold main.
  apply resumable_bind; [|intros _].
  { apply resumable_plain. intros w Hw. eexists; eexists.
    split; [reflexivity|]. exact (step0_wf hw _ _ (step0_init_mic hw) w Hw). }
  apply resumable_bind; [|intros _].
  { apply resumable_plain. intros w Hw. eexists; eexists.
    split; [reflexivity|]. split; [apply Hw|reflexivity]. }
  apply resumable_bind; [|intros _].
  { apply resumable_plain. intros w Hw. eexists; eexists.
    split; [reflexivity|]. exact Hw. }
  apply resumable_bind; [|intros _; apply resumable_ret].
  apply resumable_while. intros a. apply resumable_main_pass.
Qed.

Lemma endless_main : endless (main hw fuel).
Proof.
  unfold main.
  apply endless_bind_r; intros _. apply endless_bind_r; intros _.
  apply endless_bind_r; intros _. apply endless_bind_l.
  apply endless_while. reflexivity.
Qed.

End Resumable.

(** [main] never returns.  Whatever the environment does, a run of
    [main] can end in one way only, the watchdog restart of a long press;
    and at that restart the EEPROM holds the number of the sequence that
    was being played, 1 to 12, or 0 when the press came in demo mode, the
    same number that [settings_start_seq] holds, and the watchdog is
    armed with the 30 ms timeout. *)
Theorem main_ends_only_by_long_press (hw : Hardware) (fuel : nat) (w : World) :
  wf w ->
  match main hw fuel w with
  | Done _ _ => False
  | Returned _ _ => False
  | Restart w' =>
      settings_start_seq_ee w' = settings_start_seq w' /\
      0 <= settings_start_seq_ee w' <= 12 /\
      wdt w' = Some WDTO_30MS
  | Spin w' => wf w'
  end.
Proof.
  intros Hw. pose proof (resumable_main hw fuel w Hw) as R.
  pose proof (endless_main hw fuel w) as E.
  destruct (main hw fuel w) as [r w'|v w'|w'|w']; cbn [world_of] in *;
    try contradiction; try exact R.
  destruct R as (R1 & R2 & R3). rewrite R1. auto.
Qed.

Lemma main_ends_only_by_long_press_witness :
  wf (boot 3) /\
  exists w', main held 3000 (boot 3) = Restart w' /\
             settings_start_seq_ee w' = settings_start_seq w' /\
             0 <= settings_start_seq_ee w' <= 12.
Proof.
  assert (H : wf (boot 3)) by (repeat split; vm_compute; congruence).
  split; [exact H|].
  pose proof (main_ends_only_by_long_press held 3000 (boot 3) H) as M.
  assert (E : main held 3000 (boot 3)
              = Restart (world_of (main held 3000 (boot 3))))
    by (vm_compute; reflexivity).
  rewrite E in M. eexists. split; [exact E|].
  destruct M as (M1 & M2 & _). split; [exact M1|exact M2].
Defined.

(** ** Brightness over a pass without button activity *)

Lemma shown_app (l1 l2 : list event) : shown (l1 ++ l2) = shown l2 ++ shown l1.
Proof. unfold shown. rewrite flat_map_app, rev_app_distr. reflexivity. Qed.

Lemma u8_add_l (a b : Z) : u8 (u8 a + b) = u8 (a + b).
Proof. unfold u8. apply Z.add_mod_idemp_l. lia. Qed.

Lemma quietly_ret A (a : A) pre : quietly pre (ret a) pre [].
Proof.
  intros w Hw Hr. exists a, w, []. repeat split; try assumption; apply Hw.
Qed.

Lemma quietly_bind A B (c : M A) (f : A -> M B) pre mid post lv1 lv2 :
  quietly pre c mid lv1 -> (forall a, quietly mid (f a) post lv2) ->
  quietly pre (bind c f) post (lv1 ++ lv2).
Proof.
  intros Hc Hf w Hw Hr.
  destruct (Hc w Hw Hr) as (a & w1 & n1 & E1 & Hw1 & R1 & T1 & S1).
  destruct (Hf a w1 Hw1 R1) as (b & w2 & n2 & E2 & Hw2 & R2 & T2 & S2).
  exists b, w2, (n2 ++ n1). rewrite (bind_done _ _ _ _ _ E1).
  split; [exact E2|]. split; [exact Hw2|]. split; [exact R2|].
  split; [rewrite T2, T1, app_assoc; reflexivity|].
  rewrite shown_app, S1, S2. reflexivity.
Qed.

Section Quietly.

Context (hw : Hardware).
Hypothesis Hq : quiet hw.

Lemma quietly_poll pre : quietly pre (poll hw) pre [].
Proof.
  intros w Hw Hr. pose proof (check_wf hw w Hw) as Hw'.
  destruct (check_button_input_cases hw w (proj2 Hw)) as (w' & _ & H).
  pose proof (Hq (now w)) as Q. apply Z.ltb_ge in Q. rewrite Q in H.
  destruct H as (E & T & _ & R & _). rewrite E in Hw'. cbn [world_of] in Hw'.
  exists tt, w', [EvAdc 0 (analog hw 0 (now w))].
  unfold poll. rewrite (bind_done _ _ _ _ _ E).
  split; [reflexivity|]. split; [exact Hw'|]. split; [congruence|].
  split; [exact T|reflexivity].
Qed.

Lemma quietly_delay pre n : quietly pre (_delay_ms hw n) pre [].
Proof.
  intros w Hw Hr.
  pose proof (step0_wf hw _ _ (step0_delay hw n) w Hw) as Hw'.
  destruct (delay_ms_eq hw n w) as (w' & E & _ & T & _ & R & _).
  rewrite E in Hw'. exists tt, w', [EvDelay n].
  split; [exact E|]. split; [exact Hw'|]. split; [congruence|].
  split; [exact T|reflexivity].
Qed.

Lemma quietly_write_all pre v : quietly pre (write_all v) (all4 (u8 v)) [u8 v].
Proof.
  intros w Hw Hr.
  destruct (write_all_eq v w) as (w' & E & N & T & A & R & _).
  exists tt, w'. eexists. split; [exact E|].
  split; [|split; [exact R|split; [exact T|reflexivity]]].
  pose proof (keeps_built (step0 hw) wf (step0_wf hw) _ (write_all v)) as K.
  assert (B : built (step0 hw) _ (write_all v)).
  { unfold write_all. repeat (apply built_bind; [apply built_step; constructor|intros _]).
    apply built_step; constructor. }
  specialize (K B w Hw). rewrite E in K. exact K.
Qed.

Lemma quietly_bump_all a d :
  quietly (all4 a) (bump_all d) (all4 (u8 (a + d))) [u8 (a + d)].
Proof.
  intros w Hw Hr. unfold regs, all4 in Hr. injection Hr as R1 R2 R3 R4.
  assert (B : built (step0 hw) _ (bump_all d)).
  { unfold bump_all, bump.
    repeat (apply built_bind; [|intros]); apply built_step; constructor. }
  pose proof (keeps_built (step0 hw) wf (step0_wf hw) _ (bump_all d) B w Hw) as K.
  assert (E : bump_all d w = Done tt (world_of (bump_all d w))) by reflexivity.
  assert (R : regs (world_of (bump_all d w))
              = (u8 (OCR0A w + d), u8 (OCR0B w + d), u8 (OCR1B w + d), u8 (OCR1A w + d)))
    by reflexivity.
  assert (T : trace (world_of (bump_all d w))
              = [EvPwm R_OCR1A (u8 (OCR1A w + d)); EvPwm R_OCR1B (u8 (OCR1B w + d));
                 EvPwm R_OCR0B (u8 (OCR0B w + d)); EvPwm R_OCR0A (u8 (OCR0A w + d))]
                ++ trace w) by reflexivity.
  revert K E R T. generalize (world_of (bump_all d w)). intros w' K E R T.
  rewrite R1, R2, R3, R4 in R, T.
  exists tt, w'. eexists. split; [exact E|]. split; [exact K|].
  split; [exact R|]. split; [exact T|reflexivity].
Qed.

(** [n] rounds of poll and wait. *)
Lemma quietly_hold_rounds pre ms (n : nat) i :
  quietly pre (rounds n i 1 (fun _ _ => poll hw ;; _delay_ms hw ms) tt) pre [].
Proof.
  revert i. induction n as [|n IH]; intros i; cbn [rounds].
  - apply quietly_ret.
  - change (@nil Z) with (([] ++ []) ++ @nil Z).
    eapply quietly_bind; [|intros []; apply IH].
    eapply quietly_bind; [apply quietly_poll|intros _; apply quietly_delay].
Qed.

Lemma ramp_step (a d : Z) (n : nat) :
  u8 (a + d) :: ramp (u8 (a + d)) d n = ramp a d (S n).
Proof.
  unfold ramp. cbn [seq map]. f_equal; [f_equal; lia|].
  rewrite <- seq_shift, map_map. apply map_ext. intros j.
  rewrite u8_add_l. f_equal. lia.
Qed.

(** [n] rounds of poll, step all four channels by [d], wait. *)
Lemma quietly_drift_rounds d ms (n : nat) : forall a i,
  quietly (all4 a)
    (rounds n i 1 (fun _ _ => poll hw ;; bump_all d ;; _delay_ms hw ms) tt)
    (all4 (if n is O then a else u8 (a + Z.of_nat n * d))) (ramp a d n).
Proof.
  induction n as [|n IH]; intros a i; cbn [rounds].
  - apply quietly_ret.
  - rewrite <- ramp_step.
    change (u8 (a + d) :: ramp (u8 (a + d)) d n)
      with (([] ++ [u8 (a + d)] ++ []) ++ ramp (u8 (a + d)) d n).
    apply (quietly_bind _ _ _ _ (all4 a) (all4 (u8 (a + d)))).
    + eapply quietly_bind; [apply quietly_poll|intros _].
      eapply quietly_bind; [apply quietly_bump_all|intros _; apply quietly_delay].
    + intros []. specialize (IH (u8 (a + d)) (i + 1)).
      destruct n as [|n].
      * replace (u8 (a + Z.of_nat 1 * d)) with (u8 (a + d)) by (f_equal; lia).
        exact IH.
      * replace (u8 (a + Z.of_nat (S (S n)) * d))
          with (u8 (u8 (a + d) + Z.of_nat (S n) * d))
          by (rewrite u8_add_l; f_equal; lia).
        exact IH.
Qed.

(** [n] rounds of poll, set all four channels to the index, wait. *)
Lemma quietly_sweep_rounds d ms (n : nat) : forall pre i,
  quietly pre
    (rounds n i d (fun j _ => poll hw ;; write_all j ;; _delay_ms hw ms) tt)
    (if n is O then pre else all4 (u8 (i + (Z.of_nat n - 1) * d)))
    (ramp (i - d) d n).
Proof.
  induction n as [|n IH]; intros pre i; cbn [rounds].
  - apply quietly_ret.
  - assert (Q : ramp (i - d) d (S n) = u8 i :: ramp i d n).
    { rewrite <- ramp_step. replace (i - d + d) with i by lia. f_equal.
      unfold ramp. apply map_ext. intros j. rewrite u8_add_l. reflexivity. }
    rewrite Q.
    change (u8 i :: ramp i d n) with (([] ++ [u8 i] ++ []) ++ ramp i d n).
    apply (quietly_bind _ _ _ _ pre (all4 (u8 i))).
    + eapply quietly_bind; [apply quietly_poll|intros _].
      eapply quietly_bind; [apply quietly_write_all|intros _; apply quietly_delay].
    + intros []. specialize (IH (all4 (u8 i)) (i + d)).
      replace (i + d - d) with i in IH by lia.
      destruct n as [|n].
      * replace (i + (Z.of_nat 1 - 1) * d) with i by lia. exact IH.
      * replace (i + (Z.of_nat (S (S n)) - 1) * d)
          with (i + d + (Z.of_nat (S n) - 1) * d) by lia.
        exact IH.
Qed.

End Quietly.

Lemma quietly_eq A (c : M A) pre post post' lv lv' :
  quietly pre c post lv -> post = post' -> lv = lv' -> quietly pre c post' lv'.
Proof. intros H <- <-. exact H. Qed.

Section Seq8.

Context (hw : Hardware).
Hypothesis Hq : quiet hw.

Lemma quietly_hold pre (n : nat) ms :
  quietly pre (hold hw (Z.of_nat n) ms) pre [].
Proof.
  unfold hold, for_lt.
  replace (Z.to_nat ((Z.of_nat n - 0 + 1 - 1) / 1)) with n
    by (rewrite Z.div_1_r; lia).
  apply quietly_hold_rounds, Hq.
Qed.

Lemma quietly_drift a (n : nat) d ms :
  quietly (all4 a) (drift hw (Z.of_nat n) d ms)
          (all4 (if n is O then a else u8 (a + Z.of_nat n * d))) (ramp a d n).
Proof.
  unfold drift, for_lt.
  replace (Z.to_nat ((Z.of_nat n - 0 + 1 - 1) / 1)) with n
    by (rewrite Z.div_1_r; lia).
  apply quietly_drift_rounds, Hq.
Qed.

Lemma quietly_seq8_prelude pre :
  quietly pre (seq8_prelude hw) (all4 59) (ramp (-1) 1 60).
Proof.
  unfold seq8_prelude, for_lt.
  change (Z.to_nat ((60 - 0 + 1 - 1) / 1)) with 60%nat.
  exact (quietly_sweep_rounds hw Hq 1 2 60 pre 0).
Qed.

Lemma quietly_seq8_body fuel :
  quietly (all4 59) (seq8_body hw fuel tt) (all4 59) seq8_levels.
Proof.
  unfold seq8_body.
  eapply quietly_eq.
  - eapply quietly_bind; [apply (quietly_hold _ 100 5)|intros _].
    eapply quietly_bind; [apply (quietly_drift 59 60 (-1) 3)|intros _].
    eapply quietly_bind; [apply (quietly_drift _ 60 1 4)|intros _].
    eapply quietly_bind; [apply (quietly_hold _ 100 10)|intros _].
    eapply quietly_bind; [apply (quietly_drift _ 40 1 2)|intros _].
    eapply quietly_bind; [apply (quietly_drift _ 40 (-1) 2)|intros _].
    eapply quietly_bind; [apply (quietly_drift _ 30 (-1) 5)|intros _].
    eapply quietly_bind; [apply (quietly_hold _ 100 20)|intros _].
    eapply quietly_bind; [apply (quietly_drift _ 30 1 5)|intros _].
    eapply quietly_bind; [apply (quietly_hold _ 100 30)|intros _].
    eapply quietly_bind; [apply (quietly_drift _ 40 1 2)|intros _].
    eapply quietly_bind; [apply (quietly_hold _ 100 20)|intros _].
    apply (quietly_drift _ 40 (-1) 2).
  - vm_compute. reflexivity.
  - vm_compute. reflexivity.
Qed.

End Seq8.

(** The brightness of [seq8] underflows.  Without button activity the
    lead-in of [seq8] leaves the four channels at 59; every pass of its
    loop then starts and ends at 59, and the first ramp of the pass, 60
    decrements, takes the 8-bit compare registers one step below zero:
    the 59th store of the pass is 0, the 60th is 255, full brightness,
    held for the 3 ms wait of that step and the poll that follows, and
    the 61st, the first increment of the next ramp, is 0 again. *)
Theorem seq8_underflows_to_full_brightness (hw : Hardware) (fuel : nat)
    (w : World) :
  quiet hw ->
  wf w ->
  exists w1 w2 new,
    seq8_prelude hw w = Done tt w1 /\
    regs w1 = (59, 59, 59, 59) /\
    seq8_body hw fuel tt w1 = Done tt w2 /\
    regs w2 = (59, 59, 59, 59) /\
    trace w2 = new ++ trace w1 /\
    shown new = seq8_levels /\
    length seq8_levels = 340%nat /\
    firstn 3 (skipn 58 seq8_levels) = [0; 255; 0].
Proof.
  intros Hq Hw.
  destruct (quietly_seq8_prelude hw Hq (regs w) w Hw eq_refl)
    as ([] & w1 & n1 & E1 & Hw1 & R1 & _).
  destruct (quietly_seq8_body hw Hq fuel w1 Hw1 R1)
    as ([] & w2 & n2 & E2 & _ & R2 & T2 & S2).
  exists w1, w2, n2. repeat (split; [assumption|]).
  split; vm_compute; reflexivity.
Qed.

Lemma seq8_underflows_to_full_brightness_witness :
  quiet bench /\ wf power_on /\
  exists w1 w2 new,
    seq8_prelude bench power_on = Done tt w1 /\
    seq8_body bench 1 tt w1 = Done tt w2 /\
    trace w2 = new ++ trace w1 /\
    shown new = seq8_levels.
Proof.
  assert (Hq : quiet bench) by (intros t; cbn; lia).
  split; [exact Hq|]. split; [exact power_on_wf|].
  destruct (seq8_underflows_to_full_brightness bench 1 power_on Hq power_on_wf)
    as (w1 & w2 & new & E1 & _ & E2 & _ & T & S & _).
  exists w1, w2, new. repeat (split; [assumption|]). exact S.
Defined.
